(** * kops reconciliation tasks: a shallow embedding

    The development embeds the task implementations of the repository
    (OpenStack [Subnet] and [LBListener], Azure [Disk], the Terraform
    rendering of the AWS [LaunchTemplate], and the node log dumper) as
    Rocq functions, and proves properties of their discovery, validation
    and apply routines.

    Go values are embedded as follows.
    - A pointer to a scalar ([*string], [*int], [*bool]) is an [option]:
      [None] is the nil pointer.
    - A pointer to a task found in a field ([*Network], [*LBPool]) is an
      [option] of the record it points to.  The routines embedded here only
      read through such pointers; the one object they write to is the task
      passed as [e] (or the receiver of [Find]), and that object is passed
      in and handed back explicitly.
    - A slice is an [option (list A)]: [None] is the nil slice, [Some []] an
      empty slice that is not nil.
    - A Go map is a [gmap]; where the source ranges over a map, the model
      takes the entries in the order of the iteration, since Go leaves that
      order unspecified.
    - Calls that leave the process (cloud API, SSH) and calls to functions of
      the repository whose bodies are not part of the embedded sources are
      events: each is appended to a history, and its answer is given by an
      environment that may depend on the history so far.
    - A nil dereference is the outcome [Panics]. *)

From Stdlib Require Import String List ZArith Bool.
From stdpp Require Import base option list gmap strings sorting.

(** ** Go values *)

Definition slice (A : Type) : Type := option (list A).

Definition elems {A} (s : slice A) : list A := default [] s.

Definition len {A} (s : slice A) : nat := length (elems s).

(** [append(s, x)]: the result is never the nil slice. *)
Definition append {A} (s : slice A) (x : A) : slice A := Some (elems s ++ [x]).

Class Zero (A : Type) : Type := zero : A.
#[global] Instance Zero_string : Zero string := "".
#[global] Instance Zero_Z : Zero Z := 0%Z.
#[global] Instance Zero_bool : Zero bool := false.

(** An argument of a format string. [FmtPointer] is a pointer printed with
    the verb v, which shows the address and not the pointee. *)
Inductive fmtArg : Type :=
  | FmtString (s : string)
  | FmtInt (n : Z)
  | FmtPointer (p : option string).

(** Go errors.  [RequiredField] and [CannotChangeField] are the constructors
    of package fi; [Errorf] is [fmt.Errorf] with its format string and its
    arguments, and [Wrapf] is [fmt.Errorf] whose last argument is the error
    [cause]; [External] is an error reported by a collaborator outside the
    program. *)
Inductive error : Type :=
  | RequiredField (key : string)
  | CannotChangeField (key : string)
  | Errorf (format : string) (args : list fmtArg)
  | Wrapf (format : string) (args : list fmtArg) (cause : error)
  | External (msg : string).

(** A Go result pair (value, error), of which callers use the value only
    when the error is nil. *)
Inductive result (A : Type) : Type :=
  | Ok (a : A)
  | Err (e : error).
Arguments Ok {A} a.
Arguments Err {A} e.

(** ** Package fi: the helpers the tasks use *)

Module fi.

(** [fi.Lifecycle] is a string type. *)
Definition Lifecycle : Type := string.

(** The pointee, or the zero value for a nil pointer. *)
Definition ValueOf {A} `{Zero A} (p : option A) : A := default zero p.

Definition PtrTo {A} (a : A) : option A := Some a.

Definition ArrayContains (l : slice string) (x : string) : bool :=
  bool_decide (x ∈ elems l).

Definition RequiredField (key : string) : error := RequiredField key.

Definition CannotChangeField (key : string) : error := CannotChangeField key.

End fi.

(** ** Effects: a history of events, and panics *)

Inductive outcome (A : Type) : Type :=
  | Returns (a : A)
  | Panics.
Arguments Returns {A} a.
Arguments Panics {A}.

Definition M (Ev : Type) (A : Type) : Type := list Ev → outcome A * list Ev.

#[global] Instance M_ret {Ev} : MRet (M Ev) :=
  λ A (a : A) h, (Returns a, h).

#[global] Instance M_bind {Ev} : MBind (M Ev) :=
  λ A B (k : A → M Ev B) (m : M Ev A) h,
    match m h with
    | (Returns a, h') => k a h'
    | (Panics, h') => (Panics, h')
    end.

(** An event [ev] whose answer [resp] is read off the history before it. *)
Definition emit {Ev R} (ev : Ev) (resp : list Ev → R) : M Ev R :=
  λ h, (Returns (resp h), h ++ [ev]).

(** A question to the environment that leaves no event. *)
Definition ask {Ev R} (resp : list Ev → R) : M Ev R :=
  λ h, (Returns (resp h), h).

Definition panic {Ev A} : M Ev A := λ h, (Panics, h).

(** Dereference of a pointer: nil panics. *)
Definition deref {Ev A} (p : option A) : M Ev A :=
  match p with
  | Some a => mret a
  | None => panic
  end.

(** The events a computation adds to the history [h]. *)
Definition trace {Ev A} (m : M Ev A) (h : list Ev) : list Ev :=
  drop (length h) (snd (m h)).

(** ** Package openstacktasks *)

Module openstacktasks.

(** Values of the gophercloud client library, with the fields the tasks use. *)
Module subnets.
Record Subnet : Type := {
  ID : string;
  Name : string;
  NetworkID : string;
  CIDR : string;
  DNSNameservers : slice string;
  Tags : slice string
}.
Record ListOpts : Type := {
  lo_ID : string;
  lo_Name : string;
  lo_NetworkID : string;
  lo_CIDR : string;
  lo_EnableDHCP : option bool;
  lo_IPVersion : Z
}.
Record CreateOpts : Type := {
  co_Name : string;
  co_NetworkID : string;
  co_IPVersion : Z;
  co_CIDR : string;
  co_EnableDHCP : option bool;
  co_DNSNameservers : slice string
}.
Record UpdateOpts : Type := {
  uo_DNSNameservers : option (slice string)
}.
End subnets.

Module networks.
Record Network : Type := { ID : string; Name : string }.
End networks.

Module pools.
Record Pool : Type := { ID : string; Name : string }.
End pools.

Module listeners.
Record Listener : Type := {
  ID : string;
  Name : string;
  ProtocolPort : Z;
  AllowedCIDRs : slice string;
  Pools : slice pools.Pool;
  DefaultPoolID : string
}.
Record ListOpts : Type := { lo_ID : string; lo_Name : string }.
Inductive Protocol : Type := ProtocolTCP.
Record CreateOpts : Type := {
  co_Name : string;
  co_DefaultPoolID : string;
  co_LoadbalancerID : string;
  co_Protocol : Protocol;
  co_ProtocolPort : Z;
  co_AllowedCIDRs : slice string
}.
Record UpdateOpts : Type := { uo_AllowedCIDRs : option (slice string) }.
End listeners.

(** The tasks [Network], [LB] and [LBPool] are declared in files that are not
    embedded; the records keep the fields that the embedded routines read. *)
Record Network : Type := { Network_ID : option string }.

Record LB : Type := { LB_ID : option string; LB_Provider : option string }.

Record LBPool : Type := {
  LBPool_ID : option string;
  LBPool_Loadbalancer : option LB
}.

(** [openstack.ResourceTypeSubnet] and its siblings. *)
Inductive ResourceType : Type := ResourceTypeSubnet.

(** Events of the package: methods of [openstack.OpenstackCloud], calls of
    the gophercloud client, and the two constructors of tasks whose bodies
    are in files that are not embedded (both are handed the cloud).  The
    accessors [NetworkingClient] and [LoadBalancerClient], which hand out
    the client of a later call, are not events. *)
Inductive call : Type :=
  | ListSubnets (opt : subnets.ListOpts)
  | GetNetwork (id : string)
  | CreateSubnet (opt : subnets.CreateOpts)
  | AppendTag (resource : ResourceType) (id tag : string)
  | subnets_Update (id : string) (opt : subnets.UpdateOpts)
  | ListListeners (opt : listeners.ListOpts)
  | GetPool (id : string)
  | UseLoadBalancerVIPACL
  | CreateListener (opt : listeners.CreateOpts)
  | listeners_Update (id : string) (opt : listeners.UpdateOpts)
  | NewNetworkTaskFromCloud (lifecycle : fi.Lifecycle) (network : networks.Network)
      (tag : option string)
  | NewLBPoolTaskFromCloud (lifecycle : fi.Lifecycle) (pool : pools.Pool)
      (find : option LBPool).

(** The calls that create or change a cloud resource. *)
Definition is_mutation (c : call) : bool :=
  match c with
  | CreateSubnet _ | AppendTag _ _ _ | subnets_Update _ _
  | CreateListener _ | listeners_Update _ _ => true
  | _ => false
  end.

(** The answers of the environment, each a function of the history. *)
Record OpenstackCloud : Type := {
  ListSubnets_resp : list call → subnets.ListOpts → result (slice subnets.Subnet);
  GetNetwork_resp : list call → string → result networks.Network;
  CreateSubnet_resp : list call → subnets.CreateOpts → result subnets.Subnet;
  AppendTag_resp : list call → ResourceType → string → string → option error;
  subnets_Update_resp : list call → string → subnets.UpdateOpts → option error;
  ListListeners_resp : list call → listeners.ListOpts → result (slice listeners.Listener);
  GetPool_resp : list call → string → result pools.Pool;
  UseLoadBalancerVIPACL_resp : list call → result bool;
  CreateListener_resp : list call → listeners.CreateOpts → result listeners.Listener;
  listeners_Update_resp : list call → string → listeners.UpdateOpts → option error;
  NewNetworkTaskFromCloud_resp :
    list call → fi.Lifecycle → networks.Network → option string → result Network;
  NewLBPoolTaskFromCloud_resp :
    list call → fi.Lifecycle → pools.Pool → option LBPool → result LBPool
}.

(** The task universe of [fi.CloudupTask], as far as the package tells the
    types apart. *)
Inductive CloudupTask : Type :=
  | TaskNetwork (n : Network)
  | TaskLB (l : LB)
  | TaskLBPool (p : LBPool)
  | TaskOther (kind : string) (name : string).

Module Subnet.

Record t : Type := {
  ID : option string;
  Name : option string;
  Network : option openstacktasks.Network;
  CIDR : option string;
  DNSServers : slice (option string);
  Tag : option string;
  Lifecycle : fi.Lifecycle
}.

Definition set_ID (id : option string) (s : t) : t :=
  {| ID := id; Name := Name s; Network := Network s; CIDR := CIDR s;
     DNSServers := DNSServers s; Tag := Tag s; Lifecycle := Lifecycle s |}.

(** [GetDependencies], over the entries of [tasks] in the order in which
    the range statement yields them. *)
Definition GetDependencies (tasks : list (string * CloudupTask)) : slice CloudupTask :=
  fold_left
    (λ deps entry,
       match snd entry with
       | TaskNetwork _ => append deps (snd entry)
       | _ => deps
       end)
    tasks None.

Definition CompareWithID (s : t) : option string := ID s.

Definition CheckChanges (a : option t) (e changes : t) : option error :=
    match a with
    | None =>
        if Name e is None then Some (fi.RequiredField "Name")
        else if Network e is None then Some (fi.RequiredField "Network")
        else if CIDR e is None then Some (fi.RequiredField "CIDR")
        else None
    | Some _ =>
        if Name changes is Some _ then Some (fi.CannotChangeField "Name")
        else if Network changes is Some _ then Some (fi.CannotChangeField "Network")
        else if CIDR changes is Some _ then Some (fi.CannotChangeField "CIDR")
        else None
    end.

Definition NewSubnetTaskFromCloud (cloud : OpenstackCloud) (lifecycle : fi.Lifecycle)
    (subnet : subnets.Subnet) (find : option t) : M call (result t * option t) :=
  network ← emit (GetNetwork (subnets.NetworkID subnet))
              (λ h, GetNetwork_resp cloud h (subnets.NetworkID subnet));
  match network with
  | Err err =>
      mret (Err (Wrapf "NewSubnetTaskFromCloud: Failed to get network with ID %s: %v"
                   [FmtString (subnets.NetworkID subnet)] err), find)
  | Ok network =>
      f ← deref find;
      networkTask ← emit (NewNetworkTaskFromCloud lifecycle network (Tag f))
                      (λ h, NewNetworkTaskFromCloud_resp cloud h lifecycle network (Tag f));
      match networkTask with
      | Err err =>
          mret (Err (Wrapf "error creating network task from cloud: %v" [] err), find)
      | Ok networkTask =>
          let nameservers := Some (fi.PtrTo <$> elems (subnets.DNSNameservers subnet)) in
          let tag :=
            if fi.ArrayContains (subnets.Tags subnet) (fi.ValueOf (Tag f))
            then fi.ValueOf (Tag f) else "" in
          let actual :=
            {| ID := fi.PtrTo (subnets.ID subnet);
               Name := fi.PtrTo (subnets.Name subnet);
               Network := Some networkTask;
               CIDR := fi.PtrTo (subnets.CIDR subnet);
               Lifecycle := lifecycle;
               DNSServers := nameservers;
               Tag := fi.PtrTo tag |} in
          mret (Ok actual, Some (set_ID (ID actual) f))
      end
  end.

(** The options [Find] lists the subnets with. *)
Definition listOpts (s : t) (network : openstacktasks.Network) : subnets.ListOpts :=
  {| subnets.lo_ID := fi.ValueOf (ID s);
     subnets.lo_Name := fi.ValueOf (Name s);
     subnets.lo_NetworkID := fi.ValueOf (Network_ID network);
     subnets.lo_CIDR := fi.ValueOf (CIDR s);
     subnets.lo_EnableDHCP := fi.PtrTo true;
     subnets.lo_IPVersion := 4 |}.

(** [Find] hands back the receiver next to its result, since
    [NewSubnetTaskFromCloud] writes the identifier it found into it. *)
Definition Find (cloud : OpenstackCloud) (s : t) : M call (result (option t) * t) :=
  network ← deref (Network s);
  let opt := listOpts s network in
  rs ← emit (ListSubnets opt) (λ h, ListSubnets_resp cloud h opt);
  match rs with
  | Err err => mret (Err err, s)
  | Ok rs =>
      if rs is None then mret (Ok None, s)
      else if negb (len rs =? 1) then
        mret (Err (Errorf "found multiple subnets with name: %s"
                     [FmtString (fi.ValueOf (Name s))]), s)
      else
        r ← deref (elems rs !! 0);
        '(res, find) ← NewSubnetTaskFromCloud cloud (Lifecycle s) r (Some s);
        mret (match res with Ok actual => Ok (Some actual) | Err err => Err err end,
              default s find)
  end.

(** The options [RenderOpenstack] creates the subnet with. *)
Definition createOpts (e : t) (network : openstacktasks.Network) : subnets.CreateOpts :=
  {| subnets.co_Name := fi.ValueOf (Name e);
     subnets.co_NetworkID := fi.ValueOf (Network_ID network);
     subnets.co_IPVersion := 4;
     subnets.co_CIDR := fi.ValueOf (CIDR e);
     subnets.co_EnableDHCP := fi.PtrTo true;
     subnets.co_DNSNameservers :=
       if 0 <? len (DNSServers e)
       then Some (fi.ValueOf <$> elems (DNSServers e)) else None |}.

(** [RenderOpenstack] hands back the task [e] next to its result. *)
Definition RenderOpenstack (cloud : OpenstackCloud) (a : option t) (e changes : t)
    : M call (option error * t) :=
  match a with
  | None =>
      network ← deref (Network e);
      let opt := createOpts e network in
      v ← emit (CreateSubnet opt) (λ h, CreateSubnet_resp cloud h opt);
      match v with
      | Err err => mret (Some (Wrapf "Error creating subnet: %v" [] err), e)
      | Ok v =>
          err ← emit (AppendTag ResourceTypeSubnet (subnets.ID v) (fi.ValueOf (Tag e)))
                  (λ h, AppendTag_resp cloud h ResourceTypeSubnet (subnets.ID v)
                          (fi.ValueOf (Tag e)));
          match err with
          | Some err => mret (Some (Wrapf "Error appending tag to subnet: %v" [] err), e)
          | None => mret (None, set_ID (fi.PtrTo (subnets.ID v)) e)
          end
      end
  | Some a =>
      err ← (if Tag changes is Some _ then
               emit (AppendTag ResourceTypeSubnet (fi.ValueOf (ID a)) (fi.ValueOf (Tag changes)))
                 (λ h, AppendTag_resp cloud h ResourceTypeSubnet (fi.ValueOf (ID a))
                         (fi.ValueOf (Tag changes)))
             else mret None);
      match err with
      | Some err => mret (Some (Wrapf "error appending tag to subnet: %v" [] err), e)
      | None =>
          let opt :=
            {| subnets.uo_DNSNameservers :=
                 if DNSServers changes is Some _
                 then Some (Some (fi.ValueOf <$> elems (DNSServers e))) else None |} in
          err ← emit (subnets_Update (fi.ValueOf (ID a)) opt)
                  (λ h, subnets_Update_resp cloud h (fi.ValueOf (ID a)) opt);
          match err with
          | Some err =>
              mret (Some (Wrapf "error updating subnet %v: %v" [FmtPointer (ID a)] err), e)
          | None => mret (None, set_ID (ID a) e)
          end
      end
  end.

End Subnet.

Module LBListener.

Record t : Type := {
  ID : option string;
  Name : option string;
  Port : option Z;
  Pool : option LBPool;
  Lifecycle : fi.Lifecycle;
  AllowedCIDRs : slice string
}.

Definition set_ID (id : option string) (s : t) : t :=
  {| ID := id; Name := Name s; Port := Port s; Pool := Pool s;
     Lifecycle := Lifecycle s; AllowedCIDRs := AllowedCIDRs s |}.

Definition set_Name (name : option string) (s : t) : t :=
  {| ID := ID s; Name := name; Port := Port s; Pool := Pool s;
     Lifecycle := Lifecycle s; AllowedCIDRs := AllowedCIDRs s |}.

Definition set_Pool (pool : option LBPool) (s : t) : t :=
  {| ID := ID s; Name := Name s; Port := Port s; Pool := pool;
     Lifecycle := Lifecycle s; AllowedCIDRs := AllowedCIDRs s |}.

(** [GetDependencies], over the entries of [tasks] in the order in which
    the range statement yields them. *)
Definition GetDependencies (tasks : list (string * CloudupTask)) : slice CloudupTask :=
  fold_left
    (λ deps entry,
       let deps := if snd entry is TaskLB _ then append deps (snd entry) else deps in
       if snd entry is TaskLBPool _ then append deps (snd entry) else deps)
    tasks None.

Definition CompareWithID (s : t) : option string := ID s.

(** [sort.Strings] *)
Definition sort_Strings (l : slice string) : slice string :=
  merge_sort String.le <$> l.

Definition NewLBListenerTaskFromCloud (cloud : OpenstackCloud) (lifecycle : fi.Lifecycle)
    (listener : listeners.Listener) (find : option t) : M call (result t * option t) :=
  let listenerTask :=
    {| ID := fi.PtrTo (listeners.ID listener);
       Name := fi.PtrTo (listeners.Name listener);
       Port := fi.PtrTo (listeners.ProtocolPort listener);
       AllowedCIDRs := sort_Strings (listeners.AllowedCIDRs listener);
       Lifecycle := lifecycle;
       Pool := None |} in
  poolTask ←
    match elems (listeners.Pools listener) with
    | pool :: _ =>
        f ← deref find;
        poolTask ← emit (NewLBPoolTaskFromCloud lifecycle pool (Pool f))
                     (λ h, NewLBPoolTaskFromCloud_resp cloud h lifecycle pool (Pool f));
        match poolTask with
        | Err err =>
            mret (Err (Wrapf
              "NewLBListenerTaskFromCloud: Failed to create new LBListener task for pool %s: %v"
              [FmtString (pools.Name pool)] err))
        | Ok poolTask => mret (Ok poolTask)
        end
    | [] =>
        pool ← emit (GetPool (listeners.DefaultPoolID listener))
                 (λ h, GetPool_resp cloud h (listeners.DefaultPoolID listener));
        match pool with
        | Err err =>
            mret (Err (Wrapf "Fail to get pool with ID: %s: %v"
                         [FmtString (listeners.DefaultPoolID listener)] err))
        | Ok pool =>
            f ← deref find;
            poolTask ← emit (NewLBPoolTaskFromCloud lifecycle pool (Pool f))
                         (λ h, NewLBPoolTaskFromCloud_resp cloud h lifecycle pool (Pool f));
            match poolTask with
            | Err err =>
                mret (Err (Wrapf
                  "NewLBListenerTaskFromCloud: Failed to create new LBListener task for pool %s: %v"
                  [FmtString (pools.Name pool)] err))
            | Ok poolTask => mret (Ok poolTask)
            end
        end
    end;
  match poolTask with
  | Err err => mret (Err err, find)
  | Ok poolTask =>
      let listenerTask := set_Pool (Some poolTask) listenerTask in
      mret (Ok listenerTask,
            (λ f, set_Pool (Pool listenerTask)
                    (set_Name (Name listenerTask) (set_ID (ID listenerTask) f))) <$> find)
  end.

(** [Find] hands back the receiver next to its result, since
    [NewLBListenerTaskFromCloud] updates the search terms in it. *)
Definition Find (cloud : OpenstackCloud) (s : t) : M call (result (option t) * t) :=
  if Name s is None then mret (Ok None, s)
  else
    let opt :=
      {| listeners.lo_ID := fi.ValueOf (ID s);
         listeners.lo_Name := fi.ValueOf (Name s) |} in
    listenerList ← emit (ListListeners opt) (λ h, ListListeners_resp cloud h opt);
    match listenerList with
    | Err err =>
        mret (Err (Wrapf "Failed to list loadbalancer listeners for name %s: %v"
                     [FmtString (fi.ValueOf (Name s))] err), s)
    | Ok listenerList =>
        if len listenerList =? 0 then mret (Ok None, s)
        else if 1 <? len listenerList then
          mret (Err (Errorf "Multiple listeners found with name %s"
                       [FmtString (fi.ValueOf (Name s))]), s)
        else
          l ← deref (elems listenerList !! 0);
          '(res, find) ← NewLBListenerTaskFromCloud cloud (Lifecycle s) l (Some s);
          mret (match res with Ok actual => Ok (Some actual) | Err err => Err err end,
                default s find)
    end.

Definition CheckChanges (a : option t) (e changes : t) : option error :=
  match a with
  | None =>
      if Name e is None then Some (fi.RequiredField "Name")
      else None
  | Some _ =>
      if ID changes is Some _ then Some (fi.CannotChangeField "ID")
      else if Name changes is Some _ then Some (fi.CannotChangeField "Name")
      else None
  end.

(** The options [RenderOpenstack] creates the listener with. *)
Definition createOpts (e : t) (pool : LBPool) (lb : LB) (useVIPACL : bool)
    : listeners.CreateOpts :=
  {| listeners.co_Name := fi.ValueOf (Name e);
     listeners.co_DefaultPoolID := fi.ValueOf (LBPool_ID pool);
     listeners.co_LoadbalancerID := fi.ValueOf (LB_ID lb);
     listeners.co_Protocol := listeners.ProtocolTCP;
     listeners.co_ProtocolPort := fi.ValueOf (Port e);
     listeners.co_AllowedCIDRs :=
       if useVIPACL && negb (String.eqb (fi.ValueOf (LB_Provider lb)) "ovn")
       then AllowedCIDRs e else None |}.

(** [RenderOpenstack] hands back the task [e] next to its result. *)
Definition RenderOpenstack (cloud : OpenstackCloud) (a : option t) (e changes : t)
    : M call (option error * t) :=
  useVIPACL ← emit UseLoadBalancerVIPACL (UseLoadBalancerVIPACL_resp cloud);
  match useVIPACL : result bool with
  | Err err => mret (Some err, e)
  | Ok useVIPACL =>
      match a with
      | None =>
          pool ← deref (Pool e);
          lb ← deref (LBPool_Loadbalancer pool);
          let listeneropts := createOpts e pool lb useVIPACL in
          listener ← emit (CreateListener listeneropts)
                       (λ h, CreateListener_resp cloud h listeneropts);
          match listener with
          | Err err => mret (Some (Wrapf "error creating LB listener: %v" [] err), e)
          | Ok listener => mret (None, set_ID (fi.PtrTo (listeners.ID listener)) e)
          end
      | Some a =>
          if 0 <? len (AllowedCIDRs changes) then
            if (useVIPACL : bool) then
              pool ← deref (Pool a);
              lb ← deref (LBPool_Loadbalancer pool);
              if negb (String.eqb (fi.ValueOf (LB_Provider lb)) "ovn") then
                let opts :=
                  {| listeners.uo_AllowedCIDRs := Some (AllowedCIDRs changes) |} in
                err ← emit (listeners_Update (fi.ValueOf (ID a)) opts)
                        (λ h, listeners_Update_resp cloud h (fi.ValueOf (ID a)) opts);
                match err with
                | Some err => mret (Some (Wrapf "error updating LB listener: %v" [] err), e)
                | None => mret (None, e)
                end
              else mret (None, e)
            else mret (None, e)
          else mret (None, e)
      end
  end.

End LBListener.

End openstacktasks.

(** ** Package azuretasks *)

Module azuretasks.

(** Values of the Azure compute client library. *)
Module compute.
Inductive DiskCreateOption : Type := DiskCreateOptionEmpty.
Record CreationData : Type := { CreateOption : option DiskCreateOption }.
Record DiskProperties : Type := {
  CreationData_ : option CreationData;
  DiskSizeGB : option Z
}.
Record DiskSKU : Type := { SKU_Name : option string }.
Record Disk : Type := {
  Location : option string;
  Name : option string;
  Properties : option DiskProperties;
  SKU : option DiskSKU;
  Tags : option (gmap string (option string));
  Zones : slice (option string)
}.
End compute.

(** The task [ResourceGroup] is declared in a file that is not embedded; the
    record keeps the field that [Disk] reads and sets. *)
Record ResourceGroup : Type := { ResourceGroup_Name : option string }.

(** Events of the package: the two methods of the disk client. *)
Inductive call : Type :=
  | Disk_List (resourceGroupName : string)
  | Disk_CreateOrUpdate (resourceGroupName name : string) (disk : compute.Disk).

Definition is_mutation (c : call) : bool :=
  match c with
  | Disk_CreateOrUpdate _ _ _ => true
  | Disk_List _ => false
  end.

(** [azure.AzureCloud]: the region is a plain accessor, the answers of the two
    methods of the disk client are functions of the history. *)
Record AzureCloud : Type := {
  Region : string;
  Disk_List_resp : list call → string → result (list compute.Disk);
  Disk_CreateOrUpdate_resp : list call → string → string → compute.Disk → option error
}.

Module Disk.

Record t : Type := {
  Name : option string;
  Lifecycle : fi.Lifecycle;
  ResourceGroup : option azuretasks.ResourceGroup;
  SizeGB : option Z;
  Tags : option (gmap string (option string));
  VolumeType : option string;
  Zones : slice (option string)
}.

Definition set_SizeGB (n : option Z) (d : t) : t :=
  {| Name := Name d; Lifecycle := Lifecycle d; ResourceGroup := ResourceGroup d;
     SizeGB := n; Tags := Tags d; VolumeType := VolumeType d; Zones := Zones d |}.

Definition set_VolumeType (v : option string) (d : t) : t :=
  {| Name := Name d; Lifecycle := Lifecycle d; ResourceGroup := ResourceGroup d;
     SizeGB := SizeGB d; Tags := Tags d; VolumeType := v; Zones := Zones d |}.

Definition CompareWithID (d : t) : option string := Name d.

(** The loop of [Find]: the first disk of the listing whose name is the
    name of the task. *)
Fixpoint firstNamed (d : t) (l : list compute.Disk) : M call (option compute.Disk) :=
  match l with
  | [] => mret None
  | v :: l =>
      vName ← deref (compute.Name v);
      dName ← deref (Name d);
      if String.eqb vName dName then mret (Some v) else firstNamed d l
  end.

Definition Find (cloud : AzureCloud) (d : t) : M call (result (option t)) :=
  rg ← deref (ResourceGroup d);
  rgName ← deref (ResourceGroup_Name rg);
  l ← emit (Disk_List rgName) (λ h, Disk_List_resp cloud h rgName);
  match l with
  | Err err => mret (Err err)
  | Ok l =>
      found ← firstNamed d l;
      match found with
      | None => mret (Ok None)
      | Some found =>
          properties ← deref (compute.Properties found);
          let disk :=
            {| Name := Name d;
               Lifecycle := Lifecycle d;
               ResourceGroup := Some {| ResourceGroup_Name := ResourceGroup_Name rg |};
               SizeGB := compute.DiskSizeGB properties;
               Tags := compute.Tags found;
               Zones := compute.Zones found;
               VolumeType := None |} in
          let disk :=
            match compute.SKU found with
            | Some sku =>
                if compute.SKU_Name sku is Some _
                then set_VolumeType (compute.SKU_Name sku) disk else disk
            | None => disk
            end in
          let disk :=
            match compute.Properties found with
            | Some properties => set_SizeGB (compute.DiskSizeGB properties) disk
            | None => disk
            end in
          mret (Ok (Some disk))
      end
  end.

Definition CheckChanges (a : option t) (e changes : t) : option error :=
  match a with
  | None =>
      if Name e is None then Some (fi.RequiredField "Name")
      else None
  | Some _ =>
      if Name changes is Some _ then Some (fi.CannotChangeField "Name")
      else None
  end.

(** The disk that [RenderAzure] sends. *)
Definition diskOf (cloud : AzureCloud) (e : t) : compute.Disk :=
  {| compute.Location := Some (Region cloud);
     compute.Name := None;
     compute.Properties :=
       Some {| compute.CreationData_ :=
                 Some {| compute.CreateOption := Some compute.DiskCreateOptionEmpty |};
               compute.DiskSizeGB := SizeGB e |};
     compute.SKU := Some {| compute.SKU_Name := VolumeType e |};
     compute.Tags := Tags e;
     compute.Zones := Zones e |}.

(** [RenderAzure] creates or updates a Disk. *)
Definition RenderAzure (cloud : AzureCloud) (a : option t) (e changes : t)
    : M call (option error) :=
  name ← deref (Name e);
  let disk := diskOf cloud e in
  rg ← deref (ResourceGroup e);
  rgName ← deref (ResourceGroup_Name rg);
  emit (Disk_CreateOrUpdate rgName name disk)
    (λ h, Disk_CreateOrUpdate_resp cloud h rgName name disk).

End Disk.

End azuretasks.

(** ** Package terraformWriter *)

Module terraformWriter.

(** Modelled from the spec: the package is not among the embedded sources.
    A literal is an expression of the template language; [LiteralProperty]
    is the symbolic reference to an attribute of a resource, keyed by
    resource type, resource name and attribute, and written
    type.name.attribute. *)
Record Literal : Type := { Value : string }.

Definition LiteralProperty (resourceType resourceName prop : string) : Literal :=
  {| Value := resourceType +:+ "." +:+ resourceName +:+ "." +:+ prop |}.

End terraformWriter.

(** ** Package maps *)

Module maps.

(** Modelled from the spec: [maps.SortedKeys] is in a package that is not
    among the embedded sources; it returns the keys of the map in ascending
    order.  [Keys_in] is the same computation started from the entries in a
    given order of iteration. *)
Definition Keys_in {V} (entries : list (string * V)) : list string :=
  merge_sort String.le (fst <$> entries).

Definition SortedKeys {V} (m : gmap string V) : list string :=
  Keys_in (map_to_list m).

End maps.

(** ** Package awstasks: the Terraform rendering of LaunchTemplate *)

Module awstasks.

Module terraform.
Record Lifecycle : Type := { CreateBeforeDestroy : option bool }.
End terraform.

Module ec2types.
Record Image : Type := { ImageId : option string }.
End ec2types.

Record terraformLaunchTemplateNetworkInterface : Type := {
  ni_AssociatePublicIPAddress : option bool;
  ni_DeleteOnTermination : option bool;
  ni_Ipv6AddressCount : option Z;
  ni_SecurityGroups : slice terraformWriter.Literal
}.

Record terraformLaunchTemplateMonitoring : Type := { mon_Enabled : option bool }.

Record terraformLaunchTemplatePlacement : Type := {
  pl_Affinity : option string;
  pl_AvailabilityZone : option string;
  pl_GroupName : option string;
  pl_HostID : option string;
  pl_SpreadDomain : option string;
  pl_Tenancy : option string
}.

Record terraformLaunchTemplateIAMProfile : Type := {
  iam_Name : option terraformWriter.Literal
}.

Record terraformLaunchTemplateMarketOptionsSpotOptions : Type := {
  so_BlockDurationMinutes : option Z;
  so_InstanceInterruptionBehavior : option string;
  so_MaxPrice : option string;
  so_SpotInstanceType : option string;
  so_ValidUntil : option string
}.

Record terraformLaunchTemplateMarketOptions : Type := {
  mo_MarketType : option string;
  mo_SpotOptions : slice terraformLaunchTemplateMarketOptionsSpotOptions
}.

Record terraformLaunchTemplateBlockDeviceEBS : Type := {
  ebs_VolumeType : option string;
  ebs_VolumeSize : option Z;
  ebs_IOPS : option Z;
  ebs_Throughput : option Z;
  ebs_DeleteOnTermination : option bool;
  ebs_Encrypted : option bool;
  ebs_KmsKeyID : option string
}.

Record terraformLaunchTemplateBlockDevice : Type := {
  bd_DeviceName : option string;
  bd_VirtualName : option string;
  bd_EBS : slice terraformLaunchTemplateBlockDeviceEBS
}.

Record terraformLaunchTemplateCreditSpecification : Type := {
  cs_CPUCredits : option string
}.

Record terraformLaunchTemplateTagSpecification : Type := {
  ts_ResourceType : option string;
  ts_Tags : option (gmap string string)
}.

Record terraformLaunchTemplateInstanceMetadata : Type := {
  md_HTTPEndpoint : option string;
  md_HTTPPutResponseHopLimit : option Z;
  md_HTTPTokens : option string;
  md_HTTPProtocolIPv6 : option string
}.

Record terraformLaunchTemplate : Type := {
  tf_Name : option string;
  tf_Lifecycle : option terraform.Lifecycle;
  tf_BlockDeviceMappings : slice terraformLaunchTemplateBlockDevice;
  tf_CreditSpecification : option terraformLaunchTemplateCreditSpecification;
  tf_EBSOptimized : option bool;
  tf_IAMInstanceProfile : slice terraformLaunchTemplateIAMProfile;
  tf_ImageID : option string;
  tf_InstanceType : option string;
  tf_KeyName : option terraformWriter.Literal;
  tf_MarketOptions : slice terraformLaunchTemplateMarketOptions;
  tf_MetadataOptions : option terraformLaunchTemplateInstanceMetadata;
  tf_Monitoring : slice terraformLaunchTemplateMonitoring;
  tf_NetworkInterfaces : slice terraformLaunchTemplateNetworkInterface;
  tf_Placement : slice terraformLaunchTemplatePlacement;
  tf_Tags : option (gmap string string);
  tf_TagSpecifications : slice terraformLaunchTemplateTagSpecification;
  tf_UserData : option terraformWriter.Literal
}.

(** The tasks a launch template refers to, and [BlockDeviceMapping], are
    declared in files that are not embedded; the records keep the identifier
    and the name of a task, and the fields of a mapping that the rendering
    reads. *)
Record SecurityGroup : Type := {
  SecurityGroup_ID : option string;
  SecurityGroup_Name : option string
}.

Record SSHKey : Type := {
  SSHKey_ID : option string;
  SSHKey_Name : option string
}.

Record IAMInstanceProfile : Type := {
  IAMInstanceProfile_ID : option string;
  IAMInstanceProfile_Name : option string
}.

Record BlockDeviceMapping : Type := {
  EbsEncrypted : option bool;
  EbsKmsKey : option string;
  EbsVolumeIops : option Z;
  EbsVolumeThroughput : option Z;
  EbsVolumeSize : option Z;
  EbsVolumeType : string;
  VirtualName : option string
}.

(** [fi.Resource], given by what [fi.ResourceAsBytes] reads from it. *)
Definition Resource : Type := result (slice Byte.byte).

Definition ResourceAsBytes (r : Resource) : result (slice Byte.byte) := r.

(** Modelled from the spec: the methods [TerraformLink] of [SecurityGroup],
    [SSHKey] and [IAMInstanceProfile] are in files that are not embedded.
    A reference to another task is the symbolic reference of the deferred
    reference table, keyed by the resource type, the name of the task and
    the attribute, in the way [LaunchTemplate.TerraformLink] builds it. *)
Definition SecurityGroup_TerraformLink (x : SecurityGroup) : terraformWriter.Literal :=
  terraformWriter.LiteralProperty "aws_security_group"
    (fi.ValueOf (SecurityGroup_Name x)) "id".

(** Modelled from the spec: see [SecurityGroup_TerraformLink]. *)
Definition SSHKey_TerraformLink (x : SSHKey) : terraformWriter.Literal :=
  terraformWriter.LiteralProperty "aws_key_pair" (fi.ValueOf (SSHKey_Name x)) "id".

(** Modelled from the spec: see [SecurityGroup_TerraformLink]. *)
Definition IAMInstanceProfile_TerraformLink (x : IAMInstanceProfile)
    : terraformWriter.Literal :=
  terraformWriter.LiteralProperty "aws_iam_instance_profile"
    (fi.ValueOf (IAMInstanceProfile_Name x)) "id".

Module LaunchTemplate.

(** The fields of the task that the Terraform rendering reads, and its
    identifier. *)
Record t : Type := {
  ID : option string;
  Name : option string;
  AssociatePublicIP : option bool;
  BlockDeviceMappings : slice BlockDeviceMapping;
  CPUCredits : option string;
  HTTPPutResponseHopLimit : option Z;
  HTTPTokens : option string;
  HTTPProtocolIPv6 : option string;
  IAMInstanceProfile : option awstasks.IAMInstanceProfile;
  ImageID : option string;
  InstanceInterruptionBehavior : option string;
  InstanceMonitoring : option bool;
  InstanceType : option string;
  IPv6AddressCount : option Z;
  RootVolumeOptimization : option bool;
  SecurityGroups : slice awstasks.SecurityGroup;
  SpotDurationInMinutes : option Z;
  SpotPrice : option string;
  SSHKey : option awstasks.SSHKey;
  Tags : option (gmap string string);
  Tenancy : option string;
  UserData : option Resource
}.

(** Events of the rendering.  [ResolveImage] is a method of [awsup.AWSCloud];
    [buildRootDevice] and [buildEphemeralDevices] are functions of the
    package in files that are not embedded, and both are handed the cloud;
    [AddFileBytes] and [RenderResource] are methods of the Terraform target,
    which collects the document in memory. *)
Inductive call : Type :=
  | ResolveImage (name : string)
  | buildRootDevice (e : t)
  | buildEphemeralDevices (instanceTypeName : string)
  | AddFileBytes (resourceType resourceName key : string) (data : list Byte.byte)
      (base64 : bool)
  | RenderResource (resourceType resourceName : string) (tf : terraformLaunchTemplate).

(** The calls made on the cloud interface by the rendering itself. *)
Definition is_cloud_call (c : call) : bool :=
  match c with
  | ResolveImage _ => true
  | _ => false
  end.

Record Env : Type := {
  ResolveImage_resp : list call → string → result ec2types.Image;
  buildRootDevice_resp :
    list call → t → result (gmap string BlockDeviceMapping);
  buildEphemeralDevices_resp :
    list call → string → result (gmap string BlockDeviceMapping);
  (** [buildAdditionalDevices] is not handed the cloud. *)
  buildAdditionalDevices :
    slice BlockDeviceMapping → result (gmap string BlockDeviceMapping);
  AddFileBytes_resp :
    list call → string → string → string → list Byte.byte → bool →
    result (option terraformWriter.Literal);
  RenderResource_resp :
    list call → string → string → terraformLaunchTemplate → option error
}.

(** [TerraformLink] returns the terraform reference. *)
Definition TerraformLink (t : t) : terraformWriter.Literal :=
  terraformWriter.LiteralProperty "aws_launch_template" (fi.ValueOf (Name t)) "id".

(** [VersionLink] returns the terraform version reference. *)
Definition VersionLink (t : t) : terraformWriter.Literal :=
  terraformWriter.LiteralProperty "aws_launch_template" (fi.ValueOf (Name t))
    "latest_version".

Definition createTerraformLaunchTemplateBlockDevice (deviceName : string)
    (v : BlockDeviceMapping) : terraformLaunchTemplateBlockDevice :=
  {| bd_DeviceName := fi.PtrTo deviceName;
     bd_VirtualName := None;
     bd_EBS :=
       Some [ {| ebs_DeleteOnTermination := fi.PtrTo true;
                 ebs_Encrypted := EbsEncrypted v;
                 ebs_KmsKeyID := EbsKmsKey v;
                 ebs_IOPS := EbsVolumeIops v;
                 ebs_Throughput := EbsVolumeThroughput v;
                 ebs_VolumeSize := EbsVolumeSize v;
                 ebs_VolumeType := fi.PtrTo (EbsVolumeType v) |} ] |}.

(** The two loops that append the root and the additional devices: for each
    key, in the order given, the device built from the entry of the map. *)
Fixpoint appendEBSDevices (keys : list string) (devices : gmap string BlockDeviceMapping)
    (mappings : slice terraformLaunchTemplateBlockDevice)
    : M call (slice terraformLaunchTemplateBlockDevice) :=
  match keys with
  | [] => mret mappings
  | key :: keys =>
      v ← deref (devices !! key);
      appendEBSDevices keys devices
        (append mappings (createTerraformLaunchTemplateBlockDevice key v))
  end.

(** The loop that appends the ephemeral devices. *)
Fixpoint appendEphemeralDevices (keys : list string)
    (devices : gmap string BlockDeviceMapping)
    (mappings : slice terraformLaunchTemplateBlockDevice)
    : M call (slice terraformLaunchTemplateBlockDevice) :=
  match keys with
  | [] => mret mappings
  | key :: keys =>
      v ← deref (devices !! key);
      appendEphemeralDevices keys devices
        (append mappings
           {| bd_VirtualName := VirtualName v;
              bd_DeviceName := fi.PtrTo key;
              bd_EBS := None |})
  end.

(** The resource block before the user data and the block devices are
    added: lines 195 to 253 of the source, which call nothing. *)
Definition baseTemplate (e : t) (image : option string) : terraformLaunchTemplate :=
  {| tf_Name := Name e;
     tf_EBSOptimized := RootVolumeOptimization e;
     tf_ImageID := image;
     tf_InstanceType := InstanceType e;
     tf_Lifecycle := Some {| terraform.CreateBeforeDestroy := fi.PtrTo true |};
     tf_MetadataOptions :=
       Some {| md_HTTPEndpoint := fi.PtrTo "enabled";
               md_HTTPTokens := HTTPTokens e;
               md_HTTPPutResponseHopLimit := HTTPPutResponseHopLimit e;
               md_HTTPProtocolIPv6 := HTTPProtocolIPv6 e |};
     tf_NetworkInterfaces :=
       Some [ {| ni_AssociatePublicIPAddress := AssociatePublicIP e;
                 ni_DeleteOnTermination := fi.PtrTo true;
                 ni_Ipv6AddressCount := IPv6AddressCount e;
                 ni_SecurityGroups :=
                   fold_left (λ groups x, append groups (SecurityGroup_TerraformLink x))
                     (elems (SecurityGroups e)) None |} ];
     tf_MarketOptions :=
       if negb (String.eqb (fi.ValueOf (SpotPrice e)) "") then
         Some [ {| mo_MarketType := fi.PtrTo "spot";
                   mo_SpotOptions :=
                     Some [ {| so_BlockDurationMinutes := SpotDurationInMinutes e;
                               so_InstanceInterruptionBehavior :=
                                 InstanceInterruptionBehavior e;
                               so_MaxPrice := SpotPrice e;
                               so_SpotInstanceType := None;
                               so_ValidUntil := None |} ] |} ]
       else None;
     tf_CreditSpecification :=
       if negb (String.eqb (fi.ValueOf (CPUCredits e)) "") then
         Some {| cs_CPUCredits := CPUCredits e |}
       else None;
     tf_KeyName :=
       match SSHKey e with
       | Some key => Some (SSHKey_TerraformLink key)
       | None => None
       end;
     tf_Placement :=
       if Tenancy e is Some _ then
         Some [ {| pl_Tenancy := Tenancy e; pl_Affinity := None;
                   pl_AvailabilityZone := None; pl_GroupName := None;
                   pl_HostID := None; pl_SpreadDomain := None |} ]
       else None;
     tf_Monitoring :=
       if InstanceMonitoring e is Some _ then
         Some [ {| mon_Enabled := InstanceMonitoring e |} ]
       else None;
     tf_IAMInstanceProfile :=
       match IAMInstanceProfile e with
       | Some profile =>
           Some [ {| iam_Name := Some (IAMInstanceProfile_TerraformLink profile) |} ]
       | None => None
       end;
     tf_BlockDeviceMappings := None;
     tf_Tags := None;
     tf_TagSpecifications := None;
     tf_UserData := None |}.

Definition set_UserData (u : option terraformWriter.Literal)
    (tf : terraformLaunchTemplate) : terraformLaunchTemplate :=
  {| tf_Name := tf_Name tf; tf_Lifecycle := tf_Lifecycle tf;
     tf_BlockDeviceMappings := tf_BlockDeviceMappings tf;
     tf_CreditSpecification := tf_CreditSpecification tf;
     tf_EBSOptimized := tf_EBSOptimized tf;
     tf_IAMInstanceProfile := tf_IAMInstanceProfile tf;
     tf_ImageID := tf_ImageID tf; tf_InstanceType := tf_InstanceType tf;
     tf_KeyName := tf_KeyName tf; tf_MarketOptions := tf_MarketOptions tf;
     tf_MetadataOptions := tf_MetadataOptions tf; tf_Monitoring := tf_Monitoring tf;
     tf_NetworkInterfaces := tf_NetworkInterfaces tf; tf_Placement := tf_Placement tf;
     tf_Tags := tf_Tags tf; tf_TagSpecifications := tf_TagSpecifications tf;
     tf_UserData := u |}.

Definition set_BlockDeviceMappings (m : slice terraformLaunchTemplateBlockDevice)
    (tf : terraformLaunchTemplate) : terraformLaunchTemplate :=
  {| tf_Name := tf_Name tf; tf_Lifecycle := tf_Lifecycle tf;
     tf_BlockDeviceMappings := m;
     tf_CreditSpecification := tf_CreditSpecification tf;
     tf_EBSOptimized := tf_EBSOptimized tf;
     tf_IAMInstanceProfile := tf_IAMInstanceProfile tf;
     tf_ImageID := tf_ImageID tf; tf_InstanceType := tf_InstanceType tf;
     tf_KeyName := tf_KeyName tf; tf_MarketOptions := tf_MarketOptions tf;
     tf_MetadataOptions := tf_MetadataOptions tf; tf_Monitoring := tf_Monitoring tf;
     tf_NetworkInterfaces := tf_NetworkInterfaces tf; tf_Placement := tf_Placement tf;
     tf_Tags := tf_Tags tf; tf_TagSpecifications := tf_TagSpecifications tf;
     tf_UserData := tf_UserData tf |}.

(** Lines 302 to 312 of the source. *)
Definition set_Tags (e : t) (tf : terraformLaunchTemplate) : terraformLaunchTemplate :=
  if Tags e is Some _ then
    {| tf_Name := tf_Name tf; tf_Lifecycle := tf_Lifecycle tf;
       tf_BlockDeviceMappings := tf_BlockDeviceMappings tf;
       tf_CreditSpecification := tf_CreditSpecification tf;
       tf_EBSOptimized := tf_EBSOptimized tf;
       tf_IAMInstanceProfile := tf_IAMInstanceProfile tf;
       tf_ImageID := tf_ImageID tf; tf_InstanceType := tf_InstanceType tf;
       tf_KeyName := tf_KeyName tf; tf_MarketOptions := tf_MarketOptions tf;
       tf_MetadataOptions := tf_MetadataOptions tf; tf_Monitoring := tf_Monitoring tf;
       tf_NetworkInterfaces := tf_NetworkInterfaces tf; tf_Placement := tf_Placement tf;
       tf_Tags := Tags e;
       tf_TagSpecifications :=
         append
           (append (tf_TagSpecifications tf)
              {| ts_ResourceType := fi.PtrTo "instance"; ts_Tags := Tags e |})
           {| ts_ResourceType := fi.PtrTo "volume"; ts_Tags := Tags e |};
       tf_UserData := tf_UserData tf |}
  else tf.

(** Lines 186 to 193 of the source: the image, resolved in the cloud when
    the task names one. *)
Definition resolveImage (env : Env) (e : t) : M call (result (option string)) :=
  if ImageID e is Some _ then
    im ← emit (ResolveImage (fi.ValueOf (ImageID e)))
           (λ h, ResolveImage_resp env h (fi.ValueOf (ImageID e)));
    mret (match im with
          | Ok im => Ok (ec2types.ImageId im)
          | Err err => Err err
          end)
  else mret (Ok None).

(** Lines 195 to 314 of the source: the resource block, rendered with the
    identifier [image] of the image. *)
Definition renderWith (env : Env) (e : t) (image : option string)
    : M call (option error) :=
  let tf := baseTemplate e image in
  userData ←
    match UserData e with
    | Some resource =>
        match ResourceAsBytes resource with
        | Err err => mret (Err err)
        | Ok None => mret (Ok (tf_UserData tf))
        | Ok (Some d) =>
            emit (AddFileBytes "aws_launch_template" (fi.ValueOf (Name e)) "user_data" d true)
              (λ h, AddFileBytes_resp env h "aws_launch_template" (fi.ValueOf (Name e))
                      "user_data" d true)
        end
    | None => mret (Ok (tf_UserData tf))
    end;
  match userData with
  | Err err => mret (Some err)
  | Ok userData =>
  let tf := set_UserData userData tf in
  devices ← emit (buildRootDevice e) (λ h, buildRootDevice_resp env h e);
  match devices with
  | Err err => mret (Some err)
  | Ok devices =>
  mappings ← appendEBSDevices (maps.SortedKeys devices) devices (tf_BlockDeviceMappings tf);
  match buildAdditionalDevices env (BlockDeviceMappings e) with
  | Err err => mret (Some err)
  | Ok additionals =>
  mappings ← appendEBSDevices (maps.SortedKeys additionals) additionals mappings;
  devices ← emit (buildEphemeralDevices (fi.ValueOf (InstanceType e)))
              (λ h, buildEphemeralDevices_resp env h (fi.ValueOf (InstanceType e)));
  match devices with
  | Err err => mret (Some err)
  | Ok devices =>
  mappings ← appendEphemeralDevices (maps.SortedKeys devices) devices mappings;
  let tf := set_Tags e (set_BlockDeviceMappings mappings tf) in
  emit (RenderResource "aws_launch_template" (fi.ValueOf (Name e)) tf)
    (λ h, RenderResource_resp env h "aws_launch_template" (fi.ValueOf (Name e)) tf)
  end end end end.

(** [RenderTerraform] renders the terraform resource of the launch template. *)
Definition RenderTerraform (env : Env) (a : option t) (e changes : t)
    : M call (option error) :=
  image ← resolveImage env e;
  match image with
  | Err err => mret (Some err)
  | Ok image => renderWith env e image
  end.

End LaunchTemplate.

End awstasks.

(** ** Package dump: the node log dumper *)

Module dump.

Record NodeAddress : Type := { Type_ : string; Address : string }.

Record Node : Type := {
  Name : string;
  Labels : gmap string string;
  Addresses : list NodeAddress
}.

(** Events of the dumper: the SSH connection to a host, the collection of
    the logs of a connected node, and the end of the connection.  Lines
    written to the log of the program are not events. *)
Inductive call : Type :=
  | Dial (host : string) (useBastion : bool)
  | node_dump (nodeName : string)
  | node_Close (nodeName : string).

(** The answers of the environment: the state of the context, whether the
    connection is made, the errors met while collecting, and the error of
    closing. *)
Record Env : Type := {
  ctx_Err : list call → option error;
  Dial_resp : list call → string → bool → option error;
  node_dump_resp : list call → string → list error;
  node_Close_resp : list call → string → option error
}.

(** [dumpNode] connects to a node and dumps the logs. *)
Definition dumpNode (env : Env) (name ip : string) (useBastion : bool)
    : M call (option error) :=
  if String.eqb ip "" then
    mret (Some (Errorf "could not find address for %v, " [FmtString name]))
  else
    err ← emit (Dial ip useBastion) (λ h, Dial_resp env h ip useBastion);
    match err with
    | Some err =>
        mret (Some (Wrapf "connecting: %w" []
                      (Wrapf "unable to SSH to %q: %v" [FmtString ip] err)))
    | None =>
        _ ← emit (node_dump name) (λ h, node_dump_resp env h name);
        _ ← emit (node_Close name) (λ h, node_Close_resp env h name);
        mret None
    end.

(** The loop of [dumpRegistered] over the addresses of the node: the first
    external address, and the first internal address that comes before it. *)
Fixpoint pickAddresses (addresses : list NodeAddress) (privateIP : string)
    : string * string :=
  match addresses with
  | [] => ("", privateIP)
  | address :: addresses =>
      if String.eqb (Type_ address) "ExternalIP" then (Address address, privateIP)
      else if String.eqb (Type_ address) "InternalIP" then
        pickAddresses addresses
          (if String.eqb privateIP "" then Address address else privateIP)
      else pickAddresses addresses privateIP
  end.

Definition dumpRegistered (env : Env) (node : Node) : M call (option error) :=
  err ← ask (ctx_Err env);
  match err with
  | Some err => mret (Some err)
  | None =>
      let '(publicIP, privateIP) := pickAddresses (Addresses node) "" in
      if negb (String.eqb publicIP "") then dumpNode env (Name node) publicIP false
      else dumpNode env (Name node) privateIP true
  end.

Definition dumpNotRegistered (env : Env) (ip : string) (useBastion : bool)
    : M call (option error) :=
  err ← ask (ctx_Err env);
  match err with
  | Some err => mret (Some err)
  | None =>
      _ ← dumpNode env ip ip useBastion;
      mret None
  end.

(** [findInstancesNotDumped] returns the ips that do not appear as any
    address of the nodes. *)
Definition findInstancesNotDumped (ips : list string) (dumped : list Node) : list string :=
  let dumpedAddresses : gmap string bool :=
    fold_left
      (λ m node, fold_left (λ m address, <[Address address := true]> m) (Addresses node) m)
      dumped ∅ in
  filter (λ ip, default false (dumpedAddresses !! ip) = false) ips.

(** The test of the first loop of [DumpAllNodes] on the labels of a node. *)
Definition isControlPlane (node : Node) : bool :=
  if Labels node !! "node-role.kubernetes.io/master" is Some _ then true
  else if Labels node !! "node-role.kubernetes.io/control-plane" is Some _ then true
  else if Labels node !! "node-role.kubernetes.io/api-server" is Some _ then true
  else false.

(** The first loop of [DumpAllNodes]: the nodes are split into [special] and
    [regular], each in the order of the list. *)
Definition classify (items : list Node) : list Node * list Node :=
  fold_left
    (λ '(special, regular) node,
       if isControlPlane node then (special ++ [node], regular)
       else (special, regular ++ [node]))
    items ([], []).

(** The loop over [special]. *)
Fixpoint dumpSpecial (env : Env) (special dumped : list Node) : M call (list Node) :=
  match special with
  | [] => mret dumped
  | node :: special =>
      err ← dumpRegistered env node;
      dumpSpecial env special (if err is Some _ then dumped else dumped ++ [node])
  end.

(** The loop over [regular]: [inl dumped] when the loop ends, [inr dumped]
    when the function returns from inside it. *)
Fixpoint dumpRegular (env : Env) (maxNodesToDump : Z) (regular dumped : list Node)
    : M call (list Node + list Node) :=
  match regular with
  | [] => mret (inl dumped)
  | node :: regular =>
      if (maxNodesToDump <=? Z.of_nat (length dumped))%Z then mret (inr dumped)
      else
        err ← dumpRegistered env node;
        dumpRegular env maxNodesToDump regular
          (if err is Some _ then dumped else dumped ++ [node])
  end.

(** The two loops over the instances that are not registered: [None] when
    the loop ends, [Some r] when the function returns [r] from inside it. *)
Fixpoint dumpAdditional (env : Env) (maxNodesToDump : Z) (useBastion : bool)
    (notDumped : list string) (dumped : list Node) : M call (option (option error)) :=
  match notDumped with
  | [] => mret None
  | ip :: notDumped =>
      if (maxNodesToDump <=? Z.of_nat (length dumped))%Z then mret (Some None)
      else
        err ← dumpNotRegistered env ip useBastion;
        match err with
        | Some err => mret (Some (Some err))
        | None => dumpAdditional env maxNodesToDump useBastion notDumped dumped
        end
  end.

(** [DumpAllNodes], with the nodes it recorded as dumped next to its
    result. *)
Definition DumpAllNodes_dumped (env : Env) (items : list Node) (maxNodesToDump : Z)
    (additionalIPs additionalPrivateIPs : list string)
    : M call (option error * list Node) :=
  let '(special, regular) := classify items in
  dumped ← dumpSpecial env special [];
  r ← dumpRegular env maxNodesToDump regular dumped;
  match r with
  | inr dumped => mret (None, dumped)
  | inl dumped =>
      r ← dumpAdditional env maxNodesToDump false
            (findInstancesNotDumped additionalIPs dumped) dumped;
      match r with
      | Some err => mret (err, dumped)
      | None =>
          r ← dumpAdditional env maxNodesToDump true
                (findInstancesNotDumped additionalPrivateIPs dumped) dumped;
          match r with
          | Some err => mret (err, dumped)
          | None => mret (None, dumped)
          end
      end
  end.

Definition DumpAllNodes (env : Env) (items : list Node) (maxNodesToDump : Z)
    (additionalIPs additionalPrivateIPs : list string) : M call (option error) :=
  r ← DumpAllNodes_dumped env items maxNodesToDump additionalIPs additionalPrivateIPs;
  mret (fst r).

(** *** Commands sent to a node

    A Go string is a sequence of bytes, given here by the list of the
    values of its bytes.  A range statement over a string decodes it as
    UTF-8, rune by rune, and yields [utf8.RuneError] for each byte that
    begins no valid encoding; a rune is given by its code point. *)
Definition rune : Type := Z.

(** [utf8.RuneError]. *)
Definition utf8_RuneError : rune := 65533%Z.

(** The runes of a string literal of the source, which are all ASCII; for
    any string, the values of its bytes. *)
Definition runes (s : string) : list rune :=
  (λ c, Z.of_N (Ascii.N_of_ascii c)) <$> String.list_ascii_of_string s.

(** [utf8.AppendRune]: the UTF-8 encoding of a rune, which is that of
    [utf8.RuneError] for a rune out of range and for a surrogate.  The
    shifts and masks of the library are written as divisions. *)
Definition utf8_EncodeRune (r : rune) : list Z :=
  if (0 <=? r)%Z && (r <=? 127)%Z then [r]
  else if (0 <=? r)%Z && (r <=? 2047)%Z then [192 + r / 64; 128 + r mod 64]%Z
  else if (r <? 0)%Z || (1114111 <? r)%Z || (55296 <=? r)%Z && (r <=? 57343)%Z
  then [239; 191; 189]%Z
  else if (r <=? 65535)%Z
  then [224 + r / 4096; 128 + (r / 64) mod 64; 128 + r mod 64]%Z
  else [240 + r / 262144; 128 + (r / 4096) mod 64; 128 + (r / 64) mod 64;
        128 + r mod 64]%Z.

(** [utf8.DecodeRuneInString]: the first rune of the string and the number
    of bytes of its encoding; [utf8.RuneError] and 1 when the bytes at the
    head of the string are no valid encoding: a byte that cannot begin
    one, an encoding cut short, or a second byte outside the range that
    the first byte accepts (which rules out the encodings that are longer
    than needed, the surrogates and the runes above the last one). *)
Definition utf8_DecodeRune (s : list Z) : rune * nat :=
  match s with
  | [] => (utf8_RuneError, 0)
  | p0 :: s =>
      if (0 <=? p0)%Z && (p0 <=? 127)%Z then (p0, 1)
      else if (194 <=? p0)%Z && (p0 <=? 223)%Z then
        match s with
        | b1 :: _ =>
            if (128 <=? b1)%Z && (b1 <=? 191)%Z
            then (((p0 - 192) * 64 + (b1 - 128))%Z, 2)
            else (utf8_RuneError, 1)
        | _ => (utf8_RuneError, 1)
        end
      else if (224 <=? p0)%Z && (p0 <=? 239)%Z then
        match s with
        | b1 :: b2 :: _ =>
            if ((if (p0 =? 224)%Z then 160 else 128) <=? b1)%Z
               && (b1 <=? (if (p0 =? 237)%Z then 159 else 191))%Z
               && (128 <=? b2)%Z && (b2 <=? 191)%Z
            then (((p0 - 224) * 4096 + (b1 - 128) * 64 + (b2 - 128))%Z, 3)
            else (utf8_RuneError, 1)
        | _ => (utf8_RuneError, 1)
        end
      else if (240 <=? p0)%Z && (p0 <=? 244)%Z then
        match s with
        | b1 :: b2 :: b3 :: _ =>
            if ((if (p0 =? 240)%Z then 144 else 128) <=? b1)%Z
               && (b1 <=? (if (p0 =? 244)%Z then 143 else 191))%Z
               && (128 <=? b2)%Z && (b2 <=? 191)%Z
               && (128 <=? b3)%Z && (b3 <=? 191)%Z
            then (((p0 - 240) * 262144 + (b1 - 128) * 4096 + (b2 - 128) * 64
                   + (b3 - 128))%Z, 4)
            else (utf8_RuneError, 1)
        | _ => (utf8_RuneError, 1)
        end
      else (utf8_RuneError, 1)
  end.

(** The runes that a range statement over the string yields, in at most
    [fuel] steps; the length of the string is fuel enough, since each
    step takes one byte at least. *)
Fixpoint rangeString (fuel : nat) (s : list Z) : list rune :=
  match fuel, s with
  | S fuel, _ :: _ =>
      let '(r, size) := utf8_DecodeRune s in
      r :: rangeString fuel (drop size s)
  | _, _ => []
  end.

(** [strings.Builder]: [WriteString] appends the string, [WriteRune] the
    encoding of the rune. *)
Definition WriteString (q : list Z) (s : list Z) : list Z := q ++ s.

Definition WriteRune (q : list Z) (r : rune) : list Z := q ++ utf8_EncodeRune r.

(** The single quote and the backslash. *)
Definition rune_quote : rune := 39%Z.
Definition rune_backslash : rune := 92%Z.

Definition quoteShell (s : list Z) : list Z :=
  let q := WriteString [] (runes "'") in
  let q :=
    fold_left
      (λ q c,
         let q :=
           if (c =? rune_quote)%Z || (c =? rune_backslash)%Z
           then WriteString q (runes "'\") else q in
         let q := WriteRune q c in
         if (c =? rune_quote)%Z || (c =? rune_backslash)%Z
         then WriteRune q rune_quote else q)
      (rangeString (length s) s) q in
  WriteString q (runes "'").

(** The command that [ExecPiped] runs in its session: the command it is
    given, wrapped in a call of ssh when the client forwards to a host
    behind the bastion (lines 484 to 486 of the source). *)
Definition ExecPiped_command (forwardTo cmd : list Z) : list Z :=
  if decide (forwardTo ≠ []) then
    runes "ssh -o 'StrictHostKeyChecking no' " ++ quoteShell forwardTo
      ++ runes " " ++ quoteShell cmd
  else cmd.

(** [strings.ReplaceAll] of a byte: each occurrence of the byte [old] in
    [s] is replaced by the string [new]. *)
Fixpoint strings_ReplaceAll (s : string) (old : Ascii.ascii) (new : string) : string :=
  match s with
  | EmptyString => EmptyString
  | String c s =>
      if Ascii.eqb c old then new +:+ strings_ReplaceAll s old new
      else String c (strings_ReplaceAll s old new)
  end.

(** The command by which [dump] copies the file [f] of the node (line 363
    of the source). *)
Definition catCommand (f : string) : string :=
  "sudo cat '" +:+ strings_ReplaceAll f (Ascii.ascii_of_nat 39) "'\''" +:+ "'".

(** *** Listing the files of a node *)

(** Events of a connected node: a command run through the client.  The
    environment answers with the bytes of its standard output and the
    error of the run. *)
Inductive client_call : Type :=
  | ExecPiped (command : string).

Record sshClient : Type := {
  ExecPiped_resp : list client_call → string → string * option error
}.

(** [bytes.Split] with a separator of one byte: the pieces between the
    occurrences of the separator, one more than there are occurrences. *)
Fixpoint bytes_Split (s : string) (sep : Ascii.ascii) : list string :=
  match s with
  | EmptyString => [EmptyString]
  | String c s =>
      if Ascii.eqb c sep then EmptyString :: bytes_Split s sep
      else
        match bytes_Split s sep with
        | b :: l => String c b :: l
        | [] => [String c EmptyString]
        end
  end.

(** [findFiles] lists the files under the directory: the paths that
    find prints, each ended by a zero byte. *)
Definition findFiles (client : sshClient) (dir : string) : M client_call (result (slice string)) :=
  let command := "sudo find " +:+ dir +:+ " -print0" in
  '(stdout, err) ← emit (ExecPiped command) (λ h, ExecPiped_resp client h command);
  match err with
  | Some err => mret (Err (Wrapf "error listing %q: %v" [FmtString dir] err))
  | None =>
      mret (Ok (fold_left
                  (λ paths b, if String.length b =? 0 then paths else append paths b)
                  (bytes_Split stdout Ascii.zero) (Some [])))
  end.


End dump.

(** ** Package components: the options of the cluster autoscaler *)

Module components.

(** The fields of [kops.ClusterAutoscalerConfig] that [BuildOptions] reads
    or writes; the struct is declared in a file that is not embedded, and
    its other fields are left as they are. *)
Record ClusterAutoscalerConfig : Type := {
  Enabled : option bool;
  Expander : string;
  BalanceSimilarNodeGroups : option bool;
  EmitPerNodegroupMetrics : option bool;
  AWSUseStaticInstanceList : option bool;
  IgnoreDaemonSetsUtilization : option bool;
  ScaleDownUtilizationThreshold : option string;
  SkipNodesWithCustomControllerPods : option bool;
  SkipNodesWithSystemPods : option bool;
  SkipNodesWithLocalStorage : option bool;
  NewPodScaleUpDelay : option string;
  ScaleDownDelayAfterAdd : option string;
  ScaleDownUnneededTime : option string;
  ScaleDownUnreadyTime : option string;
  MaxNodeProvisionTime : string;
  CreatePriorityExpenderConfig : option bool;
  Image : option string
}.

(** The two fields of [kops.ClusterSpec] that [BuildOptions] reads. *)
Record ClusterSpec : Type := {
  ClusterAutoscaler : option ClusterAutoscalerConfig;
  KubernetesVersion : string
}.

(** [util.KubernetesVersion], of which the minor number is read. *)
Record KubernetesVersion_ : Type := { Minor : Z }.

(** A pointer field that is nil takes the default. *)
Definition orDefault {A} (field : option A) (value : A) : option A :=
  if field is None then fi.PtrTo value else field.

Section BuildOptions.

(** [util.ParseKubernetesVersion] is in a file that is not embedded. *)
Variable ParseKubernetesVersion : string → result KubernetesVersion_.

(** The image that [BuildOptions] gives an autoscaler that has none. *)
Definition defaultImage (version : string) : string :=
  match ParseKubernetesVersion version with
  | Err _ => ""
  | Ok v =>
      if (Minor v =? 27)%Z then "registry.k8s.io/autoscaling/cluster-autoscaler:v1.27.7"
      else if (Minor v =? 28)%Z then "registry.k8s.io/autoscaling/cluster-autoscaler:v1.28.4"
      else if (Minor v =? 29)%Z then "registry.k8s.io/autoscaling/cluster-autoscaler:v1.29.2"
      else if (Minor v =? 30)%Z then "registry.k8s.io/autoscaling/cluster-autoscaler:v1.30.0"
      else "registry.k8s.io/autoscaling/cluster-autoscaler:v1.30.0"
  end.

(** [BuildOptions] writes through the pointer to the configuration of the
    autoscaler; it is given here as the cluster specification after the
    call, next to the error.  Each statement assigns one field, and reads
    no field assigned before it, but for the last one, which reads the
    expander. *)
Definition BuildOptions (clusterSpec : ClusterSpec) : option error * ClusterSpec :=
  match ClusterAutoscaler clusterSpec with
  | None => (None, clusterSpec)
  | Some cas =>
      if negb (fi.ValueOf (Enabled cas)) then (None, clusterSpec)
      else
        let image :=
          if Image cas is None
          then fi.PtrTo (defaultImage (KubernetesVersion clusterSpec)) else Image cas in
        let expander := if String.eqb (Expander cas) "" then "random" else Expander cas in
        (None,
         {| ClusterAutoscaler :=
              Some
                {| Enabled := Enabled cas;
                   Image := image;
                   Expander := expander;
                   IgnoreDaemonSetsUtilization :=
                     orDefault (IgnoreDaemonSetsUtilization cas) false;
                   ScaleDownUtilizationThreshold :=
                     orDefault (ScaleDownUtilizationThreshold cas) "0.5";
                   SkipNodesWithCustomControllerPods :=
                     orDefault (SkipNodesWithCustomControllerPods cas) true;
                   SkipNodesWithLocalStorage :=
                     orDefault (SkipNodesWithLocalStorage cas) true;
                   SkipNodesWithSystemPods := orDefault (SkipNodesWithSystemPods cas) true;
                   BalanceSimilarNodeGroups :=
                     orDefault (BalanceSimilarNodeGroups cas) false;
                   EmitPerNodegroupMetrics := orDefault (EmitPerNodegroupMetrics cas) false;
                   AWSUseStaticInstanceList :=
                     orDefault (AWSUseStaticInstanceList cas) false;
                   NewPodScaleUpDelay := orDefault (NewPodScaleUpDelay cas) "0s";
                   ScaleDownDelayAfterAdd := orDefault (ScaleDownDelayAfterAdd cas) "10m0s";
                   ScaleDownUnneededTime := orDefault (ScaleDownUnneededTime cas) "10m0s";
                   ScaleDownUnreadyTime := orDefault (ScaleDownUnreadyTime cas) "20m0s";
                   MaxNodeProvisionTime :=
                     if String.eqb (MaxNodeProvisionTime cas) "" then "15m0s"
                     else MaxNodeProvisionTime cas;
                   CreatePriorityExpenderConfig :=
                     if String.eqb expander "priority" then fi.PtrTo true
                     else CreatePriorityExpenderConfig cas |};
            KubernetesVersion := KubernetesVersion clusterSpec |})
  end.

End BuildOptions.

End components.


(** ** Package wellknownassets: the CNI plugin binaries *)

Module wellknownassets.

Definition defaultCNIAssetAmd64K8s_22 : string :=
  "https://storage.googleapis.com/k8s-artifacts-cni/release/v0.9.1/cni-plugins-linux-amd64-v0.9.1.tgz".
Definition defaultCNIAssetArm64K8s_22 : string :=
  "https://storage.googleapis.com/k8s-artifacts-cni/release/v0.9.1/cni-plugins-linux-arm64-v0.9.1.tgz".
Definition defaultCNIAssetAmd64K8s_27 : string :=
  "https://storage.googleapis.com/k8s-artifacts-cni/release/v1.2.0/cni-plugins-linux-amd64-v1.2.0.tgz".
Definition defaultCNIAssetArm64K8s_27 : string :=
  "https://storage.googleapis.com/k8s-artifacts-cni/release/v1.2.0/cni-plugins-linux-arm64-v1.2.0.tgz".
Definition defaultCNIAssetAmd64K8s_29 : string :=
  "https://storage.googleapis.com/k8s-artifacts-cni/release/v1.3.0/cni-plugins-linux-amd64-v1.3.0.tgz".
Definition defaultCNIAssetArm64K8s_29 : string :=
  "https://storage.googleapis.com/k8s-artifacts-cni/release/v1.3.0/cni-plugins-linux-arm64-v1.3.0.tgz".
Definition defaultCNIAssetAmd64K8s_30 : string :=
  "https://storage.googleapis.com/k8s-artifacts-cni/release/v1.4.1/cni-plugins-linux-amd64-v1.4.1.tgz".
Definition defaultCNIAssetArm64K8s_30 : string :=
  "https://storage.googleapis.com/k8s-artifacts-cni/release/v1.4.1/cni-plugins-linux-arm64-v1.4.1.tgz".
Definition defaultCNIAssetAmd64K8s_31 : string :=
  "https://storage.googleapis.com/k8s-artifacts-cni/release/v1.5.1/cni-plugins-linux-amd64-v1.5.1.tgz".
Definition defaultCNIAssetArm64K8s_31 : string :=
  "https://storage.googleapis.com/k8s-artifacts-cni/release/v1.5.1/cni-plugins-linux-arm64-v1.5.1.tgz".
Definition defaultCNIAssetAmd64K8s_32 : string :=
  "https://storage.googleapis.com/k8s-artifacts-cni/release/v1.6.1/cni-plugins-linux-amd64-v1.6.1.tgz".
Definition defaultCNIAssetArm64K8s_32 : string :=
  "https://storage.googleapis.com/k8s-artifacts-cni/release/v1.6.1/cni-plugins-linux-arm64-v1.6.1.tgz".

Definition ENV_VAR_CNI_ASSET_URL : string := "CNI_VERSION_URL".
Definition ENV_VAR_CNI_ASSET_HASH : string := "CNI_ASSET_HASH_STRING".

(** [architectures.Architecture] is a string; its two constants are
    declared in a file that is not embedded. *)
Inductive Architecture : Type :=
  | ArchitectureAmd64
  | ArchitectureArm64
  | ArchitectureOther (name : string).

Section FindCNIAssets.

(** The values of [url.URL], [hashing.Hash] and [assets.FileAsset], and the
    two parsers [url.Parse] and [hashing.FromString] of the libraries. *)
Variables URL Hash FileAsset : Type.
Variable url_Parse : string → result URL.
Variable hashing_FromString : string → result Hash.

(** The one call with an effect: [RemapFile] of the asset builder, which
    records the asset. *)
Inductive call : Type :=
  | RemapFile (u : URL) (h : option Hash).

(** The environment of the process, the version of Kubernetes of the
    instance group as [IsGTE] tells it, and the answers of the asset
    builder. *)
Record Env : Type := {
  Getenv : string → string;
  KubernetesVersion_IsGTE : string → bool;
  RemapFile_resp : list call → URL → option Hash → result FileAsset
}.

(** The switch on the architecture and on the version. *)
Definition defaultCNIAssetURL (env : Env) (arch : Architecture) : result string :=
  match arch with
  | ArchitectureAmd64 =>
      Ok (if KubernetesVersion_IsGTE env "1.32" then defaultCNIAssetAmd64K8s_32
          else if KubernetesVersion_IsGTE env "1.31" then defaultCNIAssetAmd64K8s_31
          else if KubernetesVersion_IsGTE env "1.30" then defaultCNIAssetAmd64K8s_30
          else if KubernetesVersion_IsGTE env "1.29" then defaultCNIAssetAmd64K8s_29
          else if KubernetesVersion_IsGTE env "1.27" then defaultCNIAssetAmd64K8s_27
          else defaultCNIAssetAmd64K8s_22)
  | ArchitectureArm64 =>
      Ok (if KubernetesVersion_IsGTE env "1.32" then defaultCNIAssetArm64K8s_32
          else if KubernetesVersion_IsGTE env "1.31" then defaultCNIAssetArm64K8s_31
          else if KubernetesVersion_IsGTE env "1.30" then defaultCNIAssetArm64K8s_30
          else if KubernetesVersion_IsGTE env "1.29" then defaultCNIAssetArm64K8s_29
          else if KubernetesVersion_IsGTE env "1.27" then defaultCNIAssetArm64K8s_27
          else defaultCNIAssetArm64K8s_22)
  | ArchitectureOther name =>
      Err (Errorf "unknown arch for CNI plugin binaries asset: %s" [FmtString name])
  end.

Definition FindCNIAssets (env : Env) (arch : Architecture) : M call (result FileAsset) :=
  let cniAssetURL := Getenv env ENV_VAR_CNI_ASSET_URL in
  let cniAssetHash := Getenv env ENV_VAR_CNI_ASSET_HASH in
  if negb (String.eqb cniAssetURL "") && negb (String.eqb cniAssetHash "") then
    match url_Parse cniAssetURL with
    | Err err =>
        mret (Err (Wrapf "unable to parse CNI plugin binaries asset URL %q: %v"
                     [FmtString cniAssetURL] err))
    | Ok u =>
        match hashing_FromString cniAssetHash with
        | Err err =>
            mret (Err (Wrapf "unable to parse CNI plugin binaries asset hash %q: %v"
                         [FmtString cniAssetHash] err))
        | Ok h =>
            asset ← emit (RemapFile u (Some h)) (λ hist, RemapFile_resp env hist u (Some h));
            match asset with
            | Err err =>
                mret (Err (Wrapf "unable to remap CNI plugin binaries asset: %v" [] err))
            | Ok asset => mret (Ok asset)
            end
        end
    end
  else
    match defaultCNIAssetURL env arch with
    | Err err => mret (Err err)
    | Ok cniAssetURL =>
        match url_Parse cniAssetURL with
        | Err err =>
            mret (Err (Wrapf "unable to parse CNI plugin binaries asset URL %q: %v"
                         [FmtString cniAssetURL] err))
        | Ok u =>
            asset ← emit (RemapFile u None) (λ hist, RemapFile_resp env hist u None);
            match asset with
            | Err err =>
                mret (Err (Wrapf "unable to remap CNI plugin binaries asset: %v" [] err))
            | Ok asset => mret (Ok asset)
            end
        end
    end.

End FindCNIAssets.

Arguments RemapFile {URL Hash} u h.
Arguments Getenv {URL Hash FileAsset} e name.
Arguments KubernetesVersion_IsGTE {URL Hash FileAsset} e version.
Arguments RemapFile_resp {URL Hash FileAsset} e hist u h.
Arguments defaultCNIAssetURL {URL Hash FileAsset} env arch.
Arguments FindCNIAssets {URL Hash FileAsset} url_Parse hashing_FromString env arch.

End wellknownassets.


(** ** Package components: the options of the scheduler *)

Module kubescheduler.

Record LeaderElectionConfiguration : Type := { LeaderElect : option bool }.

(** The fields of [kops.KubeSchedulerConfig] that [BuildOptions] reads or
    writes. *)
Record KubeSchedulerConfig : Type := {
  LogLevel : Z;
  Image : string;
  LeaderElection : option LeaderElectionConfiguration;
  FeatureGates : option (gmap string string)
}.

(** The fields of [kops.ClusterSpec] that [BuildOptions] reads: the
    configuration of the scheduler, and whether the cloud provider is
    AWS. *)
Record ClusterSpec : Type := {
  KubeScheduler : option KubeSchedulerConfig;
  CloudProvider_AWS : bool
}.

Definition set_KubeScheduler (config : KubeSchedulerConfig) (clusterSpec : ClusterSpec)
    : ClusterSpec :=
  {| KubeScheduler := Some config; CloudProvider_AWS := CloudProvider_AWS clusterSpec |}.

Definition set_LogLevel (level : Z) (config : KubeSchedulerConfig) : KubeSchedulerConfig :=
  {| LogLevel := level; Image := Image config; LeaderElection := LeaderElection config;
     FeatureGates := FeatureGates config |}.

Definition set_Image (image : string) (config : KubeSchedulerConfig) : KubeSchedulerConfig :=
  {| LogLevel := LogLevel config; Image := image; LeaderElection := LeaderElection config;
     FeatureGates := FeatureGates config |}.

Definition set_LeaderElection (election : option LeaderElectionConfiguration)
    (config : KubeSchedulerConfig) : KubeSchedulerConfig :=
  {| LogLevel := LogLevel config; Image := Image config; LeaderElection := election;
     FeatureGates := FeatureGates config |}.

Definition set_FeatureGates (gates : option (gmap string string))
    (config : KubeSchedulerConfig) : KubeSchedulerConfig :=
  {| LogLevel := LogLevel config; Image := Image config;
     LeaderElection := LeaderElection config; FeatureGates := gates |}.

(** The one call with an effect: [Image], declared in a file that is not
    embedded, which is handed the cluster specification and the asset
    builder. *)
Inductive call : Type :=
  | Image_ (component : string) (clusterSpec : ClusterSpec).

(** The answers of [Image], and the version of the control plane as
    [IsLT] tells it. *)
Record Env : Type := {
  Image_resp : list call → string → ClusterSpec → result string;
  ControlPlaneKubernetesVersion_IsLT : string → bool
}.

(** A feature gate that is not in the map is set to "true" when the
    version is lower than [version]. *)
Definition defaultGate (env : Env) (gate version : string) (gates : gmap string string)
    : gmap string string :=
  if gates !! gate is Some _ then gates
  else if ControlPlaneKubernetesVersion_IsLT env version then <[gate := "true"]> gates
  else gates.

(** [BuildOptions] writes into the cluster specification; it is given here
    as the specification after the call, next to the error. *)
Definition BuildOptions (env : Env) (clusterSpec : ClusterSpec)
    : M call (option error * ClusterSpec) :=
  let config :=
    match KubeScheduler clusterSpec with
    | None =>
        {| LogLevel := 0; Image := ""; LeaderElection := None; FeatureGates := None |}
    | Some config => config
    end in
  let config := if (LogLevel config =? 0)%Z then set_LogLevel 2 config else config in
  let clusterSpec := set_KubeScheduler config clusterSpec in
  image ←
    (if String.eqb (Image config) "" then
       emit (Image_ "kube-scheduler" clusterSpec)
         (λ h, Image_resp env h "kube-scheduler" clusterSpec)
     else mret (Ok (Image config)));
  match image with
  | Err err => mret (Some err, clusterSpec)
  | Ok image =>
      let config := set_Image image config in
      let config :=
        if LeaderElection config is None
        then set_LeaderElection (Some {| LeaderElect := fi.PtrTo true |}) config
        else config in
      let config :=
        if CloudProvider_AWS clusterSpec then
          let gates := default ∅ (FeatureGates config) in
          let gates := defaultGate env "InTreePluginAWSUnregister" "1.31" gates in
          let gates := defaultGate env "CSIMigrationAWS" "1.27" gates in
          set_FeatureGates (Some gates) config
        else config in
      mret (None, set_KubeScheduler config clusterSpec)
  end.

End kubescheduler.


(** ** The run of one task *)

Module engine.

(** Modelled from the spec: the run of one task ([fi.CloudupDefaultDeltaRunMethod],
    which the method [Run] of every task calls) is not among the embedded
    sources.  By sections 4.3 and 4.4 of the spec the validation routine is
    invoked with (actual, expected, changes), a failed validation ends the
    convergence of the task, and the apply routine of the active target is
    invoked on a validated changes object.  [inl err] is the failed
    validation, [inr r] the result of the apply routine. *)
Definition validateThenRender {Ev T R}
    (CheckChanges : option T → T → T → option error)
    (Render : option T → T → T → M Ev R)
    (a : option T) (e changes : T) : M Ev (error + R) :=
  match CheckChanges a e changes with
  | Some err => mret (inl err)
  | None => r ← Render a e changes; mret (inr r)
  end.

(** Modelled from the spec: the scheduler is not among the embedded sources.
    By section 4.1 of the spec the tasks of a layer, which are mutually
    independent, are taken in the order of a stable key, the task type and
    then the name.  [key_le] is that order on keys, [orderLayer] the order
    of execution of a layer, and [emitLayer] the output of the template
    backend for it, the blocks of the tasks one after the other. *)
Definition key_le (k1 k2 : string * string) : Prop :=
  if decide (fst k1 = fst k2) then String.le (snd k1) (snd k2)
  else String.le (fst k1) (fst k2).

#[global] Instance key_le_dec : RelDecision key_le.
Proof. intros k1 k2. unfold key_le. destruct (decide (fst k1 = fst k2)); apply _. Defined.

(** Modelled from the spec: see [key_le]. *)
Definition task_le {T} (key : T → string * string) (x y : T) : Prop :=
  key_le (key x) (key y).

#[global] Instance task_le_dec {T} (key : T → string * string) : RelDecision (task_le key).
Proof. intros x y. unfold task_le. apply _. Defined.

(** Modelled from the spec: see [key_le]. *)
Definition orderLayer {T} (key : T → string * string) (layer : list T) : list T :=
  merge_sort (task_le key) layer.

(** Modelled from the spec: see [key_le]. *)
Definition emitLayer {T} (key : T → string * string) (render : T → list Byte.byte)
    (layer : list T) : list Byte.byte :=
  concat (render <$> orderLayer key layer).

(** Modelled from the spec: the test that skips the apply routine is part of
    [fi.CloudupDefaultDeltaRunMethod], which is not among the embedded
    sources.  By section 8 of the spec the apply routine is invoked zero
    times when the changes object is empty, and by section 4.4 the
    direct-apply backend then performs no network call.  [applyChanges] is
    the run of one task once its changes object is computed: the validation,
    and then the apply routine unless the changes object is empty.
    [inl err] is the failed validation, [inr None] the run in which the
    apply routine is not invoked, [inr (Some r)] the result of the apply
    routine. *)
Definition applyChanges {Ev T R} (isEmpty : T → bool)
    (CheckChanges : option T → T → T → option error)
    (Render : option T → T → T → M Ev R)
    (a : option T) (e changes : T) : M Ev (error + option R) :=
  match CheckChanges a e changes with
  | Some err => mret (inl err)
  | None =>
      if isEmpty changes then mret (inr None)
      else r ← Render a e changes; mret (inr (Some r))
  end.


End engine.

(** ** The fields the validation routines guard

    For each task, the fields that a changes object flags among those that
    cannot change, and the fields that are unset among those required at
    creation, by name and in the order of the checks. *)

Definition flag {A} (name : string) (p : option A) : list string :=
  if p is Some _ then [name] else [].

Definition missing {A} (name : string) (p : option A) : list string :=
  if p is None then [name] else [].

Definition Subnet_flaggedImmutable (changes : openstacktasks.Subnet.t) : list string :=
  flag "Name" (openstacktasks.Subnet.Name changes)
  ++ flag "Network" (openstacktasks.Subnet.Network changes)
  ++ flag "CIDR" (openstacktasks.Subnet.CIDR changes).

Definition LBListener_flaggedImmutable (changes : openstacktasks.LBListener.t)
    : list string :=
  flag "ID" (openstacktasks.LBListener.ID changes)
  ++ flag "Name" (openstacktasks.LBListener.Name changes).

Definition Subnet_missingRequired (e : openstacktasks.Subnet.t) : list string :=
  missing "Name" (openstacktasks.Subnet.Name e)
  ++ missing "Network" (openstacktasks.Subnet.Network e)
  ++ missing "CIDR" (openstacktasks.Subnet.CIDR e).

Definition Disk_missingRequired (e : azuretasks.Disk.t) : list string :=
  missing "Name" (azuretasks.Disk.Name e).

(** ** The tasks that discovery builds

    The actual task that [Subnet.Find] builds from the one subnet [r] of the
    listing and the network task made for it. *)
Definition Subnet_found (s : openstacktasks.Subnet.t) (r : openstacktasks.subnets.Subnet)
    (networkTask : openstacktasks.Network) : openstacktasks.Subnet.t :=
  let tag := fi.ValueOf (openstacktasks.Subnet.Tag s) in
  {| openstacktasks.Subnet.ID := Some (openstacktasks.subnets.ID r);
     openstacktasks.Subnet.Name := Some (openstacktasks.subnets.Name r);
     openstacktasks.Subnet.Network := Some networkTask;
     openstacktasks.Subnet.CIDR := Some (openstacktasks.subnets.CIDR r);
     openstacktasks.Subnet.DNSServers :=
       Some (Some <$> elems (openstacktasks.subnets.DNSNameservers r));
     openstacktasks.Subnet.Tag :=
       Some (if fi.ArrayContains (openstacktasks.subnets.Tags r) tag then tag else "");
     openstacktasks.Subnet.Lifecycle := openstacktasks.Subnet.Lifecycle s |}.

(** The actual task that [LBListener.Find] builds from the one listener [l]
    of the listing and the pool task made for it. *)
Definition LBListener_found (s : openstacktasks.LBListener.t)
    (l : openstacktasks.listeners.Listener) (poolTask : openstacktasks.LBPool)
    : openstacktasks.LBListener.t :=
  {| openstacktasks.LBListener.ID := Some (openstacktasks.listeners.ID l);
     openstacktasks.LBListener.Name := Some (openstacktasks.listeners.Name l);
     openstacktasks.LBListener.Port := Some (openstacktasks.listeners.ProtocolPort l);
     openstacktasks.LBListener.Pool := Some poolTask;
     openstacktasks.LBListener.Lifecycle := openstacktasks.LBListener.Lifecycle s;
     openstacktasks.LBListener.AllowedCIDRs :=
       openstacktasks.LBListener.sort_Strings (openstacktasks.listeners.AllowedCIDRs l) |}.

(** The receiver of [LBListener.Find] once its search terms are updated. *)
Definition LBListener_searched (s : openstacktasks.LBListener.t)
    (l : openstacktasks.listeners.Listener) (poolTask : openstacktasks.LBPool)
    : openstacktasks.LBListener.t :=
  {| openstacktasks.LBListener.ID := Some (openstacktasks.listeners.ID l);
     openstacktasks.LBListener.Name := Some (openstacktasks.listeners.Name l);
     openstacktasks.LBListener.Port := openstacktasks.LBListener.Port s;
     openstacktasks.LBListener.Pool := Some poolTask;
     openstacktasks.LBListener.Lifecycle := openstacktasks.LBListener.Lifecycle s;
     openstacktasks.LBListener.AllowedCIDRs := openstacktasks.LBListener.AllowedCIDRs s |}.

(** The options [LBListener.Find] lists the listeners with. *)
Definition LBListener_listOpts (s : openstacktasks.LBListener.t)
    : openstacktasks.listeners.ListOpts :=
  {| openstacktasks.listeners.lo_ID := fi.ValueOf (openstacktasks.LBListener.ID s);
     openstacktasks.listeners.lo_Name := fi.ValueOf (openstacktasks.LBListener.Name s) |}.

(** Whether a listed disk carries the name [name]. *)
Definition Disk_named (name : string) (v : azuretasks.compute.Disk) : bool :=
  bool_decide (azuretasks.compute.Name v = Some name).

(** The actual task that [Disk.Find] builds from the listed disk [found]
    and its properties. *)
Definition Disk_found (d : azuretasks.Disk.t) (name rgName : string)
    (found : azuretasks.compute.Disk) (properties : azuretasks.compute.DiskProperties)
    : azuretasks.Disk.t :=
  {| azuretasks.Disk.Name := Some name;
     azuretasks.Disk.Lifecycle := azuretasks.Disk.Lifecycle d;
     azuretasks.Disk.ResourceGroup :=
       Some {| azuretasks.ResourceGroup_Name := Some rgName |};
     azuretasks.Disk.SizeGB := azuretasks.compute.DiskSizeGB properties;
     azuretasks.Disk.Tags := azuretasks.compute.Tags found;
     azuretasks.Disk.VolumeType :=
       sku ← azuretasks.compute.SKU found; azuretasks.compute.SKU_Name sku;
     azuretasks.Disk.Zones := azuretasks.compute.Zones found |}.

(** ** Properties of the events of a computation

    [emits P m]: from every history, [m] extends the history by events that
    all satisfy [P]. *)
Definition emits {Ev A} (P : Ev → Prop) (m : M Ev A) : Prop :=
  ∀ h, ∃ evs, snd (m h) = h ++ evs ∧ Forall P evs.

(** [yields m v]: [m] returns [v] and leaves the history as it is. *)
Definition yields {Ev A} (m : M Ev A) (v : A) : Prop :=
  ∀ h, m h = (Returns v, h).

(** ** Calls of the Terraform rendering

    [helperOrTargetCall e c]: the event [c] is a call of one of the two
    helper functions that are handed the cloud, or a call of the Terraform
    target for the launch template [e]; it is not a call on the cloud
    interface. *)
Definition helperOrTargetCall (e : awstasks.LaunchTemplate.t)
    (c : awstasks.LaunchTemplate.call) : Prop :=
  awstasks.LaunchTemplate.is_cloud_call c = false
  ∧ (c = awstasks.LaunchTemplate.buildRootDevice e
     ∨ c = awstasks.LaunchTemplate.buildEphemeralDevices
             (fi.ValueOf (awstasks.LaunchTemplate.InstanceType e))
     ∨ (∃ d, c = awstasks.LaunchTemplate.AddFileBytes "aws_launch_template"
                   (fi.ValueOf (awstasks.LaunchTemplate.Name e)) "user_data" d true)
     ∨ (∃ tf, c = awstasks.LaunchTemplate.RenderResource "aws_launch_template"
                    (fi.ValueOf (awstasks.LaunchTemplate.Name e)) tf)).

(** ** References in a rendered launch template

    [rendersLinks e tf]: in the resource block [tf] the security groups, the
    key and the instance profile of the task [e] appear as the Terraform
    links of those tasks. *)
Definition rendersLinks (e : awstasks.LaunchTemplate.t)
    (tf : awstasks.terraformLaunchTemplate) : Prop :=
  (∃ ni,
     awstasks.tf_NetworkInterfaces tf = Some [ni] ∧
     elems (awstasks.ni_SecurityGroups ni)
     = awstasks.SecurityGroup_TerraformLink
         <$> elems (awstasks.LaunchTemplate.SecurityGroups e))
  ∧ awstasks.tf_KeyName tf
    = awstasks.SSHKey_TerraformLink <$> awstasks.LaunchTemplate.SSHKey e
  ∧ awstasks.tf_IAMInstanceProfile tf
    = (λ profile,
         [ {| awstasks.iam_Name := Some (awstasks.IAMInstanceProfile_TerraformLink profile) |} ])
        <$> awstasks.LaunchTemplate.IAMInstanceProfile e.

(** ** The block devices of a rendered launch template

    [extend s l] is the slice [s] after the elements of [l] are appended one
    by one. *)
Definition extend {A} (s : slice A) (l : list A) : slice A :=
  if l is [] then s else Some (elems s ++ l).

(** The devices that the loops of [RenderTerraform] make of a map: one for
    each key, in the order of [maps.SortedKeys]. *)
Definition ebsDevices (devices : gmap string awstasks.BlockDeviceMapping)
    : list awstasks.terraformLaunchTemplateBlockDevice :=
  omap (λ key,
          awstasks.LaunchTemplate.createTerraformLaunchTemplateBlockDevice key
            <$> devices !! key)
    (maps.SortedKeys devices).

Definition ephemeralDevices (devices : gmap string awstasks.BlockDeviceMapping)
    : list awstasks.terraformLaunchTemplateBlockDevice :=
  omap (λ key,
          (λ v, {| awstasks.bd_VirtualName := awstasks.VirtualName v;
                   awstasks.bd_DeviceName := fi.PtrTo key;
                   awstasks.bd_EBS := None |})
            <$> devices !! key)
    (maps.SortedKeys devices).

(** The block devices of the rendered template: the root devices, then the
    additional devices, then the ephemeral devices. *)
Definition blockDevices (root additionals ephemeral : gmap string awstasks.BlockDeviceMapping)
    : slice awstasks.terraformLaunchTemplateBlockDevice :=
  extend (extend (extend None (ebsDevices root)) (ebsDevices additionals))
    (ephemeralDevices ephemeral).

(** ** Dependencies

    The test of [Subnet.GetDependencies] on the type of a task. *)
Definition isNetworkTask (task : openstacktasks.CloudupTask) : bool :=
  if task is openstacktasks.TaskNetwork _ then true else false.

(** ** Dumping the nodes of a healthy cluster

    The address [dumpRegistered] connects to, and whether it goes through
    the bastion: the external address when the node has one, else the
    internal address. *)
Definition dialTarget (node : dump.Node) : string * bool :=
  let '(publicIP, privateIP) := dump.pickAddresses (dump.Addresses node) "" in
  if negb (String.eqb publicIP "") then (publicIP, false) else (privateIP, true).

Definition hasAddress (node : dump.Node) : Prop := fst (dialTarget node) ≠ "".

(** The events of a dump of a registered node that meets no error. *)
Definition nodeEvents (node : dump.Node) : list dump.call :=
  [ dump.Dial (fst (dialTarget node)) (snd (dialTarget node));
    dump.node_dump (dump.Name node);
    dump.node_Close (dump.Name node) ].

(** The context is never cancelled and every connection is made. *)
Definition healthy (env : dump.Env) : Prop :=
  (∀ h, dump.ctx_Err env h = None) ∧ (∀ h host useBastion, dump.Dial_resp env h host useBastion = None).

(** ** Sample values *)

Module samples.

Definition net : openstacktasks.Network :=
  {| openstacktasks.Network_ID := Some "net-1" |}.

(** A subnet task as the caller declares it. *)
Definition subnet : openstacktasks.Subnet.t :=
  {| openstacktasks.Subnet.ID := None;
     openstacktasks.Subnet.Name := Some "nodes";
     openstacktasks.Subnet.Network := Some net;
     openstacktasks.Subnet.CIDR := Some "10.0.1.0/24";
     openstacktasks.Subnet.DNSServers := None;
     openstacktasks.Subnet.Tag := Some "cluster";
     openstacktasks.Subnet.Lifecycle := "Sync" |}.

(** The subnet found in the cloud. *)
Definition subnet_actual : openstacktasks.Subnet.t :=
  openstacktasks.Subnet.set_ID (Some "sub-1") subnet.

(** A changes object with no field set. *)
Definition subnet_nochange : openstacktasks.Subnet.t :=
  {| openstacktasks.Subnet.ID := None;
     openstacktasks.Subnet.Name := None;
     openstacktasks.Subnet.Network := None;
     openstacktasks.Subnet.CIDR := None;
     openstacktasks.Subnet.DNSServers := None;
     openstacktasks.Subnet.Tag := None;
     openstacktasks.Subnet.Lifecycle := "" |}.

(** A changes object that flags the CIDR. *)
Definition subnet_cidr_change : openstacktasks.Subnet.t :=
  {| openstacktasks.Subnet.ID := None;
     openstacktasks.Subnet.Name := None;
     openstacktasks.Subnet.Network := None;
     openstacktasks.Subnet.CIDR := Some "10.0.2.0/24";
     openstacktasks.Subnet.DNSServers := None;
     openstacktasks.Subnet.Tag := None;
     openstacktasks.Subnet.Lifecycle := "" |}.

(** A subnet task whose Network is unset. *)
Definition subnet_no_network : openstacktasks.Subnet.t :=
  {| openstacktasks.Subnet.ID := None;
     openstacktasks.Subnet.Name := Some "nodes";
     openstacktasks.Subnet.Network := None;
     openstacktasks.Subnet.CIDR := Some "10.0.1.0/24";
     openstacktasks.Subnet.DNSServers := None;
     openstacktasks.Subnet.Tag := None;
     openstacktasks.Subnet.Lifecycle := "Sync" |}.

Definition lb : openstacktasks.LB :=
  {| openstacktasks.LB_ID := Some "lb-1"; openstacktasks.LB_Provider := Some "amphora" |}.

Definition pool : openstacktasks.LBPool :=
  {| openstacktasks.LBPool_ID := Some "pool-1";
     openstacktasks.LBPool_Loadbalancer := Some lb |}.

(** A listener task as the caller declares it. *)
Definition listener : openstacktasks.LBListener.t :=
  {| openstacktasks.LBListener.ID := None;
     openstacktasks.LBListener.Name := Some "api";
     openstacktasks.LBListener.Port := Some 443%Z;
     openstacktasks.LBListener.Pool := Some pool;
     openstacktasks.LBListener.Lifecycle := "Sync";
     openstacktasks.LBListener.AllowedCIDRs := None |}.

(** The listener found in the cloud. *)
Definition listener_actual : openstacktasks.LBListener.t :=
  openstacktasks.LBListener.set_ID (Some "lis-1") listener.

(** A changes object with no field set. *)
Definition listener_nochange : openstacktasks.LBListener.t :=
  {| openstacktasks.LBListener.ID := None;
     openstacktasks.LBListener.Name := None;
     openstacktasks.LBListener.Port := None;
     openstacktasks.LBListener.Pool := None;
     openstacktasks.LBListener.Lifecycle := "";
     openstacktasks.LBListener.AllowedCIDRs := None |}.

(** A changes object that flags the Name. *)
Definition listener_name_change : openstacktasks.LBListener.t :=
  openstacktasks.LBListener.set_Name (Some "api-2") listener_nochange.

Definition rg : azuretasks.ResourceGroup :=
  {| azuretasks.ResourceGroup_Name := Some "rg" |}.

(** A disk task as the caller declares it. *)
Definition disk : azuretasks.Disk.t :=
  {| azuretasks.Disk.Name := Some "etcd-a";
     azuretasks.Disk.Lifecycle := "Sync";
     azuretasks.Disk.ResourceGroup := Some rg;
     azuretasks.Disk.SizeGB := Some 20%Z;
     azuretasks.Disk.Tags := None;
     azuretasks.Disk.VolumeType := Some "Premium_LRS";
     azuretasks.Disk.Zones := None |}.

(** A changes object with no field set. *)
Definition disk_nochange : azuretasks.Disk.t :=
  {| azuretasks.Disk.Name := None;
     azuretasks.Disk.Lifecycle := "";
     azuretasks.Disk.ResourceGroup := None;
     azuretasks.Disk.SizeGB := None;
     azuretasks.Disk.Tags := None;
     azuretasks.Disk.VolumeType := None;
     azuretasks.Disk.Zones := None |}.

(** A disk task whose Name is unset. *)
Definition disk_no_name : azuretasks.Disk.t :=
  {| azuretasks.Disk.Name := None;
     azuretasks.Disk.Lifecycle := "Sync";
     azuretasks.Disk.ResourceGroup := Some rg;
     azuretasks.Disk.SizeGB := Some 20%Z;
     azuretasks.Disk.Tags := None;
     azuretasks.Disk.VolumeType := None;
     azuretasks.Disk.Zones := None |}.

End samples.

(** An OpenStack cloud for the samples: the two listings are given, every
    other call succeeds. *)
Definition samples_openstack (subnetListing : result (slice openstacktasks.subnets.Subnet))
    (listenerListing : result (slice openstacktasks.listeners.Listener))
    : openstacktasks.OpenstackCloud :=
  {| openstacktasks.ListSubnets_resp := λ _ _, subnetListing;
     openstacktasks.GetNetwork_resp := λ _ id,
       Ok {| openstacktasks.networks.ID := id; openstacktasks.networks.Name := "net" |};
     openstacktasks.CreateSubnet_resp := λ _ opt,
       Ok {| openstacktasks.subnets.ID := "sub-new";
             openstacktasks.subnets.Name := openstacktasks.subnets.co_Name opt;
             openstacktasks.subnets.NetworkID := openstacktasks.subnets.co_NetworkID opt;
             openstacktasks.subnets.CIDR := openstacktasks.subnets.co_CIDR opt;
             openstacktasks.subnets.DNSNameservers :=
               openstacktasks.subnets.co_DNSNameservers opt;
             openstacktasks.subnets.Tags := None |};
     openstacktasks.AppendTag_resp := λ _ _ _ _, None;
     openstacktasks.subnets_Update_resp := λ _ _ _, None;
     openstacktasks.ListListeners_resp := λ _ _, listenerListing;
     openstacktasks.GetPool_resp := λ _ id,
       Ok {| openstacktasks.pools.ID := id; openstacktasks.pools.Name := "pool" |};
     openstacktasks.UseLoadBalancerVIPACL_resp := λ _, Ok true;
     openstacktasks.CreateListener_resp := λ _ opt,
       Ok {| openstacktasks.listeners.ID := "lis-new";
             openstacktasks.listeners.Name := openstacktasks.listeners.co_Name opt;
             openstacktasks.listeners.ProtocolPort :=
               openstacktasks.listeners.co_ProtocolPort opt;
             openstacktasks.listeners.AllowedCIDRs :=
               openstacktasks.listeners.co_AllowedCIDRs opt;
             openstacktasks.listeners.Pools := None;
             openstacktasks.listeners.DefaultPoolID :=
               openstacktasks.listeners.co_DefaultPoolID opt |};
     openstacktasks.listeners_Update_resp := λ _ _ _, None;
     openstacktasks.NewNetworkTaskFromCloud_resp := λ _ _ network _,
       Ok {| openstacktasks.Network_ID := Some (openstacktasks.networks.ID network) |};
     openstacktasks.NewLBPoolTaskFromCloud_resp := λ _ _ pool _,
       Ok {| openstacktasks.LBPool_ID := Some (openstacktasks.pools.ID pool);
             openstacktasks.LBPool_Loadbalancer := None |} |}.

(** An Azure cloud for the samples: the listing is given, every write
    succeeds. *)
Definition samples_azure (listing : result (list azuretasks.compute.Disk))
    : azuretasks.AzureCloud :=
  {| azuretasks.Region := "westeurope";
     azuretasks.Disk_List_resp := λ _ _, listing;
     azuretasks.Disk_CreateOrUpdate_resp := λ _ _ _ _, None |}.

(** Two disks of one name in a listing, of 20 and of 64 gigabytes. *)
Definition samples_disk_listed (size : Z) : azuretasks.compute.Disk :=
  {| azuretasks.compute.Location := Some "westeurope";
     azuretasks.compute.Name := Some "etcd-a";
     azuretasks.compute.Properties :=
       Some {| azuretasks.compute.CreationData_ := None;
               azuretasks.compute.DiskSizeGB := Some size |};
     azuretasks.compute.SKU := None;
     azuretasks.compute.Tags := None;
     azuretasks.compute.Zones := None |}.

(** A root device for the samples. *)
Definition samples_device (size : Z) : awstasks.BlockDeviceMapping :=
  {| awstasks.EbsEncrypted := Some true;
     awstasks.EbsKmsKey := None;
     awstasks.EbsVolumeIops := None;
     awstasks.EbsVolumeThroughput := None;
     awstasks.EbsVolumeSize := Some size;
     awstasks.EbsVolumeType := "gp3";
     awstasks.VirtualName := None |}.

(** An environment of the Terraform rendering for the samples: the image
    resolves to [ami], the root device is /dev/xvda, the additional devices
    are /dev/sdc and /dev/sdb, there is no ephemeral device, and the target
    accepts every block. *)
Definition samples_aws (ami : string) : awstasks.LaunchTemplate.Env :=
  {| awstasks.LaunchTemplate.ResolveImage_resp := λ _ _,
       Ok {| awstasks.ec2types.ImageId := Some ami |};
     awstasks.LaunchTemplate.buildRootDevice_resp := λ _ _,
       Ok {[ "/dev/xvda" := samples_device 64 ]};
     awstasks.LaunchTemplate.buildEphemeralDevices_resp := λ _ _, Ok ∅;
     awstasks.LaunchTemplate.buildAdditionalDevices := λ _,
       Ok (<[ "/dev/sdc" := samples_device 20 ]> {[ "/dev/sdb" := samples_device 10 ]});
     awstasks.LaunchTemplate.AddFileBytes_resp := λ _ resourceType resourceName key _ _,
       Ok (Some {| terraformWriter.Value :=
                     "file(" +:+ resourceType +:+ "_" +:+ resourceName +:+ "_" +:+ key
                     +:+ ")" |});
     awstasks.LaunchTemplate.RenderResource_resp := λ _ _ _ _, None |}.

(** A launch template for the samples, with an image, two security groups,
    a key and an instance profile. *)
Definition samples_template : awstasks.LaunchTemplate.t :=
  {| awstasks.LaunchTemplate.ID := None;
     awstasks.LaunchTemplate.Name := Some "nodes";
     awstasks.LaunchTemplate.AssociatePublicIP := Some false;
     awstasks.LaunchTemplate.BlockDeviceMappings := None;
     awstasks.LaunchTemplate.CPUCredits := None;
     awstasks.LaunchTemplate.HTTPPutResponseHopLimit := Some 1%Z;
     awstasks.LaunchTemplate.HTTPTokens := Some "required";
     awstasks.LaunchTemplate.HTTPProtocolIPv6 := None;
     awstasks.LaunchTemplate.IAMInstanceProfile :=
       Some {| awstasks.IAMInstanceProfile_ID := Some "AIPA123";
               awstasks.IAMInstanceProfile_Name := Some "nodes-profile" |};
     awstasks.LaunchTemplate.ImageID := Some "ubuntu-22.04";
     awstasks.LaunchTemplate.InstanceInterruptionBehavior := None;
     awstasks.LaunchTemplate.InstanceMonitoring := None;
     awstasks.LaunchTemplate.InstanceType := Some "t3.medium";
     awstasks.LaunchTemplate.IPv6AddressCount := None;
     awstasks.LaunchTemplate.RootVolumeOptimization := None;
     awstasks.LaunchTemplate.SecurityGroups :=
       Some [ {| awstasks.SecurityGroup_ID := Some "sg-0a1";
                 awstasks.SecurityGroup_Name := Some "nodes-sg" |};
              {| awstasks.SecurityGroup_ID := None;
                 awstasks.SecurityGroup_Name := Some "extra-sg" |} ];
     awstasks.LaunchTemplate.SpotDurationInMinutes := None;
     awstasks.LaunchTemplate.SpotPrice := None;
     awstasks.LaunchTemplate.SSHKey :=
       Some {| awstasks.SSHKey_ID := Some "key-0b2"; awstasks.SSHKey_Name := Some "admin" |};
     awstasks.LaunchTemplate.Tags := None;
     awstasks.LaunchTemplate.Tenancy := None;
     awstasks.LaunchTemplate.UserData := None |}.

(** The key of a task of the OpenStack package for the order of a layer:
    its type, then its name. *)
Definition samples_key (task : string * string * list Byte.byte) : string * string :=
  (task.1.1, task.1.2).

(** Two tasks of one layer for the samples, each with its type, its name
    and the block the template backend emits for it. *)
Definition samples_layer : list (string * string * list Byte.byte) :=
  [ ("Subnet", "nodes", String.list_byte_of_string "resource subnet nodes");
    ("Network", "cluster", String.list_byte_of_string "resource network cluster") ].

(** An environment for the samples in which nothing fails. *)
Definition samples_dump_env : dump.Env :=
  {| dump.ctx_Err := λ _, None;
     dump.Dial_resp := λ _ _ _, None;
     dump.node_dump_resp := λ _ _, [];
     dump.node_Close_resp := λ _ _, None |}.

(** A node for the samples, with the label of its role and its internal
    address. *)
Definition samples_node (name role ip : string) : dump.Node :=
  {| dump.Name := name;
     dump.Labels := {[ role := "" ]};
     dump.Addresses := [ {| dump.Type_ := "InternalIP"; dump.Address := ip |} ] |}.

(** Two control plane nodes and one other node. *)
Definition samples_nodes : list dump.Node :=
  [ samples_node "worker-1" "node-role.kubernetes.io/node" "10.0.0.11";
    samples_node "master-1" "node-role.kubernetes.io/control-plane" "10.0.0.1";
    samples_node "master-2" "node-role.kubernetes.io/master" "10.0.0.2" ].

(** An OpenStack cloud for the samples in which appending a tag fails and
    the load balancer has no ACL on its address. *)
Definition samples_openstack_failing : openstacktasks.OpenstackCloud :=
  {| openstacktasks.ListSubnets_resp := λ _ _, Ok None;
     openstacktasks.GetNetwork_resp := λ _ _, Err (External "no network");
     openstacktasks.CreateSubnet_resp :=
       openstacktasks.CreateSubnet_resp (samples_openstack (Ok None) (Ok None));
     openstacktasks.AppendTag_resp := λ _ _ _ _, Some (External "tag quota");
     openstacktasks.subnets_Update_resp := λ _ _ _, None;
     openstacktasks.ListListeners_resp := λ _ _, Ok None;
     openstacktasks.GetPool_resp := λ _ _, Err (External "no pool");
     openstacktasks.UseLoadBalancerVIPACL_resp := λ _, Ok false;
     openstacktasks.CreateListener_resp :=
       openstacktasks.CreateListener_resp (samples_openstack (Ok None) (Ok None));
     openstacktasks.listeners_Update_resp := λ _ _ _, None;
     openstacktasks.NewNetworkTaskFromCloud_resp := λ _ _ _ _, Err (External "no network");
     openstacktasks.NewLBPoolTaskFromCloud_resp := λ _ _ _ _, Err (External "no pool") |}.

(** A changes object of a listener that flags the allowed CIDRs. *)
Definition samples_listener_cidr_change : openstacktasks.LBListener.t :=
  {| openstacktasks.LBListener.ID := None;
     openstacktasks.LBListener.Name := None;
     openstacktasks.LBListener.Port := None;
     openstacktasks.LBListener.Pool := None;
     openstacktasks.LBListener.Lifecycle := "";
     openstacktasks.LBListener.AllowedCIDRs := Some ["10.0.0.0/8"] |}.

(** A listed disk of the name of the sample task that has no properties. *)
Definition samples_disk_bare : azuretasks.compute.Disk :=
  {| azuretasks.compute.Location := None;
     azuretasks.compute.Name := Some "etcd-a";
     azuretasks.compute.Properties := None;
     azuretasks.compute.SKU := None;
     azuretasks.compute.Tags := None;
     azuretasks.compute.Zones := None |}.

(** ** Sessions of the dumper

    [sessions env h evs]: the events [evs], added to the history [h], are a
    sequence of connections, one after the other: a connection that the
    environment refuses is a single [Dial]; a connection that is made is
    followed by the dump of a node and the end of the connection to this
    node. *)
Inductive sessions (env : dump.Env) : list dump.call → list dump.call → Prop :=
  | sessions_nil h : sessions env h []
  | sessions_refused h host useBastion err evs :
      dump.Dial_resp env h host useBastion = Some err →
      sessions env (h ++ [dump.Dial host useBastion]) evs →
      sessions env h (dump.Dial host useBastion :: evs)
  | sessions_dumped h host useBastion name evs :
      dump.Dial_resp env h host useBastion = None →
      sessions env
        (h ++ [dump.Dial host useBastion; dump.node_dump name; dump.node_Close name]) evs →
      sessions env h
        (dump.Dial host useBastion :: dump.node_dump name :: dump.node_Close name :: evs).

(** [inSessions env m]: [m] returns, and the events it adds are sessions. *)
Definition inSessions (env : dump.Env) {A} (m : M dump.call A) : Prop :=
  ∀ h, ∃ v evs, m h = (Returns v, h ++ evs) ∧ sessions env h evs.

(** The first internal address of a list of addresses that is not empty. *)
Definition firstInternal (addresses : list dump.NodeAddress) : string :=
  default ""
    (head (filter (λ ip, ip ≠ "")
             (dump.Address <$> filter (λ a, dump.Type_ a = "InternalIP") addresses))).

(** The events of a dump of an instance that is not registered, in a
    healthy environment. *)
Definition ipEvents (useBastion : bool) (ip : string) : list dump.call :=
  if String.eqb ip "" then []
  else [dump.Dial ip useBastion; dump.node_dump ip; dump.node_Close ip].

(** An environment in which the context is cancelled once the first node
    has been dumped. *)
Definition samples_dump_env_cancelled : dump.Env :=
  {| dump.ctx_Err :=
       λ h, if 3 <=? length h then Some (External "context canceled") else None;
     dump.Dial_resp := λ _ _ _, None;
     dump.node_dump_resp := λ _ _, [];
     dump.node_Close_resp := λ _ _, None |}.

(** A node with an internal address before and after its external one. *)
Definition samples_node_external : dump.Node :=
  {| dump.Name := "worker-2";
     dump.Labels := ∅;
     dump.Addresses :=
       [ {| dump.Type_ := "Hostname"; dump.Address := "worker-2.internal" |};
         {| dump.Type_ := "InternalIP"; dump.Address := "10.0.0.12" |};
         {| dump.Type_ := "ExternalIP"; dump.Address := "203.0.113.12" |};
         {| dump.Type_ := "InternalIP"; dump.Address := "10.0.0.13" |} ] |}.

(** A listener as the cloud lists it, with the given allowed CIDRs. *)
Definition samples_listed_listener (cidrs : slice string) : openstacktasks.listeners.Listener :=
  {| openstacktasks.listeners.ID := "lis-1";
     openstacktasks.listeners.Name := "api";
     openstacktasks.listeners.ProtocolPort := 443;
     openstacktasks.listeners.AllowedCIDRs := cidrs;
     openstacktasks.listeners.Pools := None;
     openstacktasks.listeners.DefaultPoolID := "pool-1" |}.

(** [isLoadBalancerTask task]: the task is a load balancer or a pool of
    one. *)
Definition isLoadBalancerTask (task : openstacktasks.CloudupTask) : bool :=
  match task with
  | openstacktasks.TaskLB _ | openstacktasks.TaskLBPool _ => true
  | _ => false
  end.

(** Entries of a map of tasks, in one order of iteration. *)
Definition samples_tasks : list (string * openstacktasks.CloudupTask) :=
  [ ("Network/net", openstacktasks.TaskNetwork samples.net);
    ("LBPool/pool", openstacktasks.TaskLBPool samples.pool);
    ("Keypair/key", openstacktasks.TaskOther "Keypair" "key");
    ("LB/lb", openstacktasks.TaskLB samples.lb) ].

(** ** The resource block of the launch template

    [isRender c]: the call writes a resource block to the Terraform
    target. *)
Definition isRender (c : awstasks.LaunchTemplate.call) : bool :=
  if c is awstasks.LaunchTemplate.RenderResource _ _ _ then true else false.

(** [rendersLast env e m]: either [m] writes no resource block and does not
    succeed, or the block of the launch template [e] is its last event and
    its result is the answer of the target. *)
Definition rendersLast (env : awstasks.LaunchTemplate.Env) (e : awstasks.LaunchTemplate.t)
    (m : M awstasks.LaunchTemplate.call (option error)) : Prop :=
  ∀ h, ∃ pre,
    Forall (λ c, isRender c = false) pre
    ∧ ((snd (m h) = h ++ pre ∧ fst (m h) ≠ Returns None)
       ∨ ∃ tf,
           m h
           = (Returns (awstasks.LaunchTemplate.RenderResource_resp env (h ++ pre)
                         "aws_launch_template"
                         (fi.ValueOf (awstasks.LaunchTemplate.Name e)) tf),
              h ++ pre
                ++ [awstasks.LaunchTemplate.RenderResource "aws_launch_template"
                      (fi.ValueOf (awstasks.LaunchTemplate.Name e)) tf])).

(** The two tag specifications of a launch template with the tags [tags]. *)
Definition tagSpecifications (tags : option (gmap string string))
    : list awstasks.terraformLaunchTemplateTagSpecification :=
  if tags is Some _ then
    [ {| awstasks.ts_ResourceType := Some "instance"; awstasks.ts_Tags := tags |};
      {| awstasks.ts_ResourceType := Some "volume"; awstasks.ts_Tags := tags |} ]
  else [].

(** ** The words of a command line

    [sh_words input quoted word] reads a command line as the shell does
    (POSIX, Shell Command Language, section 2.2), for the command lines
    made of blanks, of characters that are never special to the shell, of
    single quotes and of backslashes: between single quotes every
    character stands for itself; outside them a backslash makes the next
    character stand for itself, and blanks separate the words.  [quoted]
    tells whether a single quote is open, [word] is the word being read.
    Any other input is refused: [None]. *)
Definition sh_plain (c : Z) : bool :=
  ((48 <=? c) && (c <=? 57) || (65 <=? c) && (c <=? 90) || (97 <=? c) && (c <=? 122)
   || (c =? 45) || (c =? 46) || (c =? 47) || (c =? 95))%Z.

Definition sh_blank (c : Z) : bool := ((c =? 32) || (c =? 9))%Z.

Fixpoint sh_words (input : list Z) (quoted : bool) (word : option (list Z))
    : option (list (list Z)) :=
  match input with
  | [] => if quoted then None else Some (if word is Some w then [w] else [])
  | c :: rest =>
      if quoted then
        if (c =? 39)%Z then sh_words rest false word
        else sh_words rest true (Some (default [] word ++ [c]))
      else if (c =? 39)%Z then sh_words rest true (Some (default [] word))
      else if (c =? 92)%Z then
        match rest with
        | [] => None
        | c' :: rest' =>
            if (c' =? 10)%Z then None
            else sh_words rest' false (Some (default [] word ++ [c']))
        end
      else if sh_blank c then
        match word with
        | Some w => (w ::.) <$> sh_words rest false None
        | None => sh_words rest false None
        end
      else if sh_plain c then sh_words rest false (Some (default [] word ++ [c]))
      else None
  end.

(** What find prints for the paths with the action print0: each path,
    followed by a zero byte. *)
Definition print0 (paths : list string) : string :=
  foldr (λ path out, path +:+ String Ascii.zero out) EmptyString paths.

(** A path that the output of find can carry: it is not empty and has no
    zero byte. *)
Definition isPath (path : string) : Prop :=
  path ≠ EmptyString ∧ Ascii.zero ∉ String.list_ascii_of_string path.

(** A client for the samples that answers a listing with two paths. *)
Definition samples_client : dump.sshClient :=
  {| dump.ExecPiped_resp := λ _ _,
       (print0 ["/var/log/kubelet.log"; "/var/log/it's.log"], None) |}.

(** The disk that the cloud lists once [RenderAzure] has written the disk
    of the task [e]: the disk as written, under the name it was written
    with. *)
Definition Disk_stored (cloud : azuretasks.AzureCloud) (e : azuretasks.Disk.t)
    : azuretasks.compute.Disk :=
  let disk := azuretasks.Disk.diskOf cloud e in
  {| azuretasks.compute.Location := azuretasks.compute.Location disk;
     azuretasks.compute.Name := azuretasks.Disk.Name e;
     azuretasks.compute.Properties := azuretasks.compute.Properties disk;
     azuretasks.compute.SKU := azuretasks.compute.SKU disk;
     azuretasks.compute.Tags := azuretasks.compute.Tags disk;
     azuretasks.compute.Zones := azuretasks.compute.Zones disk |}.

(** ** Defaults of the cluster autoscaler

    [fills before after]: the field is set after the call, and keeps the
    value it had when it was set before. *)
Definition fills {A} (before after : option A) : Prop :=
  is_Some after ∧ (is_Some before → after = before).

(** The same for a string field, which is unset when it is empty. *)
Definition fillsString (before after : string) : Prop :=
  after ≠ "" ∧ (before ≠ "" → after = before).

(** A parser of versions for the samples, which knows one version. *)
Definition samples_ParseKubernetesVersion (version : string)
    : result components.KubernetesVersion_ :=
  if String.eqb version "1.29.3" then Ok {| components.Minor := 29 |}
  else Err (External "invalid version").

(** An autoscaler that is enabled, with the priority expander and the
    request not to create its configuration. *)
Definition samples_autoscaler : components.ClusterAutoscalerConfig :=
  {| components.Enabled := Some true;
     components.Expander := "priority";
     components.BalanceSimilarNodeGroups := Some true;
     components.EmitPerNodegroupMetrics := None;
     components.AWSUseStaticInstanceList := None;
     components.IgnoreDaemonSetsUtilization := None;
     components.ScaleDownUtilizationThreshold := Some "0.7";
     components.SkipNodesWithCustomControllerPods := None;
     components.SkipNodesWithSystemPods := None;
     components.SkipNodesWithLocalStorage := None;
     components.NewPodScaleUpDelay := None;
     components.ScaleDownDelayAfterAdd := None;
     components.ScaleDownUnneededTime := None;
     components.ScaleDownUnreadyTime := None;
     components.MaxNodeProvisionTime := "";
     components.CreatePriorityExpenderConfig := Some false;
     components.Image := None |}.

Definition samples_clusterSpec (version : string) : components.ClusterSpec :=
  {| components.ClusterAutoscaler := Some samples_autoscaler;
     components.KubernetesVersion := version |}.

(** ** The CNI asset

    An environment for the samples, with the two variables as given, a
    version of Kubernetes between 1.29 and 1.30, and an asset builder that
    hands back the location it is given.  Locations, hashes and assets are
    strings here, and the two parsers accept every string. *)
Definition samples_cni_env (url hash : string)
    : wellknownassets.Env string string string :=
  {| wellknownassets.Getenv := λ name,
       if String.eqb name wellknownassets.ENV_VAR_CNI_ASSET_URL then url
       else if String.eqb name wellknownassets.ENV_VAR_CNI_ASSET_HASH then hash
       else "";
     wellknownassets.KubernetesVersion_IsGTE := λ version,
       String.eqb version "1.27" || String.eqb version "1.29";
     wellknownassets.RemapFile_resp := λ _ u _, Ok u |}.

(** The environment [env] of the process without its variables. *)
Definition withoutVariables {URL Hash FileAsset}
    (env : wellknownassets.Env URL Hash FileAsset) : wellknownassets.Env URL Hash FileAsset :=
  {| wellknownassets.Getenv := λ _, "";
     wellknownassets.KubernetesVersion_IsGTE := wellknownassets.KubernetesVersion_IsGTE env;
     wellknownassets.RemapFile_resp := wellknownassets.RemapFile_resp env |}.

(** The environment [env] for another version of Kubernetes. *)
Definition withVersion {URL Hash FileAsset}
    (env : wellknownassets.Env URL Hash FileAsset) (isGTE : string → bool)
    : wellknownassets.Env URL Hash FileAsset :=
  {| wellknownassets.Getenv := wellknownassets.Getenv env;
     wellknownassets.KubernetesVersion_IsGTE := isGTE;
     wellknownassets.RemapFile_resp := wellknownassets.RemapFile_resp env |}.

(** ** The options of the scheduler

    An environment for the samples: [Image] fails, and the control plane
    runs a version lower than 1.31 and not lower than 1.27. *)
Definition samples_scheduler_env : kubescheduler.Env :=
  {| kubescheduler.Image_resp := λ _ _ _, Err (External "no asset");
     kubescheduler.ControlPlaneKubernetesVersion_IsLT := λ version,
       String.eqb version "1.31" |}.

(** A scheduler on AWS with an image and one feature gate switched off. *)
Definition samples_scheduler_spec : kubescheduler.ClusterSpec :=
  {| kubescheduler.KubeScheduler :=
       Some {| kubescheduler.LogLevel := 0;
               kubescheduler.Image := "registry.k8s.io/kube-scheduler:v1.30.2";
               kubescheduler.LeaderElection := None;
               kubescheduler.FeatureGates :=
                 Some {[ "InTreePluginAWSUnregister" := "false" ]} |};
     kubescheduler.CloudProvider_AWS := true |}.

(** ** Empty changes objects

    Modelled from the spec: by section 3 a field of the changes object is
    present only if actual and expected differ on it; the changes object is
    empty when no field is present, that is when every pointer, slice and
    map of it is nil and its lifecycle is the zero value. *)
Definition Disk_changesEmpty (changes : azuretasks.Disk.t) : bool :=
  (if azuretasks.Disk.Name changes is None then true else false)
  && String.eqb (azuretasks.Disk.Lifecycle changes) ""
  && (if azuretasks.Disk.ResourceGroup changes is None then true else false)
  && (if azuretasks.Disk.SizeGB changes is None then true else false)
  && (if azuretasks.Disk.Tags changes is None then true else false)
  && (if azuretasks.Disk.VolumeType changes is None then true else false)
  && (if azuretasks.Disk.Zones changes is None then true else false).

(** Modelled from the spec: see [Disk_changesEmpty]. *)
Definition LBListener_changesEmpty (changes : openstacktasks.LBListener.t) : bool :=
  (if openstacktasks.LBListener.ID changes is None then true else false)
  && (if openstacktasks.LBListener.Name changes is None then true else false)
  && (if openstacktasks.LBListener.Port changes is None then true else false)
  && (if openstacktasks.LBListener.Pool changes is None then true else false)
  && String.eqb (openstacktasks.LBListener.Lifecycle changes) ""
  && (if openstacktasks.LBListener.AllowedCIDRs changes is None then true else false).

(** ** Strings and their runes

    [reencoded s] is the string that the runes of [s] encode, which Go
    writes string([]rune(s)): the string [s] in which each byte that
    begins no valid encoding is replaced by the encoding of
    [utf8.RuneError]. *)
Definition reencoded (s : list Z) : list Z :=
  dump.rangeString (length s) s ≫= dump.utf8_EncodeRune.

(** [utf8.ValidString], in at most [fuel] steps: no step of the decoding
    of the string meets bytes that are no valid encoding. *)
Fixpoint validFrom (fuel : nat) (s : list Z) : bool :=
  match fuel, s with
  | S fuel, _ :: _ =>
      let '(r, size) := dump.utf8_DecodeRune s in
      negb ((r =? dump.utf8_RuneError)%Z && (size =? 1))
      && validFrom fuel (drop size s)
  | _, _ => true
  end.

Definition utf8_ValidString (s : list Z) : bool := validFrom (length s) s.

(** * Properties *)

(** ** Validation *)

Lemma Subnet_CheckChanges_existing a e changes :
  openstacktasks.Subnet.CheckChanges (Some a) e changes
  = fi.CannotChangeField <$> head (Subnet_flaggedImmutable changes).
Proof.
  unfold openstacktasks.Subnet.CheckChanges, Subnet_flaggedImmutable, flag.
  destruct (openstacktasks.Subnet.Name changes),
    (openstacktasks.Subnet.Network changes),
    (openstacktasks.Subnet.CIDR changes); reflexivity.
Qed.

Lemma LBListener_CheckChanges_existing a e changes :
  openstacktasks.LBListener.CheckChanges (Some a) e changes
  = fi.CannotChangeField <$> head (LBListener_flaggedImmutable changes).
Proof.
  unfold openstacktasks.LBListener.CheckChanges, LBListener_flaggedImmutable, flag.
  destruct (openstacktasks.LBListener.ID changes),
    (openstacktasks.LBListener.Name changes); reflexivity.
Qed.

Lemma Subnet_CheckChanges_create e changes :
  openstacktasks.Subnet.CheckChanges None e changes
  = fi.RequiredField <$> head (Subnet_missingRequired e).
Proof.
  unfold openstacktasks.Subnet.CheckChanges, Subnet_missingRequired, missing.
  destruct (openstacktasks.Subnet.Name e), (openstacktasks.Subnet.Network e),
    (openstacktasks.Subnet.CIDR e); reflexivity.
Qed.

Lemma Disk_CheckChanges_create e changes :
  azuretasks.Disk.CheckChanges None e changes
  = fi.RequiredField <$> head (Disk_missingRequired e).
Proof.
  unfold azuretasks.Disk.CheckChanges, Disk_missingRequired, missing.
  destruct (azuretasks.Disk.Name e); reflexivity.
Qed.

Lemma validateThenRender_rejects {Ev T R}
    (check : option T → T → T → option error)
    (render : option T → T → T → M Ev R) a e changes err h :
  check a e changes = Some err →
  engine.validateThenRender check render a e changes h = (Returns (inl err), h).
Proof. intros H. unfold engine.validateThenRender. rewrite H. reflexivity. Qed.

Lemma head_nonempty {A} (l : list A) : l ≠ [] → ∃ x, head l = Some x ∧ x ∈ l.
Proof. destruct l as [|x l]; [done|]. intros _. exists x. split; [done|]. left. Qed.

(** Claim C2.  When the resource exists and the changes object flags one of
    the fields that cannot change (Name, Network or CIDR of a Subnet; ID or
    Name of an LBListener), [CheckChanges] returns the cannot-change error
    that names a flagged field, the first one in the order of the checks,
    and the run of the task ends with that error without invoking the apply
    routine, whatever that routine is: the history of calls is untouched. *)
Theorem C2_immutable_field_rejected
    (sa se sc : openstacktasks.Subnet.t) (la le lc : openstacktasks.LBListener.t) :
  (Subnet_flaggedImmutable sc ≠ [] →
   ∃ field,
     head (Subnet_flaggedImmutable sc) = Some field ∧
     field ∈ Subnet_flaggedImmutable sc ∧
     openstacktasks.Subnet.CheckChanges (Some sa) se sc
       = Some (fi.CannotChangeField field) ∧
     ∀ Ev R (render : option openstacktasks.Subnet.t → openstacktasks.Subnet.t →
                      openstacktasks.Subnet.t → M Ev R) h,
       engine.validateThenRender openstacktasks.Subnet.CheckChanges render
         (Some sa) se sc h
       = (Returns (inl (fi.CannotChangeField field)), h))
  ∧
  (LBListener_flaggedImmutable lc ≠ [] →
   ∃ field,
     head (LBListener_flaggedImmutable lc) = Some field ∧
     field ∈ LBListener_flaggedImmutable lc ∧
     openstacktasks.LBListener.CheckChanges (Some la) le lc
       = Some (fi.CannotChangeField field) ∧
     ∀ Ev R (render : option openstacktasks.LBListener.t → openstacktasks.LBListener.t →
                      openstacktasks.LBListener.t → M Ev R) h,
       engine.validateThenRender openstacktasks.LBListener.CheckChanges render
         (Some la) le lc h
       = (Returns (inl (fi.CannotChangeField field)), h)).
Proof.
  split; intros Hflag; apply head_nonempty in Hflag as (field & Hhead & Hin);
    exists field; split_and!; try done.
  - rewrite Subnet_CheckChanges_existing, Hhead. reflexivity.
  - intros. apply validateThenRender_rejects.
    rewrite Subnet_CheckChanges_existing, Hhead. reflexivity.
  - rewrite LBListener_CheckChanges_existing, Hhead. reflexivity.
  - intros. apply validateThenRender_rejects.
    rewrite LBListener_CheckChanges_existing, Hhead. reflexivity.
Qed.

(** Claim C3.  When the resource does not exist and a field required at
    creation is unset (Name, Network or CIDR of a Subnet; Name of a Disk),
    [CheckChanges] returns the required-field error that names an unset
    field, the first one in the order of the checks, and the run of the task
    ends with that error without invoking the apply routine, whatever that
    routine is: the history of calls is untouched. *)
Theorem C3_required_field_missing
    (se sc : openstacktasks.Subnet.t) (de dc : azuretasks.Disk.t) :
  (Subnet_missingRequired se ≠ [] →
   ∃ field,
     head (Subnet_missingRequired se) = Some field ∧
     field ∈ Subnet_missingRequired se ∧
     openstacktasks.Subnet.CheckChanges None se sc = Some (fi.RequiredField field) ∧
     ∀ Ev R (render : option openstacktasks.Subnet.t → openstacktasks.Subnet.t →
                      openstacktasks.Subnet.t → M Ev R) h,
       engine.validateThenRender openstacktasks.Subnet.CheckChanges render None se sc h
       = (Returns (inl (fi.RequiredField field)), h))
  ∧
  (Disk_missingRequired de ≠ [] →
   ∃ field,
     head (Disk_missingRequired de) = Some field ∧
     field ∈ Disk_missingRequired de ∧
     azuretasks.Disk.CheckChanges None de dc = Some (fi.RequiredField field) ∧
     ∀ Ev R (render : option azuretasks.Disk.t → azuretasks.Disk.t →
                      azuretasks.Disk.t → M Ev R) h,
       engine.validateThenRender azuretasks.Disk.CheckChanges render None de dc h
       = (Returns (inl (fi.RequiredField field)), h)).
Proof.
  split; intros Hmiss; apply head_nonempty in Hmiss as (field & Hhead & Hin);
    exists field; split_and!; try done.
  - rewrite Subnet_CheckChanges_create, Hhead. reflexivity.
  - intros. apply validateThenRender_rejects.
    rewrite Subnet_CheckChanges_create, Hhead. reflexivity.
  - rewrite Disk_CheckChanges_create, Hhead. reflexivity.
  - intros. apply validateThenRender_rejects.
    rewrite Disk_CheckChanges_create, Hhead. reflexivity.
Qed.

Lemma C2_immutable_field_rejected_witness :
  Subnet_flaggedImmutable samples.subnet_cidr_change ≠ [] ∧
  LBListener_flaggedImmutable samples.listener_name_change ≠ [] ∧
  openstacktasks.Subnet.CheckChanges (Some samples.subnet_actual) samples.subnet
    samples.subnet_cidr_change = Some (fi.CannotChangeField "CIDR") ∧
  openstacktasks.LBListener.CheckChanges (Some samples.listener_actual) samples.listener
    samples.listener_name_change = Some (fi.CannotChangeField "Name").
Proof.
  assert (HS : Subnet_flaggedImmutable samples.subnet_cidr_change ≠ []) by discriminate.
  assert (HL : LBListener_flaggedImmutable samples.listener_name_change ≠ [])
    by discriminate.
  destruct (C2_immutable_field_rejected samples.subnet_actual samples.subnet
              samples.subnet_cidr_change samples.listener_actual samples.listener
              samples.listener_name_change) as [CS CL].
  destruct (CS HS) as (fs & Hs & _ & Es & _).
  destruct (CL HL) as (fl & Hl & _ & El & _).
  split_and!; [exact HS | exact HL | |].
  - rewrite Es. f_equal. f_equal. simpl in Hs. congruence.
  - rewrite El. f_equal. f_equal. simpl in Hl. congruence.
Defined.

Lemma C3_required_field_missing_witness :
  Subnet_missingRequired samples.subnet_no_network ≠ [] ∧
  Disk_missingRequired samples.disk_no_name ≠ [] ∧
  openstacktasks.Subnet.CheckChanges None samples.subnet_no_network
    samples.subnet_no_network = Some (fi.RequiredField "Network") ∧
  azuretasks.Disk.CheckChanges None samples.disk_no_name samples.disk_no_name
    = Some (fi.RequiredField "Name").
Proof.
  assert (HS : Subnet_missingRequired samples.subnet_no_network ≠ []) by discriminate.
  assert (HD : Disk_missingRequired samples.disk_no_name ≠ []) by discriminate.
  destruct (C3_required_field_missing samples.subnet_no_network
              samples.subnet_no_network samples.disk_no_name samples.disk_no_name)
    as [CS CD].
  destruct (CS HS) as (fs & Hs & _ & Es & _).
  destruct (CD HD) as (fd & Hd & _ & Ed & _).
  split_and!; [exact HS | exact HD | |].
  - rewrite Es. f_equal. f_equal. simpl in Hs. congruence.
  - rewrite Ed. f_equal. f_equal. simpl in Hd. congruence.
Defined.

(** ** Discovery *)

(** Unfolds the operations of the monad. *)
Ltac run_m :=
  unfold mbind, mret, M_bind, M_ret, emit, ask, deref, panic; cbn.

Lemma Subnet_Find_listing cloud s network h :
  openstacktasks.Subnet.Network s = Some network →
  openstacktasks.Subnet.Find cloud s h
  = let opt := openstacktasks.Subnet.listOpts s network in
    let h1 := h ++ [openstacktasks.ListSubnets opt] in
    match openstacktasks.ListSubnets_resp cloud h opt with
    | Err err => (Returns (Err err, s), h1)
    | Ok None => (Returns (Ok None, s), h1)
    | Ok (Some [r]) =>
        match openstacktasks.Subnet.NewSubnetTaskFromCloud cloud
                (openstacktasks.Subnet.Lifecycle s) r (Some s) h1 with
        | (Returns (res, find), h2) =>
            (Returns (match res with
                      | Ok actual => Ok (Some actual)
                      | Err err => Err err
                      end, default s find), h2)
        | (Panics, h2) => (Panics, h2)
        end
    | Ok (Some _) =>
        (Returns (Err (Errorf "found multiple subnets with name: %s"
                         [FmtString (fi.ValueOf (openstacktasks.Subnet.Name s))]), s), h1)
    end.
Proof.
  intros Hnet. unfold openstacktasks.Subnet.Find. rewrite Hnet. run_m.
  destruct (openstacktasks.ListSubnets_resp cloud h _) as [[[|r [|r' rs]]|]|err];
    try reflexivity.
  cbn. destruct (openstacktasks.Subnet.NewSubnetTaskFromCloud _ _ _ _ _) as [[[res find]|] h2];
    reflexivity.
Qed.

(** Claim C9.  [Subnet.Find] returns (nil, nil) only when the listing of
    subnets is the nil slice; for a listing that is not nil and whose length
    is not 1, the empty listing included, it returns the error "found
    multiple subnets" and not nil. *)
Theorem C9_Subnet_Find_nil_listing_only cloud s network h :
  openstacktasks.Subnet.Network s = Some network →
  let opt := openstacktasks.Subnet.listOpts s network in
  (∀ s' h', openstacktasks.Subnet.Find cloud s h = (Returns (Ok None, s'), h') →
            openstacktasks.ListSubnets_resp cloud h opt = Ok None)
  ∧ (openstacktasks.ListSubnets_resp cloud h opt = Ok None →
     openstacktasks.Subnet.Find cloud s h
     = (Returns (Ok None, s), h ++ [openstacktasks.ListSubnets opt]))
  ∧ (∀ rs, openstacktasks.ListSubnets_resp cloud h opt = Ok (Some rs) →
           length rs ≠ 1 →
           openstacktasks.Subnet.Find cloud s h
           = (Returns (Err (Errorf "found multiple subnets with name: %s"
                              [FmtString (fi.ValueOf (openstacktasks.Subnet.Name s))]), s),
              h ++ [openstacktasks.ListSubnets opt]))
  ∧ (openstacktasks.ListSubnets_resp cloud h opt = Ok (Some []) →
     openstacktasks.Subnet.Find cloud s h
     = (Returns (Err (Errorf "found multiple subnets with name: %s"
                        [FmtString (fi.ValueOf (openstacktasks.Subnet.Name s))]), s),
        h ++ [openstacktasks.ListSubnets opt])).
Proof.
  intros Hnet opt. pose proof (Subnet_Find_listing cloud s network h Hnet) as HF.
  cbn zeta in HF. fold opt in HF. split_and!.
  - intros s' h' Hfind. rewrite Hfind in HF.
    destruct (openstacktasks.ListSubnets_resp cloud h opt) as [[[|r [|r' rs]]|]|err];
      try done.
    destruct (openstacktasks.Subnet.NewSubnetTaskFromCloud _ _ _ _ _)
      as [[[[actual|err] find]|] h2]; done.
  - intros Hresp. rewrite HF, Hresp. reflexivity.
  - intros rs Hresp Hlen. rewrite HF, Hresp.
    destruct rs as [|r [|r' rs]]; done.
  - intros Hresp. rewrite HF, Hresp. reflexivity.
Qed.

Lemma C9_Subnet_Find_nil_listing_only_witness :
  openstacktasks.Subnet.Find (samples_openstack (Ok (Some [])) (Ok None)) samples.subnet []
  = (Returns (Err (Errorf "found multiple subnets with name: %s" [FmtString "nodes"]),
              samples.subnet),
     [openstacktasks.ListSubnets
        (openstacktasks.Subnet.listOpts samples.subnet samples.net)]).
Proof.
  apply (C9_Subnet_Find_nil_listing_only (samples_openstack (Ok (Some [])) (Ok None))
           samples.subnet samples.net [] eq_refl).
  reflexivity.
Defined.

(** ** Apply routines of the direct backend *)

Lemma trace_app {Ev A} (m : M Ev A) h r evs :
  m h = (r, h ++ evs) → trace m h = evs.
Proof. intros H. unfold trace. rewrite H. cbn. apply drop_app_length. Qed.

Lemma Disk_RenderAzure_call cloud a e changes h name rg rgName :
  azuretasks.Disk.Name e = Some name →
  azuretasks.Disk.ResourceGroup e = Some rg →
  azuretasks.ResourceGroup_Name rg = Some rgName →
  azuretasks.Disk.RenderAzure cloud a e changes h
  = (Returns (azuretasks.Disk_CreateOrUpdate_resp cloud h rgName name
                (azuretasks.Disk.diskOf cloud e)),
     h ++ [azuretasks.Disk_CreateOrUpdate rgName name (azuretasks.Disk.diskOf cloud e)]).
Proof.
  intros Hname Hrg HrgName. unfold azuretasks.Disk.RenderAzure.
  rewrite Hname. run_m. rewrite Hrg. cbn. rewrite HrgName. reflexivity.
Qed.

Lemma LBListener_RenderOpenstack_existing_unchanged cloud a e changes h :
  len (openstacktasks.LBListener.AllowedCIDRs changes) = 0 →
  openstacktasks.LBListener.RenderOpenstack cloud (Some a) e changes h
  = (Returns (match openstacktasks.UseLoadBalancerVIPACL_resp cloud h with
              | Ok _ => None
              | Err err => Some err
              end, e),
     h ++ [openstacktasks.UseLoadBalancerVIPACL]).
Proof.
  intros Hlen. unfold openstacktasks.LBListener.RenderOpenstack. run_m.
  destruct (openstacktasks.UseLoadBalancerVIPACL_resp cloud h); [|reflexivity].
  cbn. rewrite Hlen. reflexivity.
Qed.

(** Claim C1.  For every task, when the changes object is empty the run of
    the task does not invoke the apply routine and adds no call to the
    history, whatever the actual task is.  For an existing Azure Disk and
    for an existing OpenStack LBListener, an empty changes object passes the
    validation of the task, so the run ends with no call and no error.  The
    apply routine of the LBListener, handed an existing listener and an
    empty changes object, would itself issue no mutation: its only call is
    the query [UseLoadBalancerVIPACL], and it hands back the expected task
    as it was. *)
Theorem C1_apply_with_empty_changes :
  (∀ Ev T R (isEmpty : T → bool) CheckChanges (Render : option T → T → T → M Ev R)
     a e changes h,
     isEmpty changes = true →
     trace (engine.applyChanges isEmpty CheckChanges Render a e changes) h = []
     ∧ ∀ r, fst (engine.applyChanges isEmpty CheckChanges Render a e changes h)
            ≠ Returns (inr (Some r)))
  ∧ (∀ cloud a e changes h,
       Disk_changesEmpty changes = true →
       engine.applyChanges Disk_changesEmpty azuretasks.Disk.CheckChanges
         (azuretasks.Disk.RenderAzure cloud) (Some a) e changes h
       = (Returns (inr None), h))
  ∧ (∀ cloud a e changes h,
       LBListener_changesEmpty changes = true →
       engine.applyChanges LBListener_changesEmpty openstacktasks.LBListener.CheckChanges
         (openstacktasks.LBListener.RenderOpenstack cloud) (Some a) e changes h
       = (Returns (inr None), h)
       ∧ trace (openstacktasks.LBListener.RenderOpenstack cloud (Some a) e changes) h
         = [openstacktasks.UseLoadBalancerVIPACL]
       ∧ Forall (λ c, openstacktasks.is_mutation c = false)
           (trace (openstacktasks.LBListener.RenderOpenstack cloud (Some a) e changes) h)
       ∧ ∃ err, fst (openstacktasks.LBListener.RenderOpenstack cloud (Some a) e changes h)
                = Returns (err, e)).
Proof.
  split_and!.
  - intros Ev T R isEmpty CheckChanges Render a e changes h Hempty.
    unfold engine.applyChanges, trace. rewrite Hempty.
    destruct (CheckChanges a e changes); cbn; rewrite drop_ge by done; done.
  - intros cloud a e changes h Hempty. unfold engine.applyChanges. rewrite Hempty.
    unfold Disk_changesEmpty in Hempty. cbn.
    destruct (azuretasks.Disk.Name changes); [done|reflexivity].
  - intros cloud a e changes h Hempty.
    assert (Hfields : openstacktasks.LBListener.ID changes = None
                      ∧ openstacktasks.LBListener.Name changes = None
                      ∧ openstacktasks.LBListener.AllowedCIDRs changes = None).
    { unfold LBListener_changesEmpty in Hempty.
      destruct (openstacktasks.LBListener.ID changes),
        (openstacktasks.LBListener.Name changes),
        (openstacktasks.LBListener.AllowedCIDRs changes); try done.
      all: by rewrite ?andb_false_r in Hempty. }
    destruct Hfields as (HID & HName & HCIDRs).
    assert (Hlen : len (openstacktasks.LBListener.AllowedCIDRs changes) = 0)
      by (by rewrite HCIDRs).
    pose proof (LBListener_RenderOpenstack_existing_unchanged cloud a e changes h Hlen)
      as Hrun.
    rewrite (trace_app _ _ _ _ Hrun). split_and!.
    + unfold engine.applyChanges. rewrite Hempty. cbn. by rewrite HID, HName.
    + reflexivity.
    + repeat constructor.
    + rewrite Hrun. eauto.
Qed.

Lemma C1_apply_with_empty_changes_witness :
  engine.applyChanges Disk_changesEmpty azuretasks.Disk.CheckChanges
    (azuretasks.Disk.RenderAzure (samples_azure (Ok []))) (Some samples.disk)
    samples.disk samples.disk_nochange []
  = (Returns (inr None), [])
  ∧ engine.applyChanges LBListener_changesEmpty openstacktasks.LBListener.CheckChanges
      (openstacktasks.LBListener.RenderOpenstack (samples_openstack (Ok None) (Ok None)))
      (Some samples.listener_actual) samples.listener samples.listener_nochange []
    = (Returns (inr None), [])
  ∧ trace (openstacktasks.LBListener.RenderOpenstack (samples_openstack (Ok None) (Ok None))
             (Some samples.listener_actual) samples.listener samples.listener_nochange) []
    = [openstacktasks.UseLoadBalancerVIPACL].
Proof.
  destruct C1_apply_with_empty_changes as (_ & HD & HL). split_and!.
  - apply (HD (samples_azure (Ok [])) samples.disk samples.disk samples.disk_nochange []
             eq_refl).
  - apply (HL (samples_openstack (Ok None) (Ok None)) samples.listener_actual
             samples.listener samples.listener_nochange [] eq_refl).
  - apply (HL (samples_openstack (Ok None) (Ok None)) samples.listener_actual
             samples.listener samples.listener_nochange [] eq_refl).
Defined.

Ltac run_m_in H :=
  unfold mbind, mret, M_bind, M_ret, emit, ask, deref, panic in H; cbn in H.

Lemma Subnet_set_ID_same e :
  openstacktasks.Subnet.set_ID (openstacktasks.Subnet.ID e) e = e.
Proof. destruct e; reflexivity. Qed.

Lemma LBListener_set_ID_same e :
  openstacktasks.LBListener.set_ID (openstacktasks.LBListener.ID e) e = e.
Proof. destruct e; reflexivity. Qed.

Lemma Subnet_RenderOpenstack_writes cloud a e changes h err e' h' :
  openstacktasks.Subnet.RenderOpenstack cloud a e changes h = (Returns (err, e'), h') →
  e' = openstacktasks.Subnet.set_ID (openstacktasks.Subnet.ID e') e
  ∧ (err ≠ None → e' = e)
  ∧ (err = None →
     match a with
     | None =>
         ∃ network v,
           openstacktasks.Subnet.Network e = Some network ∧
           openstacktasks.CreateSubnet_resp cloud h
             (openstacktasks.Subnet.createOpts e network) = Ok v ∧
           openstacktasks.Subnet.ID e' = Some (openstacktasks.subnets.ID v)
     | Some a0 => openstacktasks.Subnet.ID e' = openstacktasks.Subnet.ID a0
     end).
Proof.
  intros H. unfold openstacktasks.Subnet.RenderOpenstack in H.
  destruct a as [a0|].
  - run_m_in H.
    repeat (case_match; simplify_eq/=);
      (split_and!; [by rewrite ?Subnet_set_ID_same | done | done]).
  - destruct (openstacktasks.Subnet.Network e) as [network|] eqn:Hnet;
      run_m_in H; [|done].
    repeat (case_match; simplify_eq/=);
      (split_and!; [by rewrite ?Subnet_set_ID_same | done | try done]).
    intros _. eauto.
Qed.

Lemma LBListener_RenderOpenstack_writes cloud a e changes h err e' h' :
  openstacktasks.LBListener.RenderOpenstack cloud a e changes h = (Returns (err, e'), h') →
  e' = openstacktasks.LBListener.set_ID (openstacktasks.LBListener.ID e') e
  ∧ (err ≠ None → e' = e)
  ∧ (err = None →
     match a with
     | None =>
         ∃ pool lb useVIPACL listener,
           openstacktasks.LBListener.Pool e = Some pool ∧
           openstacktasks.LBPool_Loadbalancer pool = Some lb ∧
           openstacktasks.UseLoadBalancerVIPACL_resp cloud h = Ok useVIPACL ∧
           openstacktasks.CreateListener_resp cloud
             (h ++ [openstacktasks.UseLoadBalancerVIPACL])
             (openstacktasks.LBListener.createOpts e pool lb useVIPACL) = Ok listener ∧
           openstacktasks.LBListener.ID e' = Some (openstacktasks.listeners.ID listener)
     | Some _ => e' = e
     end).
Proof.
  intros H. unfold openstacktasks.LBListener.RenderOpenstack in H. run_m_in H.
  destruct (openstacktasks.UseLoadBalancerVIPACL_resp cloud h) as [useVIPACL|err0] eqn:Hacl;
    cbn in H.
  - destruct a as [a0|].
    + repeat (case_match; simplify_eq/=);
        (split_and!; [by rewrite ?LBListener_set_ID_same | done | done]).
    + destruct (openstacktasks.LBListener.Pool e) as [pool|] eqn:Hpool; cbn in H; [|done].
      destruct (openstacktasks.LBPool_Loadbalancer pool) as [lb|] eqn:Hlb; cbn in H;
        [|done].
      repeat (case_match; simplify_eq/=);
        (split_and!; [by rewrite ?LBListener_set_ID_same | done | try done]).
      intros _. eauto 10.
  - simplify_eq. split_and!; [by rewrite LBListener_set_ID_same | done | done].
Qed.

Lemma LBListener_Find_sets_ID cloud s h actual s' h' :
  openstacktasks.LBListener.Find cloud s h = (Returns (Ok (Some actual), s'), h') →
  openstacktasks.LBListener.ID s' = openstacktasks.LBListener.ID actual.
Proof.
  intros H. unfold openstacktasks.LBListener.Find in H.
  destruct (openstacktasks.LBListener.Name s) as [name|]; [|done].
  run_m_in H.
  destruct (openstacktasks.ListListeners_resp cloud h _) as [[[|l [|l' ls]]|]|err];
    try done.
  cbn in H. unfold openstacktasks.LBListener.NewLBListenerTaskFromCloud in H.
  run_m_in H.
  repeat (case_match; simplify_eq/=); reflexivity.
Qed.

Lemma Subnet_Find_sets_ID cloud s h actual s' h' :
  openstacktasks.Subnet.Find cloud s h = (Returns (Ok (Some actual), s'), h') →
  openstacktasks.Subnet.ID s' = openstacktasks.Subnet.ID actual
  ∧ s' = openstacktasks.Subnet.set_ID (openstacktasks.Subnet.ID s') s.
Proof.
  intros H. unfold openstacktasks.Subnet.Find in H.
  destruct (openstacktasks.Subnet.Network s) as [network|]; [|done].
  run_m_in H.
  destruct (openstacktasks.ListSubnets_resp cloud h _) as [[[|r [|r' rs]]|]|err];
    try done.
  cbn in H. unfold openstacktasks.Subnet.NewSubnetTaskFromCloud in H.
  run_m_in H.
  repeat (case_match; simplify_eq/=); done.
Qed.

(** Claim C5.  Whenever an apply routine of Subnet or LBListener returns,
    the expected task it hands back differs from the one it was given in
    the field ID at most; when it returns an error the task is as it was.
    When a creation succeeds, the ID is the identifier of the resource the
    cloud answered the create call with.  For an existing resource, the
    expected task carries the ID of the actual task after the apply: the
    apply routine of the Subnet sets it, and for the LBListener, whose apply
    routine leaves the task as it is, the discovery has set it in the task
    it was called on, which is the expected task handed to the apply
    routine together with the actual task that the discovery returned. *)
Theorem C5_identifier_write_back :
  (∀ cloud a e changes h err e' h',
     openstacktasks.Subnet.RenderOpenstack cloud a e changes h = (Returns (err, e'), h') →
     e' = openstacktasks.Subnet.set_ID (openstacktasks.Subnet.ID e') e
     ∧ (err ≠ None → e' = e)
     ∧ (err = None →
        match a with
        | None =>
            ∃ network v,
              openstacktasks.Subnet.Network e = Some network ∧
              openstacktasks.CreateSubnet_resp cloud h
                (openstacktasks.Subnet.createOpts e network) = Ok v ∧
              openstacktasks.Subnet.ID e' = Some (openstacktasks.subnets.ID v)
        | Some a0 => openstacktasks.Subnet.ID e' = openstacktasks.Subnet.ID a0
        end))
  ∧
  (∀ cloud a e changes h err e' h',
     openstacktasks.LBListener.RenderOpenstack cloud a e changes h
       = (Returns (err, e'), h') →
     e' = openstacktasks.LBListener.set_ID (openstacktasks.LBListener.ID e') e
     ∧ (err ≠ None → e' = e)
     ∧ (err = None →
        match a with
        | None =>
            ∃ pool lb useVIPACL listener,
              openstacktasks.LBListener.Pool e = Some pool ∧
              openstacktasks.LBPool_Loadbalancer pool = Some lb ∧
              openstacktasks.UseLoadBalancerVIPACL_resp cloud h = Ok useVIPACL ∧
              openstacktasks.CreateListener_resp cloud
                (h ++ [openstacktasks.UseLoadBalancerVIPACL])
                (openstacktasks.LBListener.createOpts e pool lb useVIPACL) = Ok listener ∧
              openstacktasks.LBListener.ID e' = Some (openstacktasks.listeners.ID listener)
        | Some _ => e' = e
        end))
  ∧
  (∀ cloud s h actual e h1 changes h2 err e' h3,
     openstacktasks.LBListener.Find cloud s h = (Returns (Ok (Some actual), e), h1) →
     openstacktasks.LBListener.RenderOpenstack cloud (Some actual) e changes h2
       = (Returns (err, e'), h3) →
     openstacktasks.LBListener.ID e' = openstacktasks.LBListener.ID actual)
  ∧
  (∀ cloud s h actual e h1 changes h2 err e' h3,
     openstacktasks.Subnet.Find cloud s h = (Returns (Ok (Some actual), e), h1) →
     openstacktasks.Subnet.RenderOpenstack cloud (Some actual) e changes h2
       = (Returns (err, e'), h3) →
     openstacktasks.Subnet.ID e' = openstacktasks.Subnet.ID actual).
Proof.
  split_and!.
  - intros. eapply Subnet_RenderOpenstack_writes; eassumption.
  - intros. eapply LBListener_RenderOpenstack_writes; eassumption.
  - intros cloud s h actual e h1 changes h2 err e' h3 Hfind Hrender.
    apply LBListener_Find_sets_ID in Hfind.
    apply LBListener_RenderOpenstack_writes in Hrender as (_ & Herr & Hok).
    destruct err as [err|]; [rewrite Herr by done | rewrite Hok by done]; exact Hfind.
  - intros cloud s h actual e h1 changes h2 err e' h3 Hfind Hrender.
    apply Subnet_Find_sets_ID in Hfind as [Hfind _].
    apply Subnet_RenderOpenstack_writes in Hrender as (_ & Herr & Hok).
    destruct err as [err|]; [by rewrite Herr | by apply Hok].
Qed.

Lemma C5_identifier_write_back_witness :
  let cloud := samples_openstack (Ok None) (Ok None) in
  let found := samples_openstack (Ok None) (Ok (Some [samples_listed_listener None])) in
  let se := openstacktasks.Subnet.set_ID (Some "sub-new") samples.subnet in
  let le := openstacktasks.LBListener.set_ID (Some "lis-new") samples.listener in
  fst (openstacktasks.Subnet.RenderOpenstack cloud None samples.subnet
         samples.subnet_nochange []) = Returns (None, se)
  ∧ se = openstacktasks.Subnet.set_ID (openstacktasks.Subnet.ID se) samples.subnet
  ∧ fst (openstacktasks.LBListener.RenderOpenstack cloud None samples.listener
           samples.listener_nochange []) = Returns (None, le)
  ∧ le = openstacktasks.LBListener.set_ID (openstacktasks.LBListener.ID le)
           samples.listener
  ∧ ∃ actual e e',
      fst (openstacktasks.LBListener.Find found samples.listener [])
      = Returns (Ok (Some actual), e)
      ∧ fst (openstacktasks.LBListener.RenderOpenstack found (Some actual) e
               samples.listener_nochange []) = Returns (None, e')
      ∧ openstacktasks.LBListener.ID samples.listener = None
      ∧ openstacktasks.LBListener.ID actual = Some "lis-1"
      ∧ openstacktasks.LBListener.ID e' = openstacktasks.LBListener.ID actual.
Proof.
  intros cloud found se le.
  destruct C5_identifier_write_back as (HS & HL & HF & _).
  assert (RS : openstacktasks.Subnet.RenderOpenstack cloud None samples.subnet
                 samples.subnet_nochange []
               = (Returns (None, se),
                  snd (openstacktasks.Subnet.RenderOpenstack cloud None samples.subnet
                         samples.subnet_nochange []))) by reflexivity.
  assert (RL : openstacktasks.LBListener.RenderOpenstack cloud None samples.listener
                 samples.listener_nochange []
               = (Returns (None, le),
                  snd (openstacktasks.LBListener.RenderOpenstack cloud None
                         samples.listener samples.listener_nochange []))) by reflexivity.
  assert (RF : ∃ actual e h1,
            openstacktasks.LBListener.Find found samples.listener []
            = (Returns (Ok (Some actual), e), h1)
            ∧ openstacktasks.LBListener.ID actual = Some "lis-1").
  { let run := eval vm_compute in
       (openstacktasks.LBListener.Find found samples.listener []) in
    match run with
    | (Returns (Ok (Some ?actual), ?e), ?h1) => exists actual, e, h1
    end.
    split; reflexivity. }
  destruct RF as (actual & e & h1 & RF & Hactual).
  assert (RR : ∃ e' h3,
            openstacktasks.LBListener.RenderOpenstack found (Some actual) e
              samples.listener_nochange []
            = (Returns (None, e'), h3)).
  { pose proof (LBListener_RenderOpenstack_existing_unchanged found actual e
                  samples.listener_nochange [] eq_refl) as Hrun.
    destruct (openstacktasks.UseLoadBalancerVIPACL_resp found []) as [b|err] eqn:Hacl;
      [|discriminate Hacl].
    rewrite Hrun. eauto. }
  destruct RR as (e' & h3 & RR).
  split_and!.
  - reflexivity.
  - exact (proj1 (HS _ _ _ _ _ _ _ _ RS)).
  - reflexivity.
  - exact (proj1 (HL _ _ _ _ _ _ _ _ RL)).
  - exists actual, e, e'. split_and!.
    + by rewrite RF.
    + by rewrite RR.
    + reflexivity.
    + exact Hactual.
    + exact (HF _ _ _ _ _ _ _ _ _ _ _ RF RR).
Defined.

(** ** Discovery, case by case *)

Lemma Subnet_Find_one cloud s network h r net networkTask :
  openstacktasks.Subnet.Network s = Some network →
  let opt := openstacktasks.Subnet.listOpts s network in
  let h1 := h ++ [openstacktasks.ListSubnets opt] in
  let h2 := h1 ++ [openstacktasks.GetNetwork (openstacktasks.subnets.NetworkID r)] in
  let lifecycle := openstacktasks.Subnet.Lifecycle s in
  let tag := fi.ValueOf (openstacktasks.Subnet.Tag s) in
  openstacktasks.ListSubnets_resp cloud h opt = Ok (Some [r]) →
  openstacktasks.GetNetwork_resp cloud h1 (openstacktasks.subnets.NetworkID r) = Ok net →
  openstacktasks.NewNetworkTaskFromCloud_resp cloud h2 lifecycle net
    (openstacktasks.Subnet.Tag s) = Ok networkTask →
  openstacktasks.Subnet.Find cloud s h
  = (Returns
       (Ok (Some
          {| openstacktasks.Subnet.ID := Some (openstacktasks.subnets.ID r);
             openstacktasks.Subnet.Name := Some (openstacktasks.subnets.Name r);
             openstacktasks.Subnet.Network := Some networkTask;
             openstacktasks.Subnet.CIDR := Some (openstacktasks.subnets.CIDR r);
             openstacktasks.Subnet.DNSServers :=
               Some (Some <$> elems (openstacktasks.subnets.DNSNameservers r));
             openstacktasks.Subnet.Tag :=
               Some (if fi.ArrayContains (openstacktasks.subnets.Tags r) tag
                     then tag else "");
             openstacktasks.Subnet.Lifecycle := lifecycle |}),
        openstacktasks.Subnet.set_ID (Some (openstacktasks.subnets.ID r)) s),
     h2 ++ [openstacktasks.NewNetworkTaskFromCloud lifecycle net
              (openstacktasks.Subnet.Tag s)]).
Proof.
  intros Hnet opt h1 h2 lifecycle tag Hlist Hget Hnew.
  rewrite (Subnet_Find_listing cloud s network h Hnet). cbn zeta.
  fold opt. rewrite Hlist. fold h1.
  unfold openstacktasks.Subnet.NewSubnetTaskFromCloud. run_m.
  rewrite Hget. cbn. fold h2. fold lifecycle. rewrite Hnew. reflexivity.
Qed.

Lemma Subnet_Find_many cloud s network h rs :
  openstacktasks.Subnet.Network s = Some network →
  let opt := openstacktasks.Subnet.listOpts s network in
  openstacktasks.ListSubnets_resp cloud h opt = Ok (Some rs) →
  1 < length rs →
  openstacktasks.Subnet.Find cloud s h
  = (Returns (Err (Errorf "found multiple subnets with name: %s"
                     [FmtString (fi.ValueOf (openstacktasks.Subnet.Name s))]), s),
     h ++ [openstacktasks.ListSubnets opt]).
Proof.
  intros Hnet opt Hlist Hlen.
  rewrite (Subnet_Find_listing cloud s network h Hnet). cbn zeta.
  fold opt. rewrite Hlist. destruct rs as [|r [|r' rs]]; cbn in Hlen; [lia..|done].
Qed.

Lemma Subnet_Find_nil cloud s network h :
  openstacktasks.Subnet.Network s = Some network →
  let opt := openstacktasks.Subnet.listOpts s network in
  openstacktasks.ListSubnets_resp cloud h opt = Ok None →
  openstacktasks.Subnet.Find cloud s h
  = (Returns (Ok None, s), h ++ [openstacktasks.ListSubnets opt]).
Proof.
  intros Hnet opt Hlist.
  rewrite (Subnet_Find_listing cloud s network h Hnet). cbn zeta.
  fold opt. rewrite Hlist. reflexivity.
Qed.

Lemma LBListener_Find_unnamed cloud s h :
  openstacktasks.LBListener.Name s = None →
  openstacktasks.LBListener.Find cloud s h = (Returns (Ok None, s), h).
Proof. intros Hname. unfold openstacktasks.LBListener.Find. rewrite Hname. reflexivity. Qed.

Lemma LBListener_Find_listing cloud s h name :
  openstacktasks.LBListener.Name s = Some name →
  let opt :=
    {| openstacktasks.listeners.lo_ID := fi.ValueOf (openstacktasks.LBListener.ID s);
       openstacktasks.listeners.lo_Name := name |} in
  let h1 := h ++ [openstacktasks.ListListeners opt] in
  openstacktasks.LBListener.Find cloud s h
  = match openstacktasks.ListListeners_resp cloud h opt with
    | Err err =>
        (Returns (Err (Wrapf "Failed to list loadbalancer listeners for name %s: %v"
                         [FmtString name] err), s), h1)
    | Ok listing =>
        match elems listing with
        | [] => (Returns (Ok None, s), h1)
        | [l] =>
            match openstacktasks.LBListener.NewLBListenerTaskFromCloud cloud
                    (openstacktasks.LBListener.Lifecycle s) l (Some s) h1 with
            | (Returns (res, find), h2) =>
                (Returns (match res with
                          | Ok actual => Ok (Some actual)
                          | Err err => Err err
                          end, default s find), h2)
            | (Panics, h2) => (Panics, h2)
            end
        | _ =>
            (Returns (Err (Errorf "Multiple listeners found with name %s"
                             [FmtString name]), s), h1)
        end
    end.
Proof.
  intros Hname opt h1. unfold openstacktasks.LBListener.Find. rewrite Hname. run_m.
  fold opt.
  destruct (openstacktasks.ListListeners_resp cloud h opt) as [[[|l [|l' ls]]|]|err];
    try reflexivity.
  cbn. fold h1.
  destruct (openstacktasks.LBListener.NewLBListenerTaskFromCloud _ _ _ _ _)
    as [[[res find]|] h2]; reflexivity.
Qed.

Lemma LBListener_Find_one cloud s h name l pool hp poolTask :
  openstacktasks.LBListener.Name s = Some name →
  let opt :=
    {| openstacktasks.listeners.lo_ID := fi.ValueOf (openstacktasks.LBListener.ID s);
       openstacktasks.listeners.lo_Name := name |} in
  let h1 := h ++ [openstacktasks.ListListeners opt] in
  let lifecycle := openstacktasks.LBListener.Lifecycle s in
  openstacktasks.ListListeners_resp cloud h opt = Ok (Some [l]) →
  ((∃ rest, elems (openstacktasks.listeners.Pools l) = pool :: rest) ∧ hp = h1
   ∨ elems (openstacktasks.listeners.Pools l) = [] ∧
     openstacktasks.GetPool_resp cloud h1 (openstacktasks.listeners.DefaultPoolID l)
       = Ok pool ∧
     hp = h1 ++ [openstacktasks.GetPool (openstacktasks.listeners.DefaultPoolID l)]) →
  openstacktasks.NewLBPoolTaskFromCloud_resp cloud hp lifecycle pool
    (openstacktasks.LBListener.Pool s) = Ok poolTask →
  openstacktasks.LBListener.Find cloud s h
  = (Returns
       (Ok (Some
          {| openstacktasks.LBListener.ID := Some (openstacktasks.listeners.ID l);
             openstacktasks.LBListener.Name := Some (openstacktasks.listeners.Name l);
             openstacktasks.LBListener.Port :=
               Some (openstacktasks.listeners.ProtocolPort l);
             openstacktasks.LBListener.Pool := Some poolTask;
             openstacktasks.LBListener.Lifecycle := lifecycle;
             openstacktasks.LBListener.AllowedCIDRs :=
               openstacktasks.LBListener.sort_Strings
                 (openstacktasks.listeners.AllowedCIDRs l) |}),
        {| openstacktasks.LBListener.ID := Some (openstacktasks.listeners.ID l);
           openstacktasks.LBListener.Name := Some (openstacktasks.listeners.Name l);
           openstacktasks.LBListener.Port := openstacktasks.LBListener.Port s;
           openstacktasks.LBListener.Pool := Some poolTask;
           openstacktasks.LBListener.Lifecycle := lifecycle;
           openstacktasks.LBListener.AllowedCIDRs :=
             openstacktasks.LBListener.AllowedCIDRs s |}),
     hp ++ [openstacktasks.NewLBPoolTaskFromCloud lifecycle pool
              (openstacktasks.LBListener.Pool s)]).
Proof.
  intros Hname opt h1 lifecycle Hlist Hpool Hnew.
  rewrite (LBListener_Find_listing cloud s h name Hname). cbn zeta.
  fold opt. rewrite Hlist. cbn [elems default]. fold h1.
  unfold openstacktasks.LBListener.NewLBListenerTaskFromCloud. run_m.
  destruct Hpool as [[[rest Hpools] ->]|(Hpools & Hget & ->)]; rewrite Hpools; cbn.
  - fold lifecycle. rewrite Hnew. reflexivity.
  - rewrite Hget. cbn. fold lifecycle. rewrite Hnew. reflexivity.
Qed.

Lemma LBListener_Find_none cloud s h name listing :
  openstacktasks.LBListener.Name s = Some name →
  let opt :=
    {| openstacktasks.listeners.lo_ID := fi.ValueOf (openstacktasks.LBListener.ID s);
       openstacktasks.listeners.lo_Name := name |} in
  openstacktasks.ListListeners_resp cloud h opt = Ok listing →
  len listing = 0 →
  openstacktasks.LBListener.Find cloud s h
  = (Returns (Ok None, s), h ++ [openstacktasks.ListListeners opt]).
Proof.
  intros Hname opt Hlist Hlen.
  rewrite (LBListener_Find_listing cloud s h name Hname). cbn zeta.
  fold opt. rewrite Hlist. unfold len in Hlen.
  destruct (elems listing); [reflexivity|discriminate].
Qed.

Lemma LBListener_Find_many cloud s h name listing :
  openstacktasks.LBListener.Name s = Some name →
  let opt :=
    {| openstacktasks.listeners.lo_ID := fi.ValueOf (openstacktasks.LBListener.ID s);
       openstacktasks.listeners.lo_Name := name |} in
  openstacktasks.ListListeners_resp cloud h opt = Ok listing →
  1 < len listing →
  openstacktasks.LBListener.Find cloud s h
  = (Returns (Err (Errorf "Multiple listeners found with name %s" [FmtString name]), s),
     h ++ [openstacktasks.ListListeners opt]).
Proof.
  intros Hname opt Hlist Hlen.
  rewrite (LBListener_Find_listing cloud s h name Hname). cbn zeta.
  fold opt. rewrite Hlist. unfold len in Hlen.
  destruct (elems listing) as [|l [|l' ls]]; cbn in Hlen; [lia..|reflexivity].
Qed.

(** The disks of a listing that carry the name of the task. *)
Lemma Disk_firstNamed_find d name l h :
  azuretasks.Disk.Name d = Some name →
  Forall (λ v, is_Some (azuretasks.compute.Name v)) l →
  azuretasks.Disk.firstNamed d l h
  = (Returns (List.find (λ v, bool_decide (azuretasks.compute.Name v = Some name)) l), h).
Proof.
  intros Hname Hall. induction Hall as [|v l [vName Hv] _ IH]; [reflexivity|].
  cbn. rewrite Hv, Hname. run_m.
  destruct (String.eqb_spec vName name) as [->|Hne].
  - rewrite bool_decide_eq_true_2; done.
  - rewrite bool_decide_eq_false_2; [|congruence]. apply IH.
Qed.

Lemma Disk_Find_listing cloud d name rg rgName l h :
  azuretasks.Disk.Name d = Some name →
  azuretasks.Disk.ResourceGroup d = Some rg →
  azuretasks.ResourceGroup_Name rg = Some rgName →
  azuretasks.Disk_List_resp cloud h rgName = Ok l →
  Forall (λ v, is_Some (azuretasks.compute.Name v)) l →
  azuretasks.Disk.Find cloud d h
  = (match List.find (λ v, bool_decide (azuretasks.compute.Name v = Some name)) l with
     | None => Returns (Ok None)
     | Some found =>
         match azuretasks.compute.Properties found with
         | None => Panics
         | Some properties =>
             Returns (Ok (Some
               {| azuretasks.Disk.Name := Some name;
                  azuretasks.Disk.Lifecycle := azuretasks.Disk.Lifecycle d;
                  azuretasks.Disk.ResourceGroup :=
                    Some {| azuretasks.ResourceGroup_Name := Some rgName |};
                  azuretasks.Disk.SizeGB := azuretasks.compute.DiskSizeGB properties;
                  azuretasks.Disk.Tags := azuretasks.compute.Tags found;
                  azuretasks.Disk.VolumeType :=
                    sku ← azuretasks.compute.SKU found; azuretasks.compute.SKU_Name sku;
                  azuretasks.Disk.Zones := azuretasks.compute.Zones found |}))
         end
     end,
     h ++ [azuretasks.Disk_List rgName]).
Proof.
  intros Hname Hrg HrgName Hlist Hall. unfold azuretasks.Disk.Find.
  rewrite Hrg. run_m. rewrite HrgName. cbn. rewrite Hlist.
  rewrite (Disk_firstNamed_find d name l _ Hname Hall).
  destruct (List.find _ l) as [found|]; [|reflexivity].
  destruct (azuretasks.compute.Properties found) as [properties|]; cbn; [|reflexivity].
  rewrite ?Hname, ?HrgName.
  destruct (azuretasks.compute.SKU found) as [[[skuName|]]|]; reflexivity.
Qed.

(** Claim C4, as the code has it.
    [Subnet.Find] returns nil when the listing is the nil slice, the
    populated actual task when the listing holds one subnet whose network is
    resolved, and the error "found multiple subnets" when it holds more than
    one.
    [LBListener.Find] returns nil, without a call, when the name of the task
    is unset, nil when the listing is empty, the populated actual task when
    the listing holds one listener whose pool is resolved, and the error
    "Multiple listeners found" when it holds more than one.
    [Disk.Find] returns nil exactly when no listed disk carries the name of
    the task; otherwise it returns the task built from the first listed disk
    of that name, however many disks carry the name, and no error. *)
Theorem C4_discovery_results :
  (∀ cloud s network h,
     openstacktasks.Subnet.Network s = Some network →
     let opt := openstacktasks.Subnet.listOpts s network in
     let h1 := h ++ [openstacktasks.ListSubnets opt] in
     (openstacktasks.ListSubnets_resp cloud h opt = Ok None →
      openstacktasks.Subnet.Find cloud s h = (Returns (Ok None, s), h1))
     ∧ (∀ r net networkTask,
          let h2 := h1 ++ [openstacktasks.GetNetwork (openstacktasks.subnets.NetworkID r)] in
          openstacktasks.ListSubnets_resp cloud h opt = Ok (Some [r]) →
          openstacktasks.GetNetwork_resp cloud h1 (openstacktasks.subnets.NetworkID r)
            = Ok net →
          openstacktasks.NewNetworkTaskFromCloud_resp cloud h2
            (openstacktasks.Subnet.Lifecycle s) net (openstacktasks.Subnet.Tag s)
            = Ok networkTask →
          fst (openstacktasks.Subnet.Find cloud s h)
          = Returns (Ok (Some (Subnet_found s r networkTask)),
                     openstacktasks.Subnet.set_ID (Some (openstacktasks.subnets.ID r)) s))
     ∧ (∀ rs,
          openstacktasks.ListSubnets_resp cloud h opt = Ok (Some rs) →
          1 < length rs →
          openstacktasks.Subnet.Find cloud s h
          = (Returns (Err (Errorf "found multiple subnets with name: %s"
                             [FmtString (fi.ValueOf (openstacktasks.Subnet.Name s))]), s),
             h1)))
  ∧
  (∀ cloud s h,
     let opt := LBListener_listOpts s in
     let h1 := h ++ [openstacktasks.ListListeners opt] in
     (openstacktasks.LBListener.Name s = None →
      openstacktasks.LBListener.Find cloud s h = (Returns (Ok None, s), h))
     ∧ (∀ listing,
          openstacktasks.LBListener.Name s ≠ None →
          openstacktasks.ListListeners_resp cloud h opt = Ok listing →
          len listing = 0 →
          openstacktasks.LBListener.Find cloud s h = (Returns (Ok None, s), h1))
     ∧ (∀ l pool hp poolTask,
          openstacktasks.LBListener.Name s ≠ None →
          openstacktasks.ListListeners_resp cloud h opt = Ok (Some [l]) →
          ((∃ rest, elems (openstacktasks.listeners.Pools l) = pool :: rest) ∧ hp = h1
           ∨ elems (openstacktasks.listeners.Pools l) = [] ∧
             openstacktasks.GetPool_resp cloud h1
               (openstacktasks.listeners.DefaultPoolID l) = Ok pool ∧
             hp = h1 ++ [openstacktasks.GetPool
                           (openstacktasks.listeners.DefaultPoolID l)]) →
          openstacktasks.NewLBPoolTaskFromCloud_resp cloud hp
            (openstacktasks.LBListener.Lifecycle s) pool
            (openstacktasks.LBListener.Pool s) = Ok poolTask →
          fst (openstacktasks.LBListener.Find cloud s h)
          = Returns (Ok (Some (LBListener_found s l poolTask)),
                     LBListener_searched s l poolTask))
     ∧ (∀ listing,
          openstacktasks.LBListener.Name s ≠ None →
          openstacktasks.ListListeners_resp cloud h opt = Ok listing →
          1 < len listing →
          openstacktasks.LBListener.Find cloud s h
          = (Returns (Err (Errorf "Multiple listeners found with name %s"
                             [FmtString (fi.ValueOf (openstacktasks.LBListener.Name s))]),
                      s), h1)))
  ∧
  (∀ cloud d name rg rgName l h,
     azuretasks.Disk.Name d = Some name →
     azuretasks.Disk.ResourceGroup d = Some rg →
     azuretasks.ResourceGroup_Name rg = Some rgName →
     azuretasks.Disk_List_resp cloud h rgName = Ok l →
     Forall (λ v, is_Some (azuretasks.compute.Name v)) l →
     (fst (azuretasks.Disk.Find cloud d h) = Returns (Ok None)
      ↔ List.find (Disk_named name) l = None)
     ∧ (∀ found properties,
          List.find (Disk_named name) l = Some found →
          azuretasks.compute.Properties found = Some properties →
          azuretasks.Disk.Find cloud d h
          = (Returns (Ok (Some (Disk_found d name rgName found properties))),
             h ++ [azuretasks.Disk_List rgName]))).
Proof.
  split_and!.
  - intros cloud s network h Hnet opt h1. split_and!.
    + apply Subnet_Find_nil. exact Hnet.
    + intros r net networkTask h2 Hlist Hget Hnew.
      rewrite (Subnet_Find_one cloud s network h r net networkTask Hnet Hlist Hget Hnew).
      reflexivity.
    + intros rs. apply Subnet_Find_many. exact Hnet.
  - intros cloud s h opt h1. split_and!.
    + apply LBListener_Find_unnamed.
    + intros listing Hname. subst opt h1. unfold LBListener_listOpts.
      destruct (openstacktasks.LBListener.Name s) as [name|] eqn:Hn; [|done].
      apply LBListener_Find_none. exact Hn.
    + intros l pool hp poolTask Hname. subst opt h1. unfold LBListener_listOpts.
      destruct (openstacktasks.LBListener.Name s) as [name|] eqn:Hn; [|done].
      intros Hlist Hpool Hnew.
      rewrite (LBListener_Find_one cloud s h name l pool hp poolTask Hn Hlist Hpool Hnew).
      reflexivity.
    + intros listing Hname. subst opt h1. unfold LBListener_listOpts.
      destruct (openstacktasks.LBListener.Name s) as [name|] eqn:Hn; [|done].
      apply LBListener_Find_many. exact Hn.
  - intros cloud d name rg rgName l h Hname Hrg HrgName Hlist Hall.
    rewrite (Disk_Find_listing cloud d name rg rgName l h Hname Hrg HrgName Hlist Hall).
    fold (Disk_named name). split.
    + destruct (List.find (Disk_named name) l) as [found|]; cbn; [|done].
      destruct (azuretasks.compute.Properties found); split; done.
    + intros found properties -> ->. reflexivity.
Qed.

Lemma C4_discovery_results_witness :
  azuretasks.Disk.Find
    (samples_azure (Ok [samples_disk_listed 20; samples_disk_listed 64])) samples.disk []
  = (Returns (Ok (Some (azuretasks.Disk.set_VolumeType None samples.disk))),
     [azuretasks.Disk_List "rg"]).
Proof.
  destruct C4_discovery_results as (_ & _ & HD).
  destruct (HD (samples_azure (Ok [samples_disk_listed 20; samples_disk_listed 64]))
              samples.disk "etcd-a" samples.rg "rg"
              [samples_disk_listed 20; samples_disk_listed 64] []
              eq_refl eq_refl eq_refl eq_refl) as [_ Hfound].
  - repeat constructor; eexists; reflexivity.
  - exact (Hfound (samples_disk_listed 20) _ eq_refl eq_refl).
Defined.

(** Claim C4 fails for the Azure Disk: with two listed disks that carry the
    name of the task, [Find] returns the task built from the first one, and
    no ambiguity error. *)
Lemma C4_counterexample :
  let listing := [samples_disk_listed 20; samples_disk_listed 64] in
  Forall (λ v, azuretasks.compute.Name v = azuretasks.Disk.Name samples.disk) listing
  ∧ ∃ actual,
      fst (azuretasks.Disk.Find (samples_azure (Ok listing)) samples.disk [])
      = Returns (Ok (Some actual))
      ∧ azuretasks.Disk.SizeGB actual = Some 20%Z.
Proof.
  split.
  - repeat constructor.
  - eexists. split; reflexivity.
Qed.

(** ** Events of a computation *)

Lemma emits_mret {Ev A} (P : Ev → Prop) (a : A) : emits P (mret a : M Ev A).
Proof. intros h. exists []. split; [cbn; by rewrite app_nil_r | constructor]. Qed.

Lemma emits_emit {Ev R} (P : Ev → Prop) (ev : Ev) (resp : list Ev → R) :
  P ev → emits P (emit ev resp).
Proof. intros HP h. exists [ev]. split; [reflexivity | by constructor]. Qed.

Lemma emits_bind {Ev A B} (P : Ev → Prop) (m : M Ev A) (k : A → M Ev B) :
  emits P m → (∀ a, emits P (k a)) → emits P (m ≫= k).
Proof.
  intros Hm Hk h. destruct (Hm h) as (evs & Hsnd & HP).
  unfold mbind, M_bind. destruct (m h) as [[a|] h1]; cbn in Hsnd; subst h1.
  - destruct (Hk a (h ++ evs)) as (evs' & Hsnd' & HP').
    exists (evs ++ evs'). split; [by rewrite Hsnd', app_assoc | by apply Forall_app].
  - exists evs. done.
Qed.

Lemma emits_trace {Ev A} (P : Ev → Prop) (m : M Ev A) h :
  emits P m → Forall P (trace m h).
Proof.
  intros Hm. destruct (Hm h) as (evs & Hsnd & HP).
  unfold trace. rewrite Hsnd, drop_app_length. exact HP.
Qed.

Lemma emits_bind_yields {Ev A B} (P : Ev → Prop) (m : M Ev A) (k : A → M Ev B) v :
  yields m v → emits P (k v) → emits P (m ≫= k).
Proof.
  intros Hm Hk h. unfold mbind, M_bind. rewrite (Hm h). apply Hk.
Qed.

Lemma extend_append {A} (s : slice A) (x : A) (l : list A) :
  extend (append s x) l = extend s (x :: l).
Proof. destruct l; cbn; [done|]. by rewrite <- app_assoc. Qed.

Lemma SortedKeys_lookup {V} (m : gmap string V) :
  Forall (λ key, is_Some (m !! key)) (maps.SortedKeys m).
Proof.
  apply Forall_forall. intros key Hkey. unfold maps.SortedKeys, maps.Keys_in in Hkey.
  rewrite merge_sort_Permutation in Hkey.
  apply list_elem_of_fmap in Hkey as ([key' v] & -> & Hentry).
  apply elem_of_map_to_list in Hentry. eauto.
Qed.

Lemma appendEBSDevices_yields keys devices mappings :
  Forall (λ key, is_Some (devices !! key)) keys →
  yields (awstasks.LaunchTemplate.appendEBSDevices keys devices mappings)
    (extend mappings
       (omap (λ key,
                awstasks.LaunchTemplate.createTerraformLaunchTemplateBlockDevice key
                  <$> devices !! key) keys)).
Proof.
  intros Hkeys. revert mappings.
  induction Hkeys as [|key keys [v Hv] _ IH]; intros mappings h; [reflexivity|].
  cbn. rewrite Hv. run_m. rewrite IH. by rewrite extend_append.
Qed.

Lemma appendEphemeralDevices_yields keys devices mappings :
  Forall (λ key, is_Some (devices !! key)) keys →
  yields (awstasks.LaunchTemplate.appendEphemeralDevices keys devices mappings)
    (extend mappings
       (omap (λ key,
                (λ v, {| awstasks.bd_VirtualName := awstasks.VirtualName v;
                         awstasks.bd_DeviceName := fi.PtrTo key;
                         awstasks.bd_EBS := None |})
                  <$> devices !! key) keys)).
Proof.
  intros Hkeys. revert mappings.
  induction Hkeys as [|key keys [v Hv] _ IH]; intros mappings h; [reflexivity|].
  cbn. rewrite Hv. run_m. rewrite IH. by rewrite extend_append.
Qed.

Lemma emits_emit_bind {Ev R B} (P : Ev → Prop) (ev : Ev) (resp : list Ev → R)
    (k : R → M Ev B) :
  P ev → (∀ r, (∃ h, resp h = r) → emits P (k r)) → emits P (emit ev resp ≫= k).
Proof.
  intros HP Hk h. destruct (Hk (resp h) (ex_intro _ h eq_refl) (h ++ [ev]))
    as (evs & Hsnd & Hevs).
  exists (ev :: evs). split.
  - unfold mbind, M_bind, emit. cbn. rewrite Hsnd. by rewrite <- app_assoc.
  - by constructor.
Qed.

(** Proves [emits P m] along the structure of [m]. *)
Ltac emits_step :=
  match goal with
  | |- emits _ (mret _) => apply emits_mret
  | |- emits _ (emit _ _) => apply emits_emit
  | |- emits _ (emit _ _ ≫= _) => apply emits_emit_bind; [|intros ? ?]
  | |- emits _ (awstasks.LaunchTemplate.appendEBSDevices _ _ _ ≫= _) =>
      eapply emits_bind_yields;
      [apply appendEBSDevices_yields, SortedKeys_lookup|]
  | |- emits _ (awstasks.LaunchTemplate.appendEphemeralDevices _ _ _ ≫= _) =>
      eapply emits_bind_yields;
      [apply appendEphemeralDevices_yields, SortedKeys_lookup|]
  | |- emits _ (_ ≫= _) => apply emits_bind; [|intros ?]
  | |- emits _ (match ?x with _ => _ end) => destruct x eqn:?
  | |- emits _ (let _ := _ in _) => cbn zeta
  end.

Lemma renderWith_emits (P : awstasks.LaunchTemplate.call → Prop) env e image :
  (∀ d, P (awstasks.LaunchTemplate.AddFileBytes "aws_launch_template"
             (fi.ValueOf (awstasks.LaunchTemplate.Name e)) "user_data" d true)) →
  P (awstasks.LaunchTemplate.buildRootDevice e) →
  P (awstasks.LaunchTemplate.buildEphemeralDevices
       (fi.ValueOf (awstasks.LaunchTemplate.InstanceType e))) →
  (∀ userData root additionals ephemeral,
     (∃ h, awstasks.LaunchTemplate.buildRootDevice_resp env h e = Ok root) →
     awstasks.LaunchTemplate.buildAdditionalDevices env
       (awstasks.LaunchTemplate.BlockDeviceMappings e) = Ok additionals →
     (∃ h, awstasks.LaunchTemplate.buildEphemeralDevices_resp env h
             (fi.ValueOf (awstasks.LaunchTemplate.InstanceType e)) = Ok ephemeral) →
     P (awstasks.LaunchTemplate.RenderResource "aws_launch_template"
          (fi.ValueOf (awstasks.LaunchTemplate.Name e))
          (awstasks.LaunchTemplate.set_Tags e
             (awstasks.LaunchTemplate.set_BlockDeviceMappings
                (blockDevices root additionals ephemeral)
                (awstasks.LaunchTemplate.set_UserData userData
                   (awstasks.LaunchTemplate.baseTemplate e image)))))) →
  emits P (awstasks.LaunchTemplate.renderWith env e image).
Proof.
  intros Hfile Hroot Heph Hres. unfold awstasks.LaunchTemplate.renderWith.
  unfold awstasks.ResourceAsBytes.
  repeat emits_step; auto.
  repeat match goal with H : ∃ _, _ |- _ => destruct H as [? ?] end.
  apply Hres; eauto.
Qed.

(** ** The Terraform rendering and the live cloud *)

(** The events of the rendering once the image is resolved. *)
Lemma renderWith_no_cloud_call env e image :
  emits (helperOrTargetCall e) (awstasks.LaunchTemplate.renderWith env e image).
Proof.
  apply renderWith_emits; unfold helperOrTargetCall; eauto 10.
Qed.

Lemma RenderTerraform_without_image env a e changes h :
  awstasks.LaunchTemplate.ImageID e = None →
  awstasks.LaunchTemplate.RenderTerraform env a e changes h
  = awstasks.LaunchTemplate.renderWith env e None h.
Proof.
  intros Himage. unfold awstasks.LaunchTemplate.RenderTerraform,
    awstasks.LaunchTemplate.resolveImage. rewrite Himage. reflexivity.
Qed.

Lemma RenderTerraform_with_image env a e changes h img :
  awstasks.LaunchTemplate.ImageID e = Some img →
  let h1 := h ++ [awstasks.LaunchTemplate.ResolveImage img] in
  awstasks.LaunchTemplate.RenderTerraform env a e changes h
  = match awstasks.LaunchTemplate.ResolveImage_resp env h img with
    | Ok im => awstasks.LaunchTemplate.renderWith env e (awstasks.ec2types.ImageId im) h1
    | Err err => (Returns (Some err), h1)
    end.
Proof.
  intros Himage h1. unfold awstasks.LaunchTemplate.RenderTerraform,
    awstasks.LaunchTemplate.resolveImage. rewrite Himage. run_m.
  destruct (awstasks.LaunchTemplate.ResolveImage_resp env h img); reflexivity.
Qed.

(** Claim C6, as the code has it.  [RenderTerraform] calls the cloud itself
    exactly when the expected task names an image: with ImageID nil none of
    its events is a call on the cloud interface; with ImageID set its first
    event is the lookup [ResolveImage] of that image in the cloud, and no
    later event is a call on the cloud interface.  Its other events are
    calls of [buildRootDevice] and [buildEphemeralDevices], which are handed
    the cloud, and calls of [AddFileBytes] and [RenderResource] on the
    Terraform target. *)
Theorem C6_RenderTerraform_cloud_calls env a e changes h :
  (awstasks.LaunchTemplate.ImageID e = None →
   Forall (helperOrTargetCall e)
     (trace (awstasks.LaunchTemplate.RenderTerraform env a e changes) h))
  ∧ (∀ img,
       awstasks.LaunchTemplate.ImageID e = Some img →
       ∃ rest,
         trace (awstasks.LaunchTemplate.RenderTerraform env a e changes) h
         = awstasks.LaunchTemplate.ResolveImage img :: rest
         ∧ Forall (helperOrTargetCall e) rest).
Proof.
  split.
  - intros Himage. unfold trace.
    rewrite (RenderTerraform_without_image env a e changes h Himage).
    apply (emits_trace _ (awstasks.LaunchTemplate.renderWith env e None) h),
      renderWith_no_cloud_call.
  - intros img Himage. unfold trace.
    rewrite (RenderTerraform_with_image env a e changes h img Himage). cbn zeta.
    destruct (awstasks.LaunchTemplate.ResolveImage_resp env h img) as [im|err].
    + destruct (renderWith_no_cloud_call env e (awstasks.ec2types.ImageId im)
                  (h ++ [awstasks.LaunchTemplate.ResolveImage img])) as (evs & Hsnd & HP).
      exists evs. rewrite Hsnd, <- app_assoc, drop_app_length. done.
    + exists []. cbn. rewrite drop_app_length. split; [done | constructor].
Qed.

Lemma C6_RenderTerraform_cloud_calls_witness :
  ∃ rest,
    trace (awstasks.LaunchTemplate.RenderTerraform (samples_aws "ami-0abc") None
             samples_template samples_template) []
    = awstasks.LaunchTemplate.ResolveImage "ubuntu-22.04" :: rest
    ∧ Forall (helperOrTargetCall samples_template) rest.
Proof.
  exact (proj2 (C6_RenderTerraform_cloud_calls (samples_aws "ami-0abc") None
                  samples_template samples_template [])
           "ubuntu-22.04" eq_refl).
Defined.

(** Claim C6 fails: for an expected task that names an image,
    [RenderTerraform] calls [ResolveImage] on the live cloud. *)
Lemma C6_counterexample :
  ¬ Forall (λ c, awstasks.LaunchTemplate.is_cloud_call c = false)
      (trace (awstasks.LaunchTemplate.RenderTerraform (samples_aws "ami-0abc") None
                samples_template samples_template) []).
Proof.
  intros H. apply Forall_cons_1 in H as [Hcall _]. discriminate Hcall.
Qed.

(** ** References in the rendered block *)

Lemma RenderTerraform_emits (P : awstasks.LaunchTemplate.call → Prop) env a e changes :
  (∀ img, P (awstasks.LaunchTemplate.ResolveImage img)) →
  (∀ image, emits P (awstasks.LaunchTemplate.renderWith env e image)) →
  emits P (awstasks.LaunchTemplate.RenderTerraform env a e changes).
Proof.
  intros Himg Hrender. unfold awstasks.LaunchTemplate.RenderTerraform,
    awstasks.LaunchTemplate.resolveImage.
  repeat emits_step; auto.
Qed.

Lemma fold_left_append_elems {A B} (f : A → B) (l : list A) (s : slice B) :
  elems (fold_left (λ acc x, append acc (f x)) l s) = elems s ++ (f <$> l).
Proof.
  revert s. induction l as [|x l IH]; intros s; cbn [fold_left fmap list_fmap].
  - by rewrite app_nil_r.
  - rewrite IH. cbn. by rewrite <- app_assoc.
Qed.

Lemma baseTemplate_rendersLinks e image userData mappings :
  rendersLinks e
    (awstasks.LaunchTemplate.set_Tags e
       (awstasks.LaunchTemplate.set_BlockDeviceMappings mappings
          (awstasks.LaunchTemplate.set_UserData userData
             (awstasks.LaunchTemplate.baseTemplate e image)))).
Proof.
  unfold rendersLinks, awstasks.LaunchTemplate.set_Tags.
  destruct (awstasks.LaunchTemplate.Tags e); cbn.
  all: split_and!.
  all: try (eexists; split; [reflexivity|];
            exact (fold_left_append_elems _ _ None)).
  all: destruct (awstasks.LaunchTemplate.SSHKey e),
         (awstasks.LaunchTemplate.IAMInstanceProfile e); reflexivity.
Qed.

(** Claim C7.  Every resource block that [RenderTerraform] hands to the
    target carries, for the security groups, the key and the instance
    profile of the expected task, the Terraform links of those tasks.  Each
    link is the property reference type.name.id built from the name of the
    task it refers to, and so is the link of a launch template; none
    depends on the identifier of the task. *)
Theorem C7_symbolic_references env a e changes h resourceType resourceName tf :
  awstasks.LaunchTemplate.RenderResource resourceType resourceName tf
    ∈ trace (awstasks.LaunchTemplate.RenderTerraform env a e changes) h →
  rendersLinks e tf
  ∧ (∀ x, awstasks.SecurityGroup_TerraformLink x
          = {| terraformWriter.Value :=
                 "aws_security_group." +:+ fi.ValueOf (awstasks.SecurityGroup_Name x)
                 +:+ ".id" |})
  ∧ (∀ x, awstasks.SSHKey_TerraformLink x
          = {| terraformWriter.Value :=
                 "aws_key_pair." +:+ fi.ValueOf (awstasks.SSHKey_Name x) +:+ ".id" |})
  ∧ (∀ x, awstasks.IAMInstanceProfile_TerraformLink x
          = {| terraformWriter.Value :=
                 "aws_iam_instance_profile."
                 +:+ fi.ValueOf (awstasks.IAMInstanceProfile_Name x) +:+ ".id" |})
  ∧ (∀ t, awstasks.LaunchTemplate.TerraformLink t
          = {| terraformWriter.Value :=
                 "aws_launch_template." +:+ fi.ValueOf (awstasks.LaunchTemplate.Name t)
                 +:+ ".id" |})
  ∧ (∀ x id,
       awstasks.SecurityGroup_TerraformLink
         {| awstasks.SecurityGroup_ID := id;
            awstasks.SecurityGroup_Name := awstasks.SecurityGroup_Name x |}
       = awstasks.SecurityGroup_TerraformLink x)
  ∧ (∀ x id,
       awstasks.SSHKey_TerraformLink
         {| awstasks.SSHKey_ID := id; awstasks.SSHKey_Name := awstasks.SSHKey_Name x |}
       = awstasks.SSHKey_TerraformLink x)
  ∧ (∀ x id,
       awstasks.IAMInstanceProfile_TerraformLink
         {| awstasks.IAMInstanceProfile_ID := id;
            awstasks.IAMInstanceProfile_Name := awstasks.IAMInstanceProfile_Name x |}
       = awstasks.IAMInstanceProfile_TerraformLink x).
Proof.
  intros Hin. split_and!; try reflexivity.
  pose (P := λ c, ∀ rt rn tf',
               c = awstasks.LaunchTemplate.RenderResource rt rn tf' → rendersLinks e tf').
  assert (HP : emits P (awstasks.LaunchTemplate.RenderTerraform env a e changes)).
  { apply RenderTerraform_emits; [done|]. intros image.
    apply renderWith_emits; try done.
    intros userData root additionals ephemeral _ _ _ rt rn tf' [= <- <- <-].
    apply baseTemplate_rendersLinks. }
  apply (emits_trace P _ h) in HP.
  rewrite Forall_forall in HP. exact (HP _ Hin _ _ _ eq_refl).
Qed.

Lemma C7_symbolic_references_witness :
  ∃ tf,
    awstasks.LaunchTemplate.RenderResource "aws_launch_template" "nodes" tf
      ∈ trace (awstasks.LaunchTemplate.RenderTerraform (samples_aws "ami-0abc") None
                 samples_template samples_template) []
    ∧ rendersLinks samples_template tf
    ∧ awstasks.tf_KeyName tf
      = Some (terraformWriter.LiteralProperty "aws_key_pair" "admin" "id").
Proof.
  assert (Htf : ∃ tf,
            awstasks.LaunchTemplate.RenderResource "aws_launch_template" "nodes" tf
              ∈ trace (awstasks.LaunchTemplate.RenderTerraform (samples_aws "ami-0abc")
                         None samples_template samples_template) []
            ∧ awstasks.tf_KeyName tf
              = Some (terraformWriter.LiteralProperty "aws_key_pair" "admin" "id")).
  { eexists. split.
    - vm_compute. do 3 apply list_elem_of_further. apply list_elem_of_here.
    - reflexivity. }
  destruct Htf as (tf & Hin & Hkey). exists tf. split_and!.
  - exact Hin.
  - exact (proj1 (C7_symbolic_references (samples_aws "ami-0abc") None
                    samples_template samples_template [] _ _ _ Hin)).
  - exact Hkey.
Defined.

(** ** Orders of iteration *)

Lemma Keys_in_Permutation {V} (entries entries' : list (string * V)) :
  entries ≡ₚ entries' → maps.Keys_in entries = maps.Keys_in entries'.
Proof.
  intros Hperm. unfold maps.Keys_in.
  apply (Sorted_unique String.le); [apply Sorted_merge_sort; apply _.. |].
  rewrite !merge_sort_Permutation. by rewrite Hperm.
Qed.

Lemma SortedKeys_Sorted {V} (m : gmap string V) : Sorted String.le (maps.SortedKeys m).
Proof. apply Sorted_merge_sort; apply _. Qed.

Lemma SortedKeys_keys {V} (m : gmap string V) key :
  key ∈ maps.SortedKeys m ↔ is_Some (m !! key).
Proof.
  unfold maps.SortedKeys, maps.Keys_in. rewrite merge_sort_Permutation.
  rewrite list_elem_of_fmap. split.
  - intros ([key' v] & -> & Hentry). apply elem_of_map_to_list in Hentry. eauto.
  - intros [v Hv]. exists (key, v). split; [done|]. by apply elem_of_map_to_list.
Qed.

Lemma omap_lookup_names {V B} (m : gmap string V) (f : string → V → B)
    (name : B → option string) keys :
  (∀ key v, name (f key v) = Some key) →
  Forall (λ key, is_Some (m !! key)) keys →
  name <$> omap (λ key, f key <$> m !! key) keys = Some <$> keys.
Proof.
  intros Hname Hkeys. induction Hkeys as [|key keys [v Hv] _ IH]; [done|].
  cbn. rewrite Hv. cbn. by rewrite Hname, IH.
Qed.

Lemma ebsDevices_names devices :
  awstasks.bd_DeviceName <$> ebsDevices devices = Some <$> maps.SortedKeys devices.
Proof.
  apply (omap_lookup_names devices
           awstasks.LaunchTemplate.createTerraformLaunchTemplateBlockDevice);
    [done | apply SortedKeys_lookup].
Qed.

Lemma ephemeralDevices_names devices :
  awstasks.bd_DeviceName <$> ephemeralDevices devices
  = Some <$> maps.SortedKeys devices.
Proof.
  apply (omap_lookup_names devices
           (λ key v, {| awstasks.bd_VirtualName := awstasks.VirtualName v;
                        awstasks.bd_DeviceName := fi.PtrTo key;
                        awstasks.bd_EBS := None |}));
    [done | apply SortedKeys_lookup].
Qed.

Lemma Subnet_GetDependencies_filter tasks :
  elems (openstacktasks.Subnet.GetDependencies tasks)
  = filter (λ task, isNetworkTask task = true) (snd <$> tasks).
Proof.
  unfold openstacktasks.Subnet.GetDependencies.
  enough (∀ deps,
            elems (fold_left
                     (λ deps entry,
                        match snd entry with
                        | openstacktasks.TaskNetwork _ => append deps (snd entry)
                        | _ => deps
                        end) tasks deps)
            = elems deps ++ filter (λ task, isNetworkTask task = true) (snd <$> tasks))
    as H by apply (H None).
  induction tasks as [|[name task] tasks IH]; intros deps; cbn [fold_left].
  - by rewrite app_nil_r.
  - rewrite IH. rewrite fmap_cons. cbn [snd].
    destruct task; rewrite ?filter_cons_True, ?filter_cons_False by done; try done.
    cbn. by rewrite <- app_assoc.
Qed.

#[local] Instance key_le_total : Total engine.key_le.
Proof.
  intros k1 k2. unfold engine.key_le.
  destruct (decide (k1.1 = k2.1)) as [E|NE].
  - rewrite decide_True by done. apply (total String.le).
  - rewrite decide_False by done. apply (total String.le).
Qed.

#[local] Instance key_le_trans : Transitive engine.key_le.
Proof.
  intros k1 k2 k3. unfold engine.key_le.
  destruct (decide (k1.1 = k2.1)) as [E12|N12], (decide (k2.1 = k3.1)) as [E23|N23].
  - rewrite decide_True by congruence. apply transitivity.
  - rewrite decide_False by congruence. rewrite E12. done.
  - rewrite <- E23. rewrite decide_False by done. done.
  - intros H12 H23. destruct (decide (k1.1 = k3.1)) as [E13|N13].
    + exfalso. apply N12. apply (anti_symm String.le); [done|]. by rewrite E13.
    + by etrans.
Qed.

#[local] Instance key_le_antisymm : AntiSymm (=) engine.key_le.
Proof.
  intros [t1 n1] [t2 n2]. unfold engine.key_le. cbn.
  destruct (decide (t1 = t2)) as [->|NE].
  - rewrite decide_True by done. intros H12 H21. f_equal.
    by apply (anti_symm String.le).
  - rewrite decide_False by done. intros H12 H21. exfalso. apply NE.
    by apply (anti_symm String.le).
Qed.

Lemma orderLayer_Permutation {T} (key : T → string * string) (layer layer' : list T) :
  (∀ x y, x ∈ layer → y ∈ layer → key x = key y → x = y) →
  layer ≡ₚ layer' →
  engine.orderLayer key layer = engine.orderLayer key layer'.
Proof.
  intros Hinj Hperm. unfold engine.orderLayer.
  assert (Total (engine.task_le key)) by (intros x y; apply (total engine.key_le)).
  assert (Transitive (engine.task_le key))
    by (intros x y z; apply (transitivity (R := engine.key_le))).
  apply (Sorted_unique_strong (engine.task_le key)).
  - intros x y Hx Hy Hxy Hyx. rewrite merge_sort_Permutation in Hx, Hy.
    rewrite <- Hperm in Hy. apply Hinj; [done..|].
    by apply (anti_symm engine.key_le).
  - by apply Sorted_merge_sort.
  - by apply Sorted_merge_sort.
  - by rewrite !merge_sort_Permutation.
Qed.

Lemma RenderTerraform_blockDevices env a e changes h resourceType resourceName tf :
  awstasks.LaunchTemplate.RenderResource resourceType resourceName tf
    ∈ trace (awstasks.LaunchTemplate.RenderTerraform env a e changes) h →
  ∃ root additionals ephemeral,
    (∃ h', awstasks.LaunchTemplate.buildRootDevice_resp env h' e = Ok root) ∧
    awstasks.LaunchTemplate.buildAdditionalDevices env
      (awstasks.LaunchTemplate.BlockDeviceMappings e) = Ok additionals ∧
    (∃ h', awstasks.LaunchTemplate.buildEphemeralDevices_resp env h'
             (fi.ValueOf (awstasks.LaunchTemplate.InstanceType e)) = Ok ephemeral) ∧
    awstasks.tf_BlockDeviceMappings tf = blockDevices root additionals ephemeral.
Proof.
  intros Hin.
  pose (P := λ c, ∀ rt rn tf',
               c = awstasks.LaunchTemplate.RenderResource rt rn tf' →
               ∃ root additionals ephemeral,
                 (∃ h', awstasks.LaunchTemplate.buildRootDevice_resp env h' e = Ok root) ∧
                 awstasks.LaunchTemplate.buildAdditionalDevices env
                   (awstasks.LaunchTemplate.BlockDeviceMappings e) = Ok additionals ∧
                 (∃ h', awstasks.LaunchTemplate.buildEphemeralDevices_resp env h'
                          (fi.ValueOf (awstasks.LaunchTemplate.InstanceType e))
                        = Ok ephemeral) ∧
                 awstasks.tf_BlockDeviceMappings tf'
                 = blockDevices root additionals ephemeral).
  assert (HP : emits P (awstasks.LaunchTemplate.RenderTerraform env a e changes)).
  { apply RenderTerraform_emits; [done|]. intros image.
    apply renderWith_emits; try done.
    intros userData root additionals ephemeral Hroot Hadd Heph rt rn tf' [= <- <- <-].
    exists root, additionals, ephemeral. split_and!; try done.
    unfold awstasks.LaunchTemplate.set_Tags.
    destruct (awstasks.LaunchTemplate.Tags e); reflexivity. }
  apply (emits_trace P _ h) in HP.
  rewrite Forall_forall in HP. exact (HP _ Hin _ _ _ eq_refl).
Qed.

(** Claim C8.
    The order of execution of a layer, by the key of type and name, does not
    depend on the order in which the tasks of the layer are presented when
    their keys are distinct, and so neither does the output emitted for the
    layer.  The dependencies of a Subnet are the same tasks for every order
    of iteration over the task map.  [maps.SortedKeys] gives the keys of a
    map in ascending order, the same list for every order of iteration over
    its entries.  Every resource block that [RenderTerraform] hands to the
    target lists the root devices, then the additional devices, then the
    ephemeral devices that the three helper functions returned, each group
    in ascending order of the device names; and the run of
    [RenderTerraform] depends on the expected task only, not on the actual
    task or the changes object. *)
Theorem C8_deterministic_output :
  (∀ T (key : T → string * string) (render : T → list Byte.byte) (layer layer' : list T),
     (∀ x y, x ∈ layer → y ∈ layer → key x = key y → x = y) →
     layer ≡ₚ layer' →
     engine.orderLayer key layer = engine.orderLayer key layer'
     ∧ engine.emitLayer key render layer = engine.emitLayer key render layer')
  ∧ (∀ tasks tasks',
       tasks ≡ₚ tasks' →
       elems (openstacktasks.Subnet.GetDependencies tasks)
       ≡ₚ elems (openstacktasks.Subnet.GetDependencies tasks'))
  ∧ (∀ V (m : gmap string V),
       Sorted String.le (maps.SortedKeys m)
       ∧ (∀ key, key ∈ maps.SortedKeys m ↔ is_Some (m !! key))
       ∧ (∀ entries, entries ≡ₚ map_to_list m → maps.Keys_in entries = maps.SortedKeys m))
  ∧ (∀ env a e changes h resourceType resourceName tf,
       awstasks.LaunchTemplate.RenderResource resourceType resourceName tf
         ∈ trace (awstasks.LaunchTemplate.RenderTerraform env a e changes) h →
       ∃ root additionals ephemeral,
         (∃ h', awstasks.LaunchTemplate.buildRootDevice_resp env h' e = Ok root) ∧
         awstasks.LaunchTemplate.buildAdditionalDevices env
           (awstasks.LaunchTemplate.BlockDeviceMappings e) = Ok additionals ∧
         (∃ h', awstasks.LaunchTemplate.buildEphemeralDevices_resp env h'
                  (fi.ValueOf (awstasks.LaunchTemplate.InstanceType e)) = Ok ephemeral) ∧
         awstasks.tf_BlockDeviceMappings tf = blockDevices root additionals ephemeral)
  ∧ (∀ devices,
       awstasks.bd_DeviceName <$> ebsDevices devices = Some <$> maps.SortedKeys devices
       ∧ awstasks.bd_DeviceName <$> ephemeralDevices devices
         = Some <$> maps.SortedKeys devices)
  ∧ (∀ env a a' e changes changes',
       awstasks.LaunchTemplate.RenderTerraform env a e changes
       = awstasks.LaunchTemplate.RenderTerraform env a' e changes').
Proof.
  split_and!.
  - intros T key render layer layer' Hinj Hperm.
    pose proof (orderLayer_Permutation key layer layer' Hinj Hperm) as Horder.
    split; [exact Horder|]. unfold engine.emitLayer. by rewrite Horder.
  - intros tasks tasks' Hperm. rewrite !Subnet_GetDependencies_filter. by rewrite Hperm.
  - intros V m. split_and!.
    + apply SortedKeys_Sorted.
    + apply SortedKeys_keys.
    + intros entries Hperm. by apply Keys_in_Permutation.
  - apply RenderTerraform_blockDevices.
  - intros devices. split; [apply ebsDevices_names | apply ephemeralDevices_names].
  - reflexivity.
Qed.

Lemma C8_deterministic_output_witness :
  engine.emitLayer samples_key snd samples_layer
  = engine.emitLayer samples_key snd (reverse samples_layer)
  ∧ engine.orderLayer samples_key samples_layer
    = [ ("Network", "cluster", String.list_byte_of_string "resource network cluster");
        ("Subnet", "nodes", String.list_byte_of_string "resource subnet nodes") ]
  ∧ ∃ tf root additionals ephemeral,
      awstasks.LaunchTemplate.RenderResource "aws_launch_template" "nodes" tf
        ∈ trace (awstasks.LaunchTemplate.RenderTerraform (samples_aws "ami-0abc") None
                   samples_template samples_template) []
      ∧ awstasks.tf_BlockDeviceMappings tf = blockDevices root additionals ephemeral
      ∧ awstasks.bd_DeviceName <$> elems (awstasks.tf_BlockDeviceMappings tf)
        = [Some "/dev/xvda"; Some "/dev/sdb"; Some "/dev/sdc"].
Proof.
  destruct C8_deterministic_output as (Hlayer & _ & _ & Hblock & _).
  split_and!.
  - apply (Hlayer _ samples_key snd samples_layer (reverse samples_layer)).
    + intros x y Hx Hy Hkey. unfold samples_layer in Hx, Hy.
      rewrite !elem_of_cons, elem_of_nil in Hx, Hy.
      destruct Hx as [->|[->|[]]], Hy as [->|[->|[]]]; done.
    + symmetry. apply reverse_Permutation.
  - reflexivity.
  - assert (Htf : ∃ tf,
              awstasks.LaunchTemplate.RenderResource "aws_launch_template" "nodes" tf
                ∈ trace (awstasks.LaunchTemplate.RenderTerraform (samples_aws "ami-0abc")
                           None samples_template samples_template) []
              ∧ awstasks.bd_DeviceName <$> elems (awstasks.tf_BlockDeviceMappings tf)
                = [Some "/dev/xvda"; Some "/dev/sdb"; Some "/dev/sdc"]).
    { eexists. split.
      - vm_compute. do 3 apply list_elem_of_further. apply list_elem_of_here.
      - reflexivity. }
    destruct Htf as (tf & Hin & Hnames).
    destruct (Hblock _ _ _ _ _ _ _ _ Hin)
      as (root & additionals & ephemeral & _ & _ & _ & Hdevices).
    exists tf, root, additionals, ephemeral. done.
Defined.

(** ** The node log dumper *)

Lemma emits_ask {Ev R} (P : Ev → Prop) (resp : list Ev → R) : emits P (ask resp).
Proof. intros h. exists []. split; [cbn; by rewrite app_nil_r | constructor]. Qed.

Lemma classify_filter items :
  dump.classify items
  = (filter (λ node, dump.isControlPlane node = true) items,
     filter (λ node, dump.isControlPlane node ≠ true) items).
Proof.
  unfold dump.classify.
  enough (∀ special regular,
            fold_left
              (λ '(special, regular) node,
                 if dump.isControlPlane node then (special ++ [node], regular)
                 else (special, regular ++ [node]))
              items (special, regular)
            = (special ++ filter (λ node, dump.isControlPlane node = true) items,
               regular ++ filter (λ node, dump.isControlPlane node ≠ true) items))
    as H by apply (H [] []).
  induction items as [|node items IH]; intros special regular; cbn [fold_left].
  - by rewrite !app_nil_r.
  - destruct (dump.isControlPlane node) eqn:Hcp; rewrite IH.
    + rewrite filter_cons_True, filter_cons_False by congruence.
      by rewrite <- app_assoc.
    + rewrite filter_cons_False, filter_cons_True by congruence.
      by rewrite <- app_assoc.
Qed.

Lemma dumpNode_emits env name ip useBastion :
  emits (λ _, True) (dump.dumpNode env name ip useBastion).
Proof.
  unfold dump.dumpNode. destruct (String.eqb ip ""); [apply emits_mret|].
  repeat first [apply emits_mret | apply emits_emit; done
               | apply emits_bind; [|intros ?] | destruct a].
Qed.

Lemma dumpRegistered_emits env node : emits (λ _, True) (dump.dumpRegistered env node).
Proof.
  unfold dump.dumpRegistered. apply emits_bind; [apply emits_ask|].
  intros [err|]; [apply emits_mret|].
  destruct (dump.pickAddresses _ _) as [publicIP privateIP].
  destruct (negb _); apply dumpNode_emits.
Qed.

Lemma dumpNotRegistered_emits env ip useBastion :
  emits (λ _, True) (dump.dumpNotRegistered env ip useBastion).
Proof.
  unfold dump.dumpNotRegistered. apply emits_bind; [apply emits_ask|].
  intros [err|]; [apply emits_mret|].
  apply emits_bind; [apply dumpNode_emits | intros ?; apply emits_mret].
Qed.

Lemma dumpRegular_emits env maxNodesToDump regular dumped :
  emits (λ _, True) (dump.dumpRegular env maxNodesToDump regular dumped).
Proof.
  revert dumped. induction regular as [|node regular IH]; intros dumped; cbn.
  - apply emits_mret.
  - destruct (_ <=? _)%Z; [apply emits_mret|].
    apply emits_bind; [apply dumpRegistered_emits | intros ?; apply IH].
Qed.

Lemma dumpAdditional_emits env maxNodesToDump useBastion notDumped dumped :
  emits (λ _, True) (dump.dumpAdditional env maxNodesToDump useBastion notDumped dumped).
Proof.
  induction notDumped as [|ip notDumped IH]; cbn.
  - apply emits_mret.
  - destruct (_ <=? _)%Z; [apply emits_mret|].
    apply emits_bind; [apply dumpNotRegistered_emits|].
    intros [err|]; [apply emits_mret | apply IH].
Qed.

Lemma bind_extends {Ev A B} (m : M Ev A) (k : A → M Ev B) h :
  (∀ a, emits (λ _, True) (k a)) →
  ∃ rest, snd ((m ≫= k) h) = snd (m h) ++ rest.
Proof.
  intros Hk. unfold mbind, M_bind. destruct (m h) as [[a|] h1]; cbn.
  - destruct (Hk a h1) as (rest & Hsnd & _). eauto.
  - exists []. by rewrite app_nil_r.
Qed.

Lemma bind_assoc_at {Ev A B C} (m : M Ev A) (k1 : A → M Ev B) (k2 : B → M Ev C) h :
  ((m ≫= k1) ≫= k2) h = (m ≫= (λ a, k1 a ≫= k2)) h.
Proof. unfold mbind, M_bind. destruct (m h) as [[a|] h1]; reflexivity. Qed.

Lemma DumpAllNodes_special_first env items maxNodesToDump additionalIPs
    additionalPrivateIPs h :
  ∃ rest,
    snd (dump.DumpAllNodes env items maxNodesToDump additionalIPs additionalPrivateIPs h)
    = snd (dump.dumpSpecial env
             (filter (λ node, dump.isControlPlane node = true) items) [] h) ++ rest.
Proof.
  unfold dump.DumpAllNodes, dump.DumpAllNodes_dumped. rewrite classify_filter.
  rewrite bind_assoc_at. apply bind_extends.
  intros dumped. apply emits_bind; [|intros r; apply emits_mret].
  apply emits_bind; [apply dumpRegular_emits|].
  intros [dumped'|dumped']; [|apply emits_mret].
  apply emits_bind; [apply dumpAdditional_emits|].
  intros [err|]; [apply emits_mret|].
  apply emits_bind; [apply dumpAdditional_emits|].
  intros [err|]; apply emits_mret.
Qed.

Lemma dumpRegistered_healthy env node h :
  healthy env → hasAddress node →
  dump.dumpRegistered env node h = (Returns None, h ++ nodeEvents node).
Proof.
  intros [Hctx Hdial] Haddr. unfold dump.dumpRegistered. run_m. rewrite Hctx.
  unfold hasAddress, dialTarget in Haddr. unfold nodeEvents, dialTarget.
  destruct (dump.pickAddresses _ _) as [publicIP privateIP].
  destruct (negb (String.eqb publicIP "")); cbn [fst snd] in *;
    unfold dump.dumpNode.
  all: match goal with
       | |- context [String.eqb ?ip ""] =>
           destruct (String.eqb_spec ip "") as [E|_]; [done|]
       end.
  all: run_m; rewrite Hdial; cbn; by rewrite <- !app_assoc.
Qed.

Lemma dumpSpecial_healthy env special dumped h :
  healthy env → Forall hasAddress special →
  dump.dumpSpecial env special dumped h
  = (Returns (dumped ++ special), h ++ concat (nodeEvents <$> special)).
Proof.
  intros Henv Haddr. revert dumped h.
  induction Haddr as [|node special Hnode _ IH]; intros dumped h; cbn.
  - by rewrite !app_nil_r.
  - unfold mbind, M_bind at 1. rewrite (dumpRegistered_healthy env node h Henv Hnode).
    rewrite IH. by rewrite <- !app_assoc.
Qed.

Lemma dumpRegular_at_limit env maxNodesToDump regular dumped h :
  (maxNodesToDump ≤ Z.of_nat (length dumped))%Z →
  ∃ r, dump.dumpRegular env maxNodesToDump regular dumped h = (Returns r, h)
       ∧ (r = inl dumped ∨ r = inr dumped).
Proof.
  intros Hmax. destruct regular as [|node regular]; cbn.
  - eauto.
  - rewrite (proj2 (Z.leb_le _ _) Hmax). eauto.
Qed.

Lemma dumpAdditional_at_limit env maxNodesToDump useBastion notDumped dumped h :
  (maxNodesToDump ≤ Z.of_nat (length dumped))%Z →
  ∃ r, dump.dumpAdditional env maxNodesToDump useBastion notDumped dumped h
       = (Returns r, h)
       ∧ (r = None ∨ r = Some None).
Proof.
  intros Hmax. destruct notDumped as [|ip notDumped]; cbn.
  - eauto.
  - rewrite (proj2 (Z.leb_le _ _) Hmax). eauto.
Qed.

Lemma DumpAllNodes_control_plane_over_limit env items maxNodesToDump additionalIPs
    additionalPrivateIPs h :
  let special := filter (λ node, dump.isControlPlane node = true) items in
  healthy env → Forall hasAddress special →
  (maxNodesToDump ≤ Z.of_nat (length special))%Z →
  dump.DumpAllNodes_dumped env items maxNodesToDump additionalIPs additionalPrivateIPs h
  = (Returns (None, special), h ++ concat (nodeEvents <$> special)).
Proof.
  intros special Henv Haddr Hmax. unfold dump.DumpAllNodes_dumped.
  rewrite classify_filter. fold special.
  unfold mbind, M_bind at 1. rewrite (dumpSpecial_healthy env special [] h Henv Haddr).
  cbn [app]. set (h1 := h ++ _).
  destruct (dumpRegular_at_limit env maxNodesToDump
              (filter (λ node, dump.isControlPlane node ≠ true) items) special h1 Hmax)
    as (r & Hr & [-> | ->]); unfold mbind, M_bind at 1; rewrite Hr; [|reflexivity].
  destruct (dumpAdditional_at_limit env maxNodesToDump false
              (dump.findInstancesNotDumped additionalIPs special) special h1 Hmax)
    as (r1 & Hr1 & [-> | ->]); unfold mbind, M_bind at 1; rewrite Hr1; [|reflexivity].
  destruct (dumpAdditional_at_limit env maxNodesToDump true
              (dump.findInstancesNotDumped additionalPrivateIPs special) special h1 Hmax)
    as (r2 & Hr2 & [-> | ->]); unfold mbind, M_bind at 1; rewrite Hr2; reflexivity.
Qed.

(** Claim C10.  [DumpAllNodes] splits the nodes into those that carry one of
    the three control plane labels and the others.  Its events begin with
    the events of the loop over the control plane nodes, which has no test
    of [maxNodesToDump]: every such node is handed to [dumpRegistered], in
    order, before any other node or address, whatever the limit is.  When
    nothing fails and the limit is not above the number of control plane
    nodes, every control plane node is dumped, no other node or address is
    tried, and the nodes dumped are the control plane nodes: more than
    [maxNodesToDump] when there are more of them than the limit. *)
Theorem C10_control_plane_nodes_first env items maxNodesToDump additionalIPs
    additionalPrivateIPs h :
  let special := filter (λ node, dump.isControlPlane node = true) items in
  let regular := filter (λ node, dump.isControlPlane node ≠ true) items in
  dump.classify items = (special, regular)
  ∧ (∀ node,
       dump.isControlPlane node = true
       ↔ is_Some (dump.Labels node !! "node-role.kubernetes.io/master")
         ∨ is_Some (dump.Labels node !! "node-role.kubernetes.io/control-plane")
         ∨ is_Some (dump.Labels node !! "node-role.kubernetes.io/api-server"))
  ∧ (∃ rest,
       snd (dump.DumpAllNodes env items maxNodesToDump additionalIPs
              additionalPrivateIPs h)
       = snd (dump.dumpSpecial env special [] h) ++ rest)
  ∧ (healthy env → Forall hasAddress special →
     (maxNodesToDump ≤ Z.of_nat (length special))%Z →
     dump.DumpAllNodes_dumped env items maxNodesToDump additionalIPs
       additionalPrivateIPs h
     = (Returns (None, special), h ++ concat (nodeEvents <$> special))
     ∧ ((maxNodesToDump < Z.of_nat (length special))%Z →
        ∃ dumped h',
          dump.DumpAllNodes_dumped env items maxNodesToDump additionalIPs
            additionalPrivateIPs h = (Returns (None, dumped), h')
          ∧ (maxNodesToDump < Z.of_nat (length dumped))%Z)).
Proof.
  intros special regular. split_and!.
  - apply classify_filter.
  - intros node. unfold dump.isControlPlane.
    destruct (dump.Labels node !! "node-role.kubernetes.io/master"),
      (dump.Labels node !! "node-role.kubernetes.io/control-plane"),
      (dump.Labels node !! "node-role.kubernetes.io/api-server");
      split; intros H; try done; eauto.
    destruct H as [[? [=]]|[[? [=]]|[? [=]]]].
  - apply DumpAllNodes_special_first.
  - intros Henv Haddr Hmax.
    pose proof (DumpAllNodes_control_plane_over_limit env items maxNodesToDump
                  additionalIPs additionalPrivateIPs h Henv Haddr Hmax) as Hrun.
    split; [exact Hrun|]. intros Hlt. eauto.
Qed.

Lemma C10_control_plane_nodes_first_witness :
  ∃ dumped h',
    dump.DumpAllNodes_dumped samples_dump_env samples_nodes 1 [] [] []
    = (Returns (None, dumped), h')
    ∧ (1 < Z.of_nat (length dumped))%Z.
Proof.
  destruct (C10_control_plane_nodes_first samples_dump_env samples_nodes 1 [] [] [])
    as (_ & _ & _ & Hover).
  assert (Henv : healthy samples_dump_env) by (split; reflexivity).
  assert (Haddr : Forall hasAddress
                    (filter (λ node, dump.isControlPlane node = true) samples_nodes)).
  { repeat constructor; discriminate. }
  assert (Hmax : (1 ≤ Z.of_nat (length
                    (filter (λ node, dump.isControlPlane node = true) samples_nodes)))%Z).
  { vm_compute. discriminate. }
  apply (proj2 (Hover Henv Haddr Hmax)).
  vm_compute. reflexivity.
Defined.

(** * Further properties of the embedded code *)

(** ** Apply routines of the OpenStack tasks *)

Lemma trace_snd {Ev A} (m : M Ev A) h evs :
  snd (m h) = h ++ evs → trace m h = evs.
Proof. intros H. unfold trace. rewrite H. apply drop_app_length. Qed.

(** For an existing subnet [RenderOpenstack] always sends an update, also
    when the changes object is empty: without a change of the tag its one
    call is [subnets.Update] on the identifier of the actual task, with the
    name servers of the expected task when the changes object flags them and
    with no field otherwise; a change of the tag is appended first, and when
    appending fails the update is not sent and the expected task is as it
    was. *)
Theorem Subnet_RenderOpenstack_existing_calls cloud a e changes h :
  let id := fi.ValueOf (openstacktasks.Subnet.ID a) in
  let opt :=
    {| openstacktasks.subnets.uo_DNSNameservers :=
         if openstacktasks.Subnet.DNSServers changes is Some _
         then Some (Some (fi.ValueOf <$> elems (openstacktasks.Subnet.DNSServers e)))
         else None |} in
  let tagCall :=
    openstacktasks.AppendTag openstacktasks.ResourceTypeSubnet id
      (fi.ValueOf (openstacktasks.Subnet.Tag changes)) in
  (openstacktasks.Subnet.Tag changes = None →
   trace (openstacktasks.Subnet.RenderOpenstack cloud (Some a) e changes) h
   = [openstacktasks.subnets_Update id opt])
  ∧ (openstacktasks.Subnet.Tag changes ≠ None →
     openstacktasks.AppendTag_resp cloud h openstacktasks.ResourceTypeSubnet id
       (fi.ValueOf (openstacktasks.Subnet.Tag changes)) = None →
     trace (openstacktasks.Subnet.RenderOpenstack cloud (Some a) e changes) h
     = [tagCall; openstacktasks.subnets_Update id opt])
  ∧ (∀ err,
       openstacktasks.Subnet.Tag changes ≠ None →
       openstacktasks.AppendTag_resp cloud h openstacktasks.ResourceTypeSubnet id
         (fi.ValueOf (openstacktasks.Subnet.Tag changes)) = Some err →
       openstacktasks.Subnet.RenderOpenstack cloud (Some a) e changes h
       = (Returns (Some (Wrapf "error appending tag to subnet: %v" [] err), e),
          h ++ [tagCall])).
Proof.
  intros id opt tagCall. split_and!.
  - intros Htag. apply trace_snd. unfold openstacktasks.Subnet.RenderOpenstack.
    rewrite Htag. run_m. fold id. fold opt.
    destruct (openstacktasks.subnets_Update_resp cloud h id opt); reflexivity.
  - intros Htag Hresp. apply trace_snd. unfold openstacktasks.Subnet.RenderOpenstack.
    destruct (openstacktasks.Subnet.Tag changes) as [tag|] eqn:Etag; [|done].
    run_m. fold id. cbn in Hresp. rewrite Hresp. cbn. fold opt.
    destruct (openstacktasks.subnets_Update_resp cloud _ id opt);
      cbn; by rewrite <- app_assoc.
  - intros err Htag Hresp. unfold openstacktasks.Subnet.RenderOpenstack.
    destruct (openstacktasks.Subnet.Tag changes) as [tag|] eqn:Etag; [|done].
    run_m. fold id. cbn in Hresp. rewrite Hresp. reflexivity.
Qed.

Lemma Subnet_RenderOpenstack_existing_calls_witness :
  trace (openstacktasks.Subnet.RenderOpenstack (samples_openstack (Ok None) (Ok None))
           (Some samples.subnet_actual) samples.subnet samples.subnet_nochange) []
  = [openstacktasks.subnets_Update "sub-1"
       {| openstacktasks.subnets.uo_DNSNameservers := None |}].
Proof.
  exact (proj1 (Subnet_RenderOpenstack_existing_calls
                  (samples_openstack (Ok None) (Ok None)) samples.subnet_actual
                  samples.subnet samples.subnet_nochange []) eq_refl).
Defined.

(** When [RenderOpenstack] has created the subnet and appending the tag
    fails, it returns the error and leaves the ID of the expected task
    unset, although the subnet exists in the cloud.  The tag is appended
    also when the task has none: the empty string is sent. *)
Theorem Subnet_RenderOpenstack_create_tag_failure cloud e changes h network v err :
  openstacktasks.Subnet.Network e = Some network →
  let opt := openstacktasks.Subnet.createOpts e network in
  let tagCall :=
    openstacktasks.AppendTag openstacktasks.ResourceTypeSubnet
      (openstacktasks.subnets.ID v) (fi.ValueOf (openstacktasks.Subnet.Tag e)) in
  openstacktasks.CreateSubnet_resp cloud h opt = Ok v →
  openstacktasks.AppendTag_resp cloud (h ++ [openstacktasks.CreateSubnet opt])
    openstacktasks.ResourceTypeSubnet (openstacktasks.subnets.ID v)
    (fi.ValueOf (openstacktasks.Subnet.Tag e)) = Some err →
  openstacktasks.Subnet.RenderOpenstack cloud None e changes h
  = (Returns (Some (Wrapf "Error appending tag to subnet: %v" [] err), e),
     h ++ [openstacktasks.CreateSubnet opt; tagCall]).
Proof.
  intros Hnet opt tagCall Hcreate Htag. unfold openstacktasks.Subnet.RenderOpenstack.
  rewrite Hnet. run_m. fold opt. rewrite Hcreate. cbn. rewrite Htag. cbn.
  by rewrite <- app_assoc.
Qed.

Lemma Subnet_RenderOpenstack_create_tag_failure_witness :
  ∃ h',
    openstacktasks.Subnet.RenderOpenstack samples_openstack_failing None samples.subnet
      samples.subnet_nochange []
    = (Returns (Some (Wrapf "Error appending tag to subnet: %v" [] (External "tag quota")),
                samples.subnet), h').
Proof.
  eexists.
  apply (Subnet_RenderOpenstack_create_tag_failure samples_openstack_failing
           samples.subnet samples.subnet_nochange [] samples.net _ _ eq_refl eq_refl).
  reflexivity.
Defined.

(** For an existing listener whose changes object flags allowed CIDRs,
    [RenderOpenstack] sends the update only when the cloud supports ACLs on
    the address of the load balancer and the provider of the load balancer
    of the actual task is not "ovn"; the update carries the CIDRs of the
    changes object.  Otherwise it sends nothing after the query and returns
    no error: the change is dropped. *)
Theorem LBListener_RenderOpenstack_update_gate cloud a e changes h pool lb :
  0 < len (openstacktasks.LBListener.AllowedCIDRs changes) →
  openstacktasks.LBListener.Pool a = Some pool →
  openstacktasks.LBPool_Loadbalancer pool = Some lb →
  let h1 := h ++ [openstacktasks.UseLoadBalancerVIPACL] in
  let id := fi.ValueOf (openstacktasks.LBListener.ID a) in
  let opts :=
    {| openstacktasks.listeners.uo_AllowedCIDRs :=
         Some (openstacktasks.LBListener.AllowedCIDRs changes) |} in
  (openstacktasks.UseLoadBalancerVIPACL_resp cloud h = Ok true →
   fi.ValueOf (openstacktasks.LB_Provider lb) ≠ "ovn" →
   openstacktasks.LBListener.RenderOpenstack cloud (Some a) e changes h
   = (Returns (match openstacktasks.listeners_Update_resp cloud h1 id opts with
               | Some err => Some (Wrapf "error updating LB listener: %v" [] err)
               | None => None
               end, e),
      h1 ++ [openstacktasks.listeners_Update id opts]))
  ∧ (openstacktasks.UseLoadBalancerVIPACL_resp cloud h = Ok false
     ∨ openstacktasks.UseLoadBalancerVIPACL_resp cloud h = Ok true
       ∧ fi.ValueOf (openstacktasks.LB_Provider lb) = "ovn" →
     openstacktasks.LBListener.RenderOpenstack cloud (Some a) e changes h
     = (Returns (None, e), h1)).
Proof.
  intros Hlen Hpool Hlb h1 id opts.
  unfold openstacktasks.LBListener.RenderOpenstack. run_m.
  destruct (len (openstacktasks.LBListener.AllowedCIDRs changes)); [lia|].
  rewrite Hpool. cbn. rewrite Hlb. cbn. split.
  - intros Hacl Hprov. rewrite Hacl.
    destruct (String.eqb_spec (fi.ValueOf (openstacktasks.LB_Provider lb)) "ovn");
      [done|]. cbn. fold h1 id opts.
    destruct (openstacktasks.listeners_Update_resp cloud h1 id opts); reflexivity.
  - intros [Hacl|[Hacl Hprov]]; rewrite Hacl; [reflexivity|].
    rewrite Hprov. reflexivity.
Qed.

Lemma LBListener_RenderOpenstack_update_gate_witness :
  openstacktasks.LBListener.RenderOpenstack samples_openstack_failing
    (Some samples.listener_actual) samples.listener samples_listener_cidr_change []
  = (Returns (None, samples.listener), [openstacktasks.UseLoadBalancerVIPACL]).
Proof.
  apply (proj2 (LBListener_RenderOpenstack_update_gate samples_openstack_failing
                  samples.listener_actual samples.listener samples_listener_cidr_change
                  [] samples.pool samples.lb ltac:(cbn; lia) eq_refl eq_refl)).
  left. reflexivity.
Defined.

(** A subnet that passes the validation of a creation is created without a
    nil dereference: [RenderOpenstack] returns, whatever the cloud
    answers. *)
Theorem Subnet_validated_create_returns cloud e changes h :
  openstacktasks.Subnet.CheckChanges None e changes = None →
  ∃ r h', openstacktasks.Subnet.RenderOpenstack cloud None e changes h = (Returns r, h').
Proof.
  intros Hcheck. unfold openstacktasks.Subnet.CheckChanges in Hcheck.
  unfold openstacktasks.Subnet.RenderOpenstack.
  destruct (openstacktasks.Subnet.Name e); [|done].
  destruct (openstacktasks.Subnet.Network e) as [network|]; [|done].
  run_m. destruct (openstacktasks.CreateSubnet_resp cloud h _) as [v|err]; cbn; [|eauto].
  destruct (openstacktasks.AppendTag_resp cloud _ _ _ _); eauto.
Qed.

Lemma Subnet_validated_create_returns_witness :
  ∃ r h',
    openstacktasks.Subnet.RenderOpenstack samples_openstack_failing None samples.subnet
      samples.subnet_nochange [] = (Returns r, h').
Proof.
  exact (Subnet_validated_create_returns samples_openstack_failing samples.subnet
           samples.subnet_nochange [] eq_refl).
Defined.

(** The validation of a creation does not cover every pointer the apply
    routine follows.  A listener with a name and no pool, or with a pool
    that has no load balancer, passes [CheckChanges], and [RenderOpenstack]
    stops on a nil dereference after its query.  A disk with a name and no
    resource group, or with a resource group that has no name, passes
    [CheckChanges], and [RenderAzure] stops on a nil dereference before any
    call. *)
Theorem validated_create_nil_dereference :
  (∀ cloud e changes h useVIPACL,
     openstacktasks.LBListener.Name e ≠ None →
     (openstacktasks.LBListener.Pool e = None
      ∨ ∃ pool, openstacktasks.LBListener.Pool e = Some pool
                ∧ openstacktasks.LBPool_Loadbalancer pool = None) →
     openstacktasks.UseLoadBalancerVIPACL_resp cloud h = Ok useVIPACL →
     openstacktasks.LBListener.CheckChanges None e changes = None
     ∧ openstacktasks.LBListener.RenderOpenstack cloud None e changes h
       = (Panics, h ++ [openstacktasks.UseLoadBalancerVIPACL]))
  ∧ (∀ cloud a e changes h,
       azuretasks.Disk.Name e ≠ None →
       (azuretasks.Disk.ResourceGroup e = None
        ∨ ∃ rg, azuretasks.Disk.ResourceGroup e = Some rg
                ∧ azuretasks.ResourceGroup_Name rg = None) →
       azuretasks.Disk.CheckChanges None e changes = None
       ∧ azuretasks.Disk.RenderAzure cloud a e changes h = (Panics, h)).
Proof.
  split.
  - intros cloud e changes h useVIPACL Hname Hpool Hacl. split.
    + unfold openstacktasks.LBListener.CheckChanges.
      destruct (openstacktasks.LBListener.Name e); done.
    + unfold openstacktasks.LBListener.RenderOpenstack. run_m. rewrite Hacl. cbn.
      destruct Hpool as [->|(pool & -> & Hlb)]; cbn; [done|]. rewrite Hlb. done.
  - intros cloud a e changes h Hname Hrg. split.
    + unfold azuretasks.Disk.CheckChanges. destruct (azuretasks.Disk.Name e); done.
    + unfold azuretasks.Disk.RenderAzure.
      destruct (azuretasks.Disk.Name e) as [name|]; [|done]. run_m.
      destruct Hrg as [->|(rg & -> & HrgName)]; cbn; [done|]. rewrite HrgName. done.
Qed.

Lemma validated_create_nil_dereference_witness :
  openstacktasks.LBListener.CheckChanges None
    (openstacktasks.LBListener.set_Pool None samples.listener) samples.listener_nochange
  = None
  ∧ openstacktasks.LBListener.RenderOpenstack samples_openstack_failing None
      (openstacktasks.LBListener.set_Pool None samples.listener)
      samples.listener_nochange []
    = (Panics, [openstacktasks.UseLoadBalancerVIPACL]).
Proof.
  apply (proj1 validated_create_nil_dereference samples_openstack_failing
           (openstacktasks.LBListener.set_Pool None samples.listener)
           samples.listener_nochange [] false).
  - discriminate.
  - left. reflexivity.
  - reflexivity.
Defined.

(** ** Discovery of the Azure disk *)

(** [Disk.Find] stops on a nil dereference when the first listed disk that
    carries the name of the task has no properties: the size is read from
    the properties before the test that they are set. *)
Theorem Disk_Find_nil_properties_panics cloud d name rg rgName l h found :
  azuretasks.Disk.Name d = Some name →
  azuretasks.Disk.ResourceGroup d = Some rg →
  azuretasks.ResourceGroup_Name rg = Some rgName →
  azuretasks.Disk_List_resp cloud h rgName = Ok l →
  Forall (λ v, is_Some (azuretasks.compute.Name v)) l →
  List.find (Disk_named name) l = Some found →
  azuretasks.compute.Properties found = None →
  azuretasks.Disk.Find cloud d h = (Panics, h ++ [azuretasks.Disk_List rgName]).
Proof.
  intros Hname Hrg HrgName Hlist Hall Hfound Hprops.
  rewrite (Disk_Find_listing cloud d name rg rgName l h Hname Hrg HrgName Hlist Hall).
  fold (Disk_named name). rewrite Hfound, Hprops. reflexivity.
Qed.

Lemma Disk_Find_nil_properties_panics_witness :
  azuretasks.Disk.Find (samples_azure (Ok [samples_disk_bare; samples_disk_listed 20]))
    samples.disk []
  = (Panics, [azuretasks.Disk_List "rg"]).
Proof.
  apply (Disk_Find_nil_properties_panics
           (samples_azure (Ok [samples_disk_bare; samples_disk_listed 20])) samples.disk
           "etcd-a" samples.rg "rg" [samples_disk_bare; samples_disk_listed 20] []
           samples_disk_bare); try reflexivity.
  repeat constructor; eexists; reflexivity.
Defined.

(** ** The node log dumper *)

Lemma dumpedAddresses_insert (addresses : list dump.NodeAddress) (m : gmap string bool) ip :
  (∀ key b, m !! key = Some b → b = true) →
  (∀ key b,
     fold_left (λ m address, <[dump.Address address := true]> m) addresses m !! key
     = Some b → b = true)
  ∧ (fold_left (λ m address, <[dump.Address address := true]> m) addresses m !! ip = None
     ↔ m !! ip = None ∧ ip ∉ dump.Address <$> addresses).
Proof.
  revert m. induction addresses as [|address addresses IH]; intros m Hm; cbn.
  - split; [done|]. rewrite elem_of_nil. tauto.
  - destruct (IH (<[dump.Address address := true]> m)) as [IH1 IH2].
    { intros key b. rewrite lookup_insert_Some. intros [[_ <-]|[_ ?]]; eauto. }
    split; [done|]. rewrite IH2, lookup_insert_None, elem_of_cons.
    split.
    + intros [[? ?] ?]. split; [done|]. intros [?|?]; congruence.
    + intros [? Hnot]. split; [split; [done|]|]; intros ?; apply Hnot; auto.
Qed.

Lemma dumpedAddresses_lookup (dumped : list dump.Node) (m : gmap string bool) ip :
  (∀ key b, m !! key = Some b → b = true) →
  (∀ key b,
     fold_left
       (λ m node, fold_left (λ m address, <[dump.Address address := true]> m)
                    (dump.Addresses node) m)
       dumped m !! key = Some b → b = true)
  ∧ (fold_left
       (λ m node, fold_left (λ m address, <[dump.Address address := true]> m)
                    (dump.Addresses node) m)
       dumped m !! ip = None
     ↔ m !! ip = None ∧ ip ∉ dump.Address <$> concat (dump.Addresses <$> dumped)).
Proof.
  revert m. induction dumped as [|node dumped IH]; intros m Hm; cbn.
  - split; [done|]. rewrite elem_of_nil. tauto.
  - destruct (dumpedAddresses_insert (dump.Addresses node) m ip Hm) as [H1 H2].
    destruct (IH _ H1) as [IH1 IH2]. split; [done|].
    rewrite IH2, H2, fmap_app, elem_of_app. tauto.
Qed.

(** [findInstancesNotDumped] keeps, in their order and with their
    repetitions, the addresses that are no address of a dumped node,
    whatever the type of that address. *)
Theorem findInstancesNotDumped_filter ips dumped :
  dump.findInstancesNotDumped ips dumped
  = filter (λ ip, ip ∉ dump.Address <$> concat (dump.Addresses <$> dumped)) ips.
Proof.
  unfold dump.findInstancesNotDumped. apply list_filter_iff. intros ip.
  destruct (dumpedAddresses_lookup dumped ∅ ip) as [Htrue Hlookup].
  { intros ??. by rewrite lookup_empty. }
  rewrite lookup_empty in Hlookup.
  destruct (fold_left _ dumped ∅ !! ip) as [b|] eqn:Hip; cbn.
  - rewrite (Htrue ip b Hip). split; [done|]. intros Hnot.
    assert (Hnone : @None bool = None) by done.
    destruct Hlookup as [_ Hlookup]. by specialize (Hlookup (conj Hnone Hnot)).
  - split; [|done]. intros _. by apply Hlookup.
Qed.

Lemma firstInternal_cons address addresses :
  firstInternal (address :: addresses)
  = if String.eqb (dump.Type_ address) "InternalIP"
    then if String.eqb (dump.Address address) "" then firstInternal addresses
         else dump.Address address
    else firstInternal addresses.
Proof.
  unfold firstInternal. rewrite filter_cons.
  destruct (String.eqb_spec (dump.Type_ address) "InternalIP") as [Htype|Htype].
  - rewrite decide_True by done. rewrite fmap_cons, filter_cons.
    destruct (String.eqb_spec (dump.Address address) "") as [Haddr|Haddr].
    + rewrite decide_False by (intros ?; done). done.
    + rewrite decide_True by done. done.
  - rewrite decide_False by done. done.
Qed.

Lemma pickAddresses_prefix pre rest privateIP :
  Forall (λ address, dump.Type_ address ≠ "ExternalIP") pre →
  dump.pickAddresses (pre ++ rest) privateIP
  = dump.pickAddresses rest
      (if String.eqb privateIP "" then firstInternal pre else privateIP).
Proof.
  intros Hpre. revert privateIP.
  induction Hpre as [|address pre Htype _ IH]; intros privateIP; cbn.
  - by destruct (String.eqb_spec privateIP "") as [->|].
  - destruct (String.eqb_spec (dump.Type_ address) "ExternalIP"); [done|].
    rewrite firstInternal_cons.
    destruct (String.eqb (dump.Type_ address) "InternalIP"); [|apply IH].
    rewrite IH.
    destruct (String.eqb_spec privateIP "") as [->|Hpriv].
    + reflexivity.
    + by rewrite (proj2 (String.eqb_neq _ _) Hpriv).
Qed.

(** The address [dumpRegistered] connects to.  When the context is not
    cancelled: the first address of type ExternalIP, directly, if it is not
    empty; else, through the bastion, the first address of type InternalIP
    that is not empty among those listed before the first external one.
    Internal addresses listed after an external address are never used. *)
Theorem dumpRegistered_address_choice env node h pre :
  dump.ctx_Err env h = None →
  Forall (λ address, dump.Type_ address ≠ "ExternalIP") pre →
  (∀ ext post,
     dump.Addresses node = pre ++ ext :: post →
     dump.Type_ ext = "ExternalIP" → dump.Address ext ≠ "" →
     dump.dumpRegistered env node h
     = dump.dumpNode env (dump.Name node) (dump.Address ext) false h)
  ∧ (dump.Addresses node = pre
     ∨ (∃ ext post, dump.Addresses node = pre ++ ext :: post
                    ∧ dump.Type_ ext = "ExternalIP" ∧ dump.Address ext = "") →
     dump.dumpRegistered env node h
     = dump.dumpNode env (dump.Name node) (firstInternal pre) true h).
Proof.
  intros Hctx Hpre.
  assert (Hrun : ∀ publicIP privateIP,
            dump.pickAddresses (dump.Addresses node) "" = (publicIP, privateIP) →
            dump.dumpRegistered env node h
            = if negb (String.eqb publicIP "")
              then dump.dumpNode env (dump.Name node) publicIP false h
              else dump.dumpNode env (dump.Name node) privateIP true h).
  { intros publicIP privateIP Hpick. unfold dump.dumpRegistered. run_m.
    rewrite Hctx, Hpick. by destruct (negb _). }
  split.
  - intros ext post Heq Htype Haddr. rewrite (Hrun (dump.Address ext) (firstInternal pre)).
    + by rewrite (proj2 (String.eqb_neq _ _) Haddr).
    + rewrite Heq, pickAddresses_prefix by done. cbn. by rewrite Htype.
  - intros [Heq|(ext & post & Heq & Htype & Haddr)];
      rewrite (Hrun "" (firstInternal pre)); try done.
    + pose proof (pickAddresses_prefix pre [] "" Hpre) as Hpick.
      rewrite app_nil_r in Hpick. by rewrite Heq.
    + rewrite Heq, pickAddresses_prefix by done. cbn. by rewrite Htype, Haddr.
Qed.

Lemma dumpRegistered_address_choice_witness :
  dump.dumpRegistered samples_dump_env samples_node_external []
  = (Returns None,
     [dump.Dial "203.0.113.12" false; dump.node_dump "worker-2";
      dump.node_Close "worker-2"]).
Proof.
  rewrite (proj1 (dumpRegistered_address_choice samples_dump_env samples_node_external []
                    (take 2 (dump.Addresses samples_node_external)) eq_refl
                    ltac:(repeat constructor; discriminate))
             {| dump.Type_ := "ExternalIP"; dump.Address := "203.0.113.12" |}
             [{| dump.Type_ := "InternalIP"; dump.Address := "10.0.0.13" |}]
             eq_refl eq_refl ltac:(discriminate)).
  reflexivity.
Defined.

Lemma sessions_app env h evs1 evs2 :
  sessions env h evs1 → sessions env (h ++ evs1) evs2 → sessions env h (evs1 ++ evs2).
Proof.
  induction 1 as [h|h host useBastion err evs Hdial _ IH
                 |h host useBastion name evs Hdial _ IH]; intros Hrest; cbn.
  - by rewrite app_nil_r in Hrest.
  - eapply sessions_refused; [done|]. apply IH. by rewrite <- app_assoc.
  - eapply sessions_dumped; [done|]. apply IH. by rewrite <- app_assoc.
Qed.

Lemma inSessions_mret env {A} (a : A) : inSessions env (mret a).
Proof. intros h. exists a, []. split; [cbn; by rewrite app_nil_r | constructor]. Qed.

Lemma inSessions_ask env {R} (resp : list dump.call → R) : inSessions env (ask resp).
Proof.
  intros h. exists (resp h), []. split; [cbn; by rewrite app_nil_r | constructor].
Qed.

Lemma inSessions_bind env {A B} (m : M dump.call A) (k : A → M dump.call B) :
  inSessions env m → (∀ a, inSessions env (k a)) → inSessions env (m ≫= k).
Proof.
  intros Hm Hk h. destruct (Hm h) as (a & evs1 & Hrun1 & Hevs1).
  destruct (Hk a (h ++ evs1)) as (b & evs2 & Hrun2 & Hevs2).
  exists b, (evs1 ++ evs2). split.
  - unfold mbind, M_bind. rewrite Hrun1, Hrun2. by rewrite app_assoc.
  - by apply sessions_app.
Qed.

Lemma dumpNode_inSessions env name ip useBastion :
  inSessions env (dump.dumpNode env name ip useBastion).
Proof.
  unfold dump.dumpNode. destruct (String.eqb ip ""); [apply inSessions_mret|].
  intros h. run_m. destruct (dump.Dial_resp env h ip useBastion) as [err|] eqn:Hdial; cbn.
  - eexists _, [_]. split; [reflexivity|].
    eapply sessions_refused; [done | constructor].
  - eexists _, [_; _; _]. split; [by rewrite <- !app_assoc|].
    eapply sessions_dumped; [done | constructor].
Qed.

Lemma dumpRegistered_inSessions env node : inSessions env (dump.dumpRegistered env node).
Proof.
  unfold dump.dumpRegistered. apply inSessions_bind; [apply inSessions_ask|].
  intros [err|]; [apply inSessions_mret|].
  destruct (dump.pickAddresses _ _) as [publicIP privateIP].
  destruct (negb _); apply dumpNode_inSessions.
Qed.

Lemma dumpNotRegistered_inSessions env ip useBastion :
  inSessions env (dump.dumpNotRegistered env ip useBastion).
Proof.
  unfold dump.dumpNotRegistered. apply inSessions_bind; [apply inSessions_ask|].
  intros [err|]; [apply inSessions_mret|].
  apply inSessions_bind; [apply dumpNode_inSessions | intros ?; apply inSessions_mret].
Qed.

Lemma dumpSpecial_inSessions env special dumped :
  inSessions env (dump.dumpSpecial env special dumped).
Proof.
  revert dumped. induction special as [|node special IH]; intros dumped; cbn.
  - apply inSessions_mret.
  - apply inSessions_bind; [apply dumpRegistered_inSessions | intros ?; apply IH].
Qed.

Lemma dumpRegular_inSessions env maxNodesToDump regular dumped :
  inSessions env (dump.dumpRegular env maxNodesToDump regular dumped).
Proof.
  revert dumped. induction regular as [|node regular IH]; intros dumped; cbn.
  - apply inSessions_mret.
  - destruct (_ <=? _)%Z; [apply inSessions_mret|].
    apply inSessions_bind; [apply dumpRegistered_inSessions | intros ?; apply IH].
Qed.

Lemma dumpAdditional_inSessions env maxNodesToDump useBastion notDumped dumped :
  inSessions env (dump.dumpAdditional env maxNodesToDump useBastion notDumped dumped).
Proof.
  induction notDumped as [|ip notDumped IH]; cbn.
  - apply inSessions_mret.
  - destruct (_ <=? _)%Z; [apply inSessions_mret|].
    apply inSessions_bind; [apply dumpNotRegistered_inSessions|].
    intros [err|]; [apply inSessions_mret | apply IH].
Qed.

(** [DumpAllNodes] always returns, and what it does is a sequence of
    connections, one at a time: a connection that is refused is followed by
    nothing; a connection that is made is followed by the dump of one node
    and then closed, before the next connection is tried.  No connection is
    left open, whatever the errors of the dump and of the close. *)
Theorem DumpAllNodes_sessions env items maxNodesToDump additionalIPs additionalPrivateIPs h :
  ∃ r evs,
    dump.DumpAllNodes env items maxNodesToDump additionalIPs additionalPrivateIPs h
    = (Returns r, h ++ evs)
    ∧ sessions env h evs.
Proof.
  revert h.
  change (inSessions env
            (dump.DumpAllNodes env items maxNodesToDump additionalIPs additionalPrivateIPs)).
  unfold dump.DumpAllNodes, dump.DumpAllNodes_dumped.
  destruct (dump.classify items) as [special regular].
  apply inSessions_bind; [|intros ?; apply inSessions_mret].
  apply inSessions_bind; [apply dumpSpecial_inSessions|]. intros dumped.
  apply inSessions_bind; [apply dumpRegular_inSessions|].
  intros [dumped'|dumped']; [|apply inSessions_mret].
  apply inSessions_bind; [apply dumpAdditional_inSessions|].
  intros [err|]; [apply inSessions_mret|].
  apply inSessions_bind; [apply dumpAdditional_inSessions|].
  intros [err|]; apply inSessions_mret.
Qed.

Lemma dumpNotRegistered_error env ip useBastion h err h' :
  dump.dumpNotRegistered env ip useBastion h = (Returns (Some err), h') →
  dump.ctx_Err env h' = Some err.
Proof.
  unfold dump.dumpNotRegistered. run_m.
  destruct (dump.ctx_Err env h) as [err'|] eqn:Hctx; [congruence|].
  destruct (dump.dumpNode env ip ip useBastion h) as [[?|] ?]; discriminate.
Qed.

Lemma dumpAdditional_error env maxNodesToDump useBastion notDumped dumped h err h' :
  dump.dumpAdditional env maxNodesToDump useBastion notDumped dumped h
  = (Returns (Some (Some err)), h') →
  dump.ctx_Err env h' = Some err.
Proof.
  revert h. induction notDumped as [|ip notDumped IH]; intros h; cbn; [discriminate|].
  destruct (_ <=? _)%Z; [discriminate|].
  unfold mbind, M_bind at 1.
  destruct (dump.dumpNotRegistered env ip useBastion h) as [[[err'|]|] h1] eqn:Hrun;
    [|apply IH|discriminate].
  intros [= -> ->]. by eapply dumpNotRegistered_error.
Qed.

(** The only error [DumpAllNodes] returns is the error of the context, met
    when it is about to dump an instance that is not registered: the
    function returns at once, so the context reports this error at the
    history it returns with.  With no additional address the result is nil,
    also when the context is cancelled and when no connection could be
    made. *)
Theorem DumpAllNodes_error_from_context env items maxNodesToDump additionalIPs
    additionalPrivateIPs h err h' :
  dump.DumpAllNodes env items maxNodesToDump additionalIPs additionalPrivateIPs h
  = (Returns (Some err), h') →
  dump.ctx_Err env h' = Some err ∧ (additionalIPs ≠ [] ∨ additionalPrivateIPs ≠ []).
Proof.
  unfold dump.DumpAllNodes, dump.DumpAllNodes_dumped.
  destruct (dump.classify items) as [special regular].
  unfold mbind, M_bind.
  destruct (dump.dumpSpecial env special [] h) as [[dumped|] h1]; [|discriminate].
  destruct (dump.dumpRegular env maxNodesToDump regular dumped h1)
    as [[[dumped'|dumped']|] h2]; [|discriminate..].
  destruct (dump.dumpAdditional env maxNodesToDump false
              (dump.findInstancesNotDumped additionalIPs dumped') dumped' h2)
    as [[[r|]|] h3] eqn:Hpublic; [| |discriminate].
  - cbn. intros [= -> ->]. split; [by eapply dumpAdditional_error|].
    left. intros ->. discriminate.
  - destruct (dump.dumpAdditional env maxNodesToDump true
                (dump.findInstancesNotDumped additionalPrivateIPs dumped') dumped' h3)
      as [[[r|]|] h4] eqn:Hprivate; [|discriminate..].
    cbn. intros [= -> ->]. split; [by eapply dumpAdditional_error|].
    right. intros ->. discriminate.
Qed.

Lemma DumpAllNodes_error_from_context_witness :
  dump.ctx_Err samples_dump_env_cancelled
    [dump.Dial "10.0.0.1" true; dump.node_dump "master-1"; dump.node_Close "master-1"]
  = Some (External "context canceled")
  ∧ (["10.0.0.99"] ≠ [] ∨ @nil string ≠ []).
Proof.
  exact (DumpAllNodes_error_from_context samples_dump_env_cancelled samples_nodes 5
           ["10.0.0.99"] [] [] (External "context canceled")
           [dump.Dial "10.0.0.1" true; dump.node_dump "master-1";
            dump.node_Close "master-1"] eq_refl).
Defined.

Lemma dumpNotRegistered_healthy env ip useBastion h :
  healthy env →
  dump.dumpNotRegistered env ip useBastion h = (Returns None, h ++ ipEvents useBastion ip).
Proof.
  intros [Hctx Hdial]. unfold dump.dumpNotRegistered, dump.dumpNode, ipEvents. run_m.
  rewrite Hctx. destruct (String.eqb ip ""); cbn; [by rewrite app_nil_r|].
  rewrite Hdial. cbn. by rewrite <- !app_assoc.
Qed.

Lemma dumpAdditional_healthy env maxNodesToDump useBastion notDumped dumped h :
  healthy env → (Z.of_nat (length dumped) < maxNodesToDump)%Z →
  dump.dumpAdditional env maxNodesToDump useBastion notDumped dumped h
  = (Returns None, h ++ concat (ipEvents useBastion <$> notDumped)).
Proof.
  intros Henv Hmax. revert h.
  induction notDumped as [|ip notDumped IH]; intros h; cbn.
  - by rewrite app_nil_r.
  - rewrite (proj2 (Z.leb_gt _ _) Hmax). unfold mbind, M_bind at 1.
    rewrite (dumpNotRegistered_healthy env ip useBastion h Henv), IH.
    by rewrite app_assoc.
Qed.

Lemma dumpRegular_healthy env maxNodesToDump regular dumped h :
  healthy env → Forall hasAddress regular →
  (Z.of_nat (length dumped + length regular) ≤ maxNodesToDump)%Z →
  dump.dumpRegular env maxNodesToDump regular dumped h
  = (Returns (inl (dumped ++ regular)), h ++ concat (nodeEvents <$> regular)).
Proof.
  intros Henv Haddr. revert dumped h.
  induction Haddr as [|node regular Hnode _ IH]; intros dumped h Hmax; cbn.
  - by rewrite !app_nil_r.
  - cbn in Hmax. rewrite (proj2 (Z.leb_gt _ _)) by lia. unfold mbind, M_bind at 1.
    rewrite (dumpRegistered_healthy env node h Henv Hnode), IH.
    + by rewrite <- !app_assoc.
    + rewrite length_app. cbn. lia.
Qed.

Lemma filter_complement_length {A} (P : A → Prop) `{∀ x, Decision (P x)} (l : list A) :
  length (filter P l) + length (filter (λ x, ¬ P x) l) = length l.
Proof.
  induction l as [|x l IH]; [done|]. rewrite !filter_cons.
  destruct (decide (P x)).
  - rewrite decide_False by tauto. cbn. lia.
  - rewrite decide_True by done. cbn. lia.
Qed.

Lemma Forall_filter_keep {A} (P Q : A → Prop) `{∀ x, Decision (Q x)} (l : list A) :
  Forall P l → Forall P (filter Q l).
Proof.
  rewrite !Forall_forall. intros HP x Hx. apply HP.
  by apply list_elem_of_filter in Hx as [_ Hx].
Qed.

(** [DumpAllNodes] in a healthy environment, when the nodes are fewer than
    the limit and each has an address: every node is dumped, the control
    plane nodes first; then every additional address that is no address of
    a node is dumped directly, and every additional private address that is
    no address of a node through the bastion.  The limit counts the nodes
    only: the number of additional instances dumped is not bounded by
    it. *)
Theorem DumpAllNodes_healthy_below_limit env items maxNodesToDump additionalIPs
    additionalPrivateIPs h :
  let dumped :=
    filter (λ node, dump.isControlPlane node = true) items
    ++ filter (λ node, dump.isControlPlane node ≠ true) items in
  healthy env → Forall hasAddress items →
  (Z.of_nat (length items) < maxNodesToDump)%Z →
  dump.DumpAllNodes env items maxNodesToDump additionalIPs additionalPrivateIPs h
  = (Returns None,
     h ++ concat (nodeEvents <$> dumped)
       ++ concat (ipEvents false <$> dump.findInstancesNotDumped additionalIPs dumped)
       ++ concat (ipEvents true
                    <$> dump.findInstancesNotDumped additionalPrivateIPs dumped)).
Proof.
  intros dumped Henv Haddr Hmax.
  pose proof (filter_complement_length (λ node, dump.isControlPlane node = true) items)
    as Hlen.
  unfold dump.DumpAllNodes, dump.DumpAllNodes_dumped. rewrite classify_filter.
  unfold mbind, M_bind.
  rewrite dumpSpecial_healthy by (done || by apply Forall_filter_keep).
  rewrite dumpRegular_healthy; [|done|by apply Forall_filter_keep|cbn; lia].
  cbn [app]. fold dumped.
  assert (Hdumped : (Z.of_nat (length dumped) < maxNodesToDump)%Z).
  { unfold dumped. rewrite length_app. lia. }
  rewrite !dumpAdditional_healthy by done. cbn.
  subst dumped. rewrite fmap_app, concat_app. unfold mret, M_ret.
  by rewrite <- !app_assoc.
Qed.

Lemma DumpAllNodes_healthy_below_limit_witness :
  length
    (trace (dump.DumpAllNodes samples_dump_env samples_nodes 4
              ["10.0.0.1"; "10.0.0.98"; "10.0.0.99"] ["10.0.0.2"; "10.0.0.97"]) [])
  = 18.
Proof.
  unfold trace.
  rewrite (DumpAllNodes_healthy_below_limit samples_dump_env samples_nodes 4
             ["10.0.0.1"; "10.0.0.98"; "10.0.0.99"] ["10.0.0.2"; "10.0.0.97"] []).
  - reflexivity.
  - split; reflexivity.
  - repeat constructor; discriminate.
  - cbn. lia.
Defined.

(** ** Discovery of the listener *)

(** The task [NewLBListenerTaskFromCloud] builds does not depend on the
    order in which the cloud lists the allowed CIDRs of the listener: two
    listeners that differ in this order only give the same result and the
    same calls, and the CIDRs of the task are sorted. *)
Theorem NewLBListenerTaskFromCloud_CIDR_order cloud lifecycle id name port cidrs cidrs'
    pools defaultPool find h :
  cidrs ≡ₚ cidrs' →
  let listed c :=
    {| openstacktasks.listeners.ID := id;
       openstacktasks.listeners.Name := name;
       openstacktasks.listeners.ProtocolPort := port;
       openstacktasks.listeners.AllowedCIDRs := Some c;
       openstacktasks.listeners.Pools := pools;
       openstacktasks.listeners.DefaultPoolID := defaultPool |} in
  openstacktasks.LBListener.NewLBListenerTaskFromCloud cloud lifecycle (listed cidrs) find h
  = openstacktasks.LBListener.NewLBListenerTaskFromCloud cloud lifecycle (listed cidrs')
      find h
  ∧ ∀ task find' h',
      openstacktasks.LBListener.NewLBListenerTaskFromCloud cloud lifecycle (listed cidrs)
        find h = (Returns (Ok task, find'), h') →
      Sorted String.le (elems (openstacktasks.LBListener.AllowedCIDRs task))
      ∧ elems (openstacktasks.LBListener.AllowedCIDRs task) ≡ₚ cidrs.
Proof.
  intros Hperm listed.
  assert (Hsort : merge_sort String.le cidrs = merge_sort String.le cidrs').
  { apply (Sorted_unique String.le); [apply Sorted_merge_sort; apply _.. |].
    rewrite !merge_sort_Permutation. exact Hperm. }
  unfold openstacktasks.LBListener.NewLBListenerTaskFromCloud, listed.
  cbn [openstacktasks.listeners.ID openstacktasks.listeners.Name
       openstacktasks.listeners.ProtocolPort openstacktasks.listeners.AllowedCIDRs
       openstacktasks.listeners.Pools openstacktasks.listeners.DefaultPoolID
       openstacktasks.LBListener.sort_Strings fmap option_fmap option_map].
  split; [by rewrite Hsort|].
  intros task find' h'. unfold mbind, M_bind.
  match goal with
  | |- context [match ?run with (o, h0) => _ end = _] =>
      destruct run as [[[poolTask|err]|] h1]
  end; [|discriminate..].
  run_m. intros [= <- _ _]. cbn.
  split; [apply Sorted_merge_sort; apply _ | apply merge_sort_Permutation].
Qed.

Lemma NewLBListenerTaskFromCloud_CIDR_order_witness :
  openstacktasks.LBListener.NewLBListenerTaskFromCloud (samples_openstack (Ok None) (Ok None))
    "Sync" (samples_listed_listener (Some ["192.168.0.0/16"; "10.0.0.0/8"]))
    (Some samples.listener) []
  = openstacktasks.LBListener.NewLBListenerTaskFromCloud
      (samples_openstack (Ok None) (Ok None))
      "Sync" (samples_listed_listener (Some ["10.0.0.0/8"; "192.168.0.0/16"]))
      (Some samples.listener) [].
Proof.
  apply (NewLBListenerTaskFromCloud_CIDR_order (samples_openstack (Ok None) (Ok None))
           "Sync" "lis-1" "api" 443 ["192.168.0.0/16"; "10.0.0.0/8"]
           ["10.0.0.0/8"; "192.168.0.0/16"] None "pool-1" (Some samples.listener) []).
  apply perm_swap.
Defined.

(** [NewLBListenerTaskFromCloud] reads the pool of [find] before it tests
    that [find] is set: with a nil [find] it never returns a task.  It stops
    on a nil dereference once it has a pool of the listener to convert: at
    once when the listener lists its pools, after [GetPool] when it does
    not. *)
Theorem NewLBListenerTaskFromCloud_nil_find cloud lifecycle l h :
  (0 < len (openstacktasks.listeners.Pools l) →
   openstacktasks.LBListener.NewLBListenerTaskFromCloud cloud lifecycle l None h
   = (Panics, h))
  ∧ (∀ pool,
       len (openstacktasks.listeners.Pools l) = 0 →
       openstacktasks.GetPool_resp cloud h (openstacktasks.listeners.DefaultPoolID l)
       = Ok pool →
       openstacktasks.LBListener.NewLBListenerTaskFromCloud cloud lifecycle l None h
       = (Panics,
          h ++ [openstacktasks.GetPool (openstacktasks.listeners.DefaultPoolID l)]))
  ∧ ∀ task find' h',
      openstacktasks.LBListener.NewLBListenerTaskFromCloud cloud lifecycle l None h
      ≠ (Returns (Ok task, find'), h').
Proof.
  unfold openstacktasks.LBListener.NewLBListenerTaskFromCloud, len.
  destruct (elems (openstacktasks.listeners.Pools l)) as [|pool rest]; run_m.
  - split; [lia|]. split.
    + intros pool _ ->. reflexivity.
    + intros task find' h'.
      destruct (openstacktasks.GetPool_resp cloud h _); discriminate.
  - split; [done|]. split; [discriminate | discriminate].
Qed.

Lemma NewLBListenerTaskFromCloud_nil_find_witness :
  openstacktasks.LBListener.NewLBListenerTaskFromCloud (samples_openstack (Ok None) (Ok None))
    "Sync" (samples_listed_listener None) None []
  = (Panics, [openstacktasks.GetPool "pool-1"]).
Proof.
  apply (proj1 (proj2 (NewLBListenerTaskFromCloud_nil_find
                         (samples_openstack (Ok None) (Ok None)) "Sync"
                         (samples_listed_listener None) []))
           {| openstacktasks.pools.ID := "pool-1"; openstacktasks.pools.Name := "pool" |});
    reflexivity.
Defined.

(** The dependencies of a listener are the load balancers and the pools
    among the tasks, each once, in the order in which the map of tasks is
    iterated; another order of iteration gives the same dependencies in
    another order. *)
Theorem LBListener_GetDependencies_filter tasks :
  elems (openstacktasks.LBListener.GetDependencies tasks)
  = filter (λ task, isLoadBalancerTask task = true) (snd <$> tasks)
  ∧ ∀ tasks', tasks ≡ₚ tasks' →
      elems (openstacktasks.LBListener.GetDependencies tasks)
      ≡ₚ elems (openstacktasks.LBListener.GetDependencies tasks').
Proof.
  assert (Hfilter : ∀ tasks,
            elems (openstacktasks.LBListener.GetDependencies tasks)
            = filter (λ task, isLoadBalancerTask task = true) (snd <$> tasks)).
  { clear tasks. intros tasks. unfold openstacktasks.LBListener.GetDependencies.
    enough (∀ deps,
              elems (fold_left
                       (λ deps entry,
                          let deps :=
                            if snd entry is openstacktasks.TaskLB _
                            then append deps (snd entry) else deps in
                          if snd entry is openstacktasks.TaskLBPool _
                          then append deps (snd entry) else deps) tasks deps)
              = elems deps
                ++ filter (λ task, isLoadBalancerTask task = true) (snd <$> tasks))
      as H by apply (H None).
    induction tasks as [|[name task] tasks IH]; intros deps; cbn [fold_left].
    - by rewrite app_nil_r.
    - rewrite IH. rewrite fmap_cons. cbn [snd].
      destruct task; rewrite ?filter_cons_True, ?filter_cons_False by done; try done.
      all: cbn; by rewrite <- app_assoc. }
  split; [apply Hfilter|].
  intros tasks' Hperm. rewrite !Hfilter. by rewrite Hperm.
Qed.

Lemma LBListener_GetDependencies_filter_witness :
  elems (openstacktasks.LBListener.GetDependencies samples_tasks)
  ≡ₚ elems (openstacktasks.LBListener.GetDependencies (reverse samples_tasks)).
Proof.
  apply (proj2 (LBListener_GetDependencies_filter samples_tasks)).
  symmetry. apply reverse_Permutation.
Defined.

(** ** Discovery makes no change *)

Lemma emits_deref {Ev A} (P : Ev → Prop) (p : option A) : emits P (deref p : M Ev A).
Proof.
  intros h. exists []. destruct p; cbn; (split; [by rewrite app_nil_r | constructor]).
Qed.

Lemma Disk_firstNamed_emits (P : azuretasks.call → Prop) d l :
  emits P (azuretasks.Disk.firstNamed d l).
Proof.
  induction l as [|v l IH]; cbn; [apply emits_mret|].
  repeat first [apply emits_mret | apply emits_deref | exact IH
               | apply emits_bind; [|intros ?]
               | match goal with |- emits _ (if ?b then _ else _) => destruct b end].
Qed.

(** The three [Find] routines only read: every call they make, on any
    history and whatever the cloud answers, is none of the calls that
    create or change a resource, also when they fail or stop on a nil
    pointer. *)
Theorem Find_makes_no_change :
  (∀ cloud s,
     emits (λ c, openstacktasks.is_mutation c = false)
       (openstacktasks.Subnet.Find cloud s))
  ∧ (∀ cloud s,
       emits (λ c, openstacktasks.is_mutation c = false)
         (openstacktasks.LBListener.Find cloud s))
  ∧ (∀ cloud d,
       emits (λ c, azuretasks.is_mutation c = false) (azuretasks.Disk.Find cloud d)).
Proof.
  split; [|split].
  - intros cloud s. unfold openstacktasks.Subnet.Find,
      openstacktasks.Subnet.NewSubnetTaskFromCloud.
    repeat first [apply emits_deref | emits_step | reflexivity].
  - intros cloud s. unfold openstacktasks.LBListener.Find,
      openstacktasks.LBListener.NewLBListenerTaskFromCloud.
    repeat first [apply emits_deref | emits_step | reflexivity].
  - intros cloud d. unfold azuretasks.Disk.Find.
    repeat first [apply emits_deref | apply Disk_firstNamed_emits | emits_step
                 | reflexivity].
Qed.

(** ** The Terraform rendering of the launch template *)

Lemma rendersLast_error env e err : rendersLast env e (mret (Some err)).
Proof.
  intros h. exists []. split; [constructor|]. left. cbn. by rewrite app_nil_r.
Qed.

Lemma rendersLast_bind env e {A} (m : M awstasks.LaunchTemplate.call A)
    (k : A → M awstasks.LaunchTemplate.call (option error)) :
  emits (λ c, isRender c = false) m → (∀ a, rendersLast env e (k a)) →
  rendersLast env e (m ≫= k).
Proof.
  intros Hm Hk h. destruct (Hm h) as (evs & Hsnd & Hevs).
  unfold mbind, M_bind. destruct (m h) as [[a|] h1]; cbn in Hsnd; subst h1.
  - destruct (Hk a (h ++ evs)) as (pre & Hpre & Hrun). exists (evs ++ pre).
    split; [by apply Forall_app|].
    rewrite (app_assoc h evs pre).
    destruct Hrun as [Hrun|[tf Hrun]]; [by left|right].
    exists tf. rewrite Hrun. by rewrite <- !app_assoc.
  - exists evs. split; [done|]. left. done.
Qed.

Lemma rendersLast_render env e tf :
  rendersLast env e
    (emit (awstasks.LaunchTemplate.RenderResource "aws_launch_template"
             (fi.ValueOf (awstasks.LaunchTemplate.Name e)) tf)
       (λ h, awstasks.LaunchTemplate.RenderResource_resp env h "aws_launch_template"
               (fi.ValueOf (awstasks.LaunchTemplate.Name e)) tf)).
Proof.
  intros h. exists []. split; [constructor|]. right. exists tf.
  unfold emit. by rewrite !app_nil_r.
Qed.

Lemma yields_emits {Ev A} (P : Ev → Prop) (m : M Ev A) v : yields m v → emits P m.
Proof.
  intros Hm h. exists []. rewrite (Hm h). split; [cbn; by rewrite app_nil_r | constructor].
Qed.

(** [RenderTerraform] writes the resource block at most once, as the last
    thing it does, and then returns the answer of the target.  When any step
    before fails (the image, the user data, one of the lists of devices), or
    when the rendering stops, no block is written: a failed rendering leaves
    no partial launch template in the document. *)
Theorem RenderTerraform_renders_last env a e changes h :
  ∃ pre,
    Forall (λ c, isRender c = false) pre
    ∧ ((snd (awstasks.LaunchTemplate.RenderTerraform env a e changes h) = h ++ pre
        ∧ fst (awstasks.LaunchTemplate.RenderTerraform env a e changes h) ≠ Returns None)
       ∨ ∃ tf,
           awstasks.LaunchTemplate.RenderTerraform env a e changes h
           = (Returns (awstasks.LaunchTemplate.RenderResource_resp env (h ++ pre)
                         "aws_launch_template"
                         (fi.ValueOf (awstasks.LaunchTemplate.Name e)) tf),
              h ++ pre
                ++ [awstasks.LaunchTemplate.RenderResource "aws_launch_template"
                      (fi.ValueOf (awstasks.LaunchTemplate.Name e)) tf])).
Proof.
  revert h.
  change (rendersLast env e (awstasks.LaunchTemplate.RenderTerraform env a e changes)).
  unfold awstasks.LaunchTemplate.RenderTerraform, awstasks.LaunchTemplate.resolveImage,
    awstasks.LaunchTemplate.renderWith, awstasks.ResourceAsBytes.
  apply rendersLast_bind; [repeat emits_step; done|].
  intros [image|err]; [|apply rendersLast_error]. cbn zeta.
  apply rendersLast_bind; [repeat emits_step; done|].
  intros [userData|err]; [|apply rendersLast_error].
  apply rendersLast_bind; [by apply emits_emit|].
  intros [root|err]; [|apply rendersLast_error].
  apply rendersLast_bind;
    [eapply yields_emits, appendEBSDevices_yields, SortedKeys_lookup|].
  intros mappings.
  destruct (awstasks.LaunchTemplate.buildAdditionalDevices env _) as [additionals|err];
    [|apply rendersLast_error].
  apply rendersLast_bind;
    [eapply yields_emits, appendEBSDevices_yields, SortedKeys_lookup|].
  intros mappings'.
  apply rendersLast_bind; [by apply emits_emit|].
  intros [ephemeral|err]; [|apply rendersLast_error].
  apply rendersLast_bind;
    [eapply yields_emits, appendEphemeralDevices_yields, SortedKeys_lookup|].
  intros mappings''. apply rendersLast_render.
Qed.

(** What [RenderTerraform] writes into the block.  The block is that of
    type aws_launch_template under the name of the task.  The image is not
    the one the task names, but the identifier of the image that the cloud
    resolved this name to, and nil when the task names no image.  When the
    task has tags, they are the tags of the template and of two tag
    specifications, for the instance and for the volume, in this order;
    when it has none, the template has no tag specification.  A task
    without user data gives a block without user data. *)
Theorem RenderTerraform_rendered_fields env a e changes h resourceType resourceName tf :
  awstasks.LaunchTemplate.RenderResource resourceType resourceName tf
    ∈ trace (awstasks.LaunchTemplate.RenderTerraform env a e changes) h →
  resourceType = "aws_launch_template"
  ∧ resourceName = fi.ValueOf (awstasks.LaunchTemplate.Name e)
  ∧ match awstasks.LaunchTemplate.ImageID e with
    | None => awstasks.tf_ImageID tf = None
    | Some name =>
        ∃ h' image,
          awstasks.LaunchTemplate.ResolveImage_resp env h' name = Ok image
          ∧ awstasks.tf_ImageID tf = awstasks.ec2types.ImageId image
    end
  ∧ awstasks.tf_Tags tf = awstasks.LaunchTemplate.Tags e
  ∧ elems (awstasks.tf_TagSpecifications tf)
    = tagSpecifications (awstasks.LaunchTemplate.Tags e)
  ∧ (awstasks.LaunchTemplate.UserData e = None → awstasks.tf_UserData tf = None).
Proof.
  intros Hin.
  pose (known := λ image : option string,
          match awstasks.LaunchTemplate.ImageID e with
          | None => image = None
          | Some name =>
              ∃ h' im,
                awstasks.LaunchTemplate.ResolveImage_resp env h' name = Ok im
                ∧ image = awstasks.ec2types.ImageId im
          end).
  pose (P := λ c, ∀ rt rn tf',
               c = awstasks.LaunchTemplate.RenderResource rt rn tf' →
               rt = "aws_launch_template"
               ∧ rn = fi.ValueOf (awstasks.LaunchTemplate.Name e)
               ∧ known (awstasks.tf_ImageID tf')
               ∧ awstasks.tf_Tags tf' = awstasks.LaunchTemplate.Tags e
               ∧ elems (awstasks.tf_TagSpecifications tf')
                 = tagSpecifications (awstasks.LaunchTemplate.Tags e)
               ∧ (awstasks.LaunchTemplate.UserData e = None →
                  awstasks.tf_UserData tf' = None)).
  assert (Hfields : ∀ image userData mappings,
            known image →
            (awstasks.LaunchTemplate.UserData e = None → userData = None) →
            P (awstasks.LaunchTemplate.RenderResource "aws_launch_template"
                 (fi.ValueOf (awstasks.LaunchTemplate.Name e))
                 (awstasks.LaunchTemplate.set_Tags e
                    (awstasks.LaunchTemplate.set_BlockDeviceMappings mappings
                       (awstasks.LaunchTemplate.set_UserData userData
                          (awstasks.LaunchTemplate.baseTemplate e image)))))).
  { intros image userData mappings Himage HuserData rt rn tf' [= <- <- <-].
    unfold awstasks.LaunchTemplate.set_Tags, tagSpecifications.
    destruct (awstasks.LaunchTemplate.Tags e); cbn; split_and!; done. }
  assert (Hrender : ∀ image, known image →
            emits P (awstasks.LaunchTemplate.renderWith env e image)).
  { intros image Himage.
    unfold awstasks.LaunchTemplate.renderWith, awstasks.ResourceAsBytes.
    destruct (awstasks.LaunchTemplate.UserData e) as [resource|] eqn:HuserData.
    - repeat emits_step; try (intros rt rn tf' [=]; fail).
      all: apply Hfields; done.
    - eapply emits_bind_yields; [intros ?; reflexivity|].
      repeat emits_step; try (intros rt rn tf' [=]; fail).
      apply Hfields; [done|]. intros _.
      match goal with H : Ok _ = Ok _ |- _ => by injection H as <- end. }
  assert (HP : emits P (awstasks.LaunchTemplate.RenderTerraform env a e changes)).
  { unfold awstasks.LaunchTemplate.RenderTerraform, awstasks.LaunchTemplate.resolveImage.
    destruct (awstasks.LaunchTemplate.ImageID e) as [name|] eqn:Himage.
    - intros h0. run_m.
      destruct (awstasks.LaunchTemplate.ResolveImage_resp env h0 name) as [im|err]
        eqn:Hresolve; cbn.
      + destruct (Hrender (awstasks.ec2types.ImageId im)) with
          (h := h0 ++ [awstasks.LaunchTemplate.ResolveImage name])
          as (evs & Hsnd & Hevs).
        { unfold known. eauto. }
        exists (awstasks.LaunchTemplate.ResolveImage name :: evs). split.
        * rewrite Hsnd. by rewrite <- app_assoc.
        * constructor; [|done]. intros rt rn tf' [=].
      + exists [awstasks.LaunchTemplate.ResolveImage name]. split; [done|].
        constructor; [|done]. intros rt rn tf' [=].
    - eapply emits_bind_yields; [intros ?; reflexivity|].
      apply Hrender. by unfold known. }
  apply (emits_trace P _ h) in HP.
  rewrite Forall_forall in HP. exact (HP _ Hin _ _ _ eq_refl).
Qed.

Lemma RenderTerraform_rendered_fields_witness :
  ∃ tf,
    awstasks.LaunchTemplate.RenderResource "aws_launch_template" "nodes" tf
      ∈ trace (awstasks.LaunchTemplate.RenderTerraform (samples_aws "ami-0abc") None
                 samples_template samples_template) []
    ∧ awstasks.tf_ImageID tf = Some "ami-0abc"
    ∧ elems (awstasks.tf_TagSpecifications tf)
      = tagSpecifications (awstasks.LaunchTemplate.Tags samples_template).
Proof.
  assert (Htf : ∃ tf,
            awstasks.LaunchTemplate.RenderResource "aws_launch_template" "nodes" tf
              ∈ trace (awstasks.LaunchTemplate.RenderTerraform (samples_aws "ami-0abc")
                         None samples_template samples_template) []
            ∧ awstasks.tf_ImageID tf = Some "ami-0abc").
  { eexists. split.
    - vm_compute. do 3 apply list_elem_of_further. apply list_elem_of_here.
    - reflexivity. }
  destruct Htf as (tf & Hin & Himage). exists tf. split_and!; [exact Hin|exact Himage|].
  exact (proj1 (proj2 (proj2 (proj2 (proj2
           (RenderTerraform_rendered_fields (samples_aws "ami-0abc") None
              samples_template samples_template [] _ _ _ Hin)))))).
Defined.

(** ** Commands sent to a node *)

(** Turns the tests on integers among the hypotheses into (in)equalities. *)
Ltac zbool :=
  repeat match goal with
    | H : _ && _ = true |- _ => apply andb_true_iff in H as [? ?]
    | H : _ || _ = false |- _ => apply orb_false_iff in H as [? ?]
    | H : _ || _ = true |- _ => apply orb_true_iff in H as [?|?]
    | H : _ && _ = false |- _ => apply andb_false_iff in H as [?|?]
    | H : negb _ = true |- _ => apply negb_true_iff in H
    | H : negb _ = false |- _ => apply negb_false_iff in H
    | H : (_ <=? _)%Z = true |- _ => apply Z.leb_le in H
    | H : (_ <=? _)%Z = false |- _ => apply Z.leb_gt in H
    | H : (_ <? _)%Z = true |- _ => apply Z.ltb_lt in H
    | H : (_ <? _)%Z = false |- _ => apply Z.ltb_ge in H
    | H : (_ =? _)%Z = true |- _ => apply Z.eqb_eq in H
    | H : (_ =? _)%Z = false |- _ => apply Z.eqb_neq in H
    end.

Lemma utf8_EncodeRune_no_quote c :
  c ≠ 39%Z → Forall (λ b, b ≠ 39%Z) (dump.utf8_EncodeRune c).
Proof.
  intros Hc. unfold dump.utf8_EncodeRune.
  repeat case_match; zbool; repeat constructor; try done;
    Z.div_mod_to_equations; lia.
Qed.

Lemma sh_words_literal bs rest w :
  Forall (λ b, b ≠ 39%Z) bs →
  sh_words (bs ++ rest) true (Some w) = sh_words rest true (Some (w ++ bs)).
Proof.
  intros Hbs. revert w. induction Hbs as [|b bs Hb _ IH]; intros w.
  - by rewrite app_nil_r.
  - cbn [app sh_words default]. rewrite (proj2 (Z.eqb_neq _ _) Hb), IH.
    by rewrite <- app_assoc.
Qed.

Lemma quoteShell_loop rs q :
  fold_left
    (λ q c,
       let q :=
         if (c =? dump.rune_quote)%Z || (c =? dump.rune_backslash)%Z
         then dump.WriteString q (dump.runes "'\") else q in
       let q := dump.WriteRune q c in
       if (c =? dump.rune_quote)%Z || (c =? dump.rune_backslash)%Z
       then dump.WriteRune q dump.rune_quote else q)
    rs q
  = q ++ (rs ≫= λ c,
            if (c =? 39)%Z || (c =? 92)%Z
            then [39%Z; 92%Z] ++ dump.utf8_EncodeRune c ++ [39%Z]
            else dump.utf8_EncodeRune c).
Proof.
  unfold dump.WriteString, dump.WriteRune, dump.rune_quote, dump.rune_backslash.
  change (dump.runes "'\") with [39%Z; 92%Z].
  change (dump.utf8_EncodeRune 39%Z) with [39%Z].
  revert q. induction rs as [|c rs IH]; intros q; cbn [fold_left].
  - cbn. by rewrite app_nil_r.
  - rewrite IH. cbn [mbind list_bind]. cbn zeta.
    destruct ((c =? 39)%Z || (c =? 92)%Z); by rewrite <- ?app_assoc.
Qed.

Lemma sh_words_quoted rs rest w :
  sh_words
    ((rs ≫= λ c,
        if (c =? 39)%Z || (c =? 92)%Z
        then [39%Z; 92%Z] ++ dump.utf8_EncodeRune c ++ [39%Z]
        else dump.utf8_EncodeRune c)
     ++ 39%Z :: rest) true (Some w)
  = sh_words rest false (Some (w ++ (rs ≫= dump.utf8_EncodeRune))).
Proof.
  revert w. induction rs as [|c rs IH]; intros w.
  - cbn. by rewrite app_nil_r.
  - cbn [mbind list_bind].
    replace (w ++ dump.utf8_EncodeRune c ++ (rs ≫= dump.utf8_EncodeRune))
      with ((w ++ dump.utf8_EncodeRune c) ++ (rs ≫= dump.utf8_EncodeRune))
      by (by rewrite <- app_assoc).
    rewrite <- IH.
    destruct (Z.eqb_spec c 39) as [->|Hquote]; [reflexivity|].
    destruct (Z.eqb_spec c 92) as [->|Hbackslash]; [reflexivity|].
    cbn [orb]. rewrite <- app_assoc.
    by rewrite sh_words_literal by (by apply utf8_EncodeRune_no_quote).
Qed.

Lemma sh_words_quoteShell s rest :
  sh_words (dump.quoteShell s ++ rest) false None
  = sh_words rest false (Some (reencoded s)).
Proof.
  unfold dump.quoteShell. rewrite quoteShell_loop.
  unfold dump.WriteString. change (dump.runes "'") with [39%Z].
  cbn [app sh_words Z.eqb Pos.eqb default].
  rewrite <- app_assoc. cbn [app]. by rewrite sh_words_quoted.
Qed.

Lemma utf8_DecodeRune_valid s r size :
  s ≠ [] →
  dump.utf8_DecodeRune s = (r, size) →
  (r =? dump.utf8_RuneError)%Z && (size =? 1) = false →
  dump.utf8_EncodeRune r = take size s ∧ 1 ≤ size.
Proof.
  intros Hs Hdecode Hvalid. unfold dump.utf8_DecodeRune, dump.utf8_RuneError in *.
  destruct s as [|p0 s]; [done|].
  repeat case_match; simplify_eq; try done; zbool; try lia.
  all: split; [|lia].
  all: unfold dump.utf8_EncodeRune; repeat case_match; zbool;
    try (exfalso; lia); cbn [take]; repeat f_equal;
    Z.div_mod_to_equations; lia.
Qed.

Lemma validFrom_reencoded fuel s :
  length s ≤ fuel → validFrom fuel s = true →
  dump.rangeString fuel s ≫= dump.utf8_EncodeRune = s.
Proof.
  revert s. induction fuel as [|fuel IH]; intros s Hlen Hvalid.
  - destruct s; [done|cbn in Hlen; lia].
  - destruct s as [|p0 s]; [done|]. cbn [dump.rangeString validFrom] in *.
    destruct (dump.utf8_DecodeRune (p0 :: s)) as [r size] eqn:Hdecode.
    apply andb_true_iff in Hvalid as [Hstep Hrest]. apply negb_true_iff in Hstep.
    destruct (utf8_DecodeRune_valid (p0 :: s) r size ltac:(done) Hdecode Hstep)
      as [Hencode Hsize].
    cbn [mbind list_bind]. rewrite Hencode, IH; [apply take_drop| |exact Hrest].
    rewrite length_drop. cbn [length] in *. lia.
Qed.

(** What the shell reads of a string that [quoteShell] has quoted: one
    word, and this word is the string that the runes of the argument
    encode.  For an argument that is valid UTF-8 the word is the argument
    itself, whatever quotes, backslashes, blanks and other special
    characters it has, and two such arguments with the same quoting are
    equal.  A byte that begins no valid encoding does not come through: it
    is read as [utf8.RuneError], so that all strings of one such byte have
    the same quoting. *)
Theorem quoteShell_round_trip s :
  sh_words (dump.quoteShell s) false None = Some [reencoded s]
  ∧ (utf8_ValidString s = true → reencoded s = s)
  ∧ (∀ s', utf8_ValidString s = true → utf8_ValidString s' = true →
           dump.quoteShell s = dump.quoteShell s' → s = s')
  ∧ (∀ b b', (128 ≤ b)%Z → (128 ≤ b')%Z → dump.quoteShell [b] = dump.quoteShell [b']).
Proof.
  assert (Hword : ∀ s, sh_words (dump.quoteShell s) false None = Some [reencoded s]).
  { clear s. intros s. rewrite <- (app_nil_r (dump.quoteShell s)).
    by rewrite sh_words_quoteShell. }
  assert (Hvalid : ∀ s, utf8_ValidString s = true → reencoded s = s).
  { clear s. intros s Hs. by apply validFrom_reencoded. }
  split_and!; [apply Hword | apply Hvalid | |].
  - intros s' Hs Hs' Heq. pose proof (Hword s) as H1.
    rewrite Heq, Hword, (Hvalid s Hs), (Hvalid s' Hs') in H1. congruence.
  - intros b b' Hb Hb'.
    assert (Hbyte : ∀ b, (128 ≤ b)%Z → dump.utf8_DecodeRune [b] = (dump.utf8_RuneError, 1)).
    { intros c Hc. unfold dump.utf8_DecodeRune. repeat case_match; zbool; done || lia. }
    unfold dump.quoteShell. cbn [length dump.rangeString].
    by rewrite (Hbyte b Hb), (Hbyte b' Hb').
Qed.

Lemma quoteShell_round_trip_witness :
  sh_words (dump.quoteShell [99; 97; 102; 195; 169; 32; 105; 116; 39; 115; 92]%Z) false None
  = Some [[99; 97; 102; 195; 169; 32; 105; 116; 39; 115; 92]%Z].
Proof.
  rewrite (proj1 (quoteShell_round_trip
                    [99; 97; 102; 195; 169; 32; 105; 116; 39; 115; 92]%Z)).
  rewrite (proj1 (proj2 (quoteShell_round_trip
                           [99; 97; 102; 195; 169; 32; 105; 116; 39; 115; 92]%Z))
             eq_refl).
  reflexivity.
Defined.

(** The command that [ExecPiped] sends to the bastion for a host behind it
    is read by the shell of the bastion as a call of ssh with four
    arguments: the option, its value, and the strings that the runes of
    the host and of the command encode.  A host and a command that are
    valid UTF-8 arrive exactly as [ExecPiped] was given them; in a command
    that is not, each byte that begins no valid encoding arrives as the
    encoding of [utf8.RuneError]. *)
Theorem ExecPiped_command_words forwardTo cmd :
  forwardTo ≠ [] →
  sh_words (dump.ExecPiped_command forwardTo cmd) false None
  = Some [dump.runes "ssh"; dump.runes "-o"; dump.runes "StrictHostKeyChecking no";
          reencoded forwardTo; reencoded cmd]
  ∧ (utf8_ValidString forwardTo = true → utf8_ValidString cmd = true →
     sh_words (dump.ExecPiped_command forwardTo cmd) false None
     = Some [dump.runes "ssh"; dump.runes "-o"; dump.runes "StrictHostKeyChecking no";
             forwardTo; cmd]).
Proof.
  intros Hforward.
  assert (Hwords :
            sh_words (dump.ExecPiped_command forwardTo cmd) false None
            = Some [dump.runes "ssh"; dump.runes "-o";
                    dump.runes "StrictHostKeyChecking no";
                    reencoded forwardTo; reencoded cmd]).
  { unfold dump.ExecPiped_command. rewrite decide_True by done.
    let prefix := eval vm_compute in (dump.runes "ssh -o 'StrictHostKeyChecking no' ") in
    change (dump.runes "ssh -o 'StrictHostKeyChecking no' ") with prefix.
    change (dump.runes " ") with [32%Z].
    cbn [app sh_words Z.eqb Pos.eqb default sh_blank sh_plain Z.leb Z.compare
         Pos.compare Pos.compare_cont orb andb].
    rewrite sh_words_quoteShell.
    cbn [app sh_words Z.eqb Pos.eqb default sh_blank sh_plain Z.leb Z.compare
         Pos.compare Pos.compare_cont orb andb].
    rewrite <- (app_nil_r (dump.quoteShell cmd)), sh_words_quoteShell.
    reflexivity. }
  split; [exact Hwords|]. intros HforwardTo Hcmd. rewrite Hwords.
  unfold reencoded.
  by rewrite (validFrom_reencoded _ forwardTo (le_n _) HforwardTo),
    (validFrom_reencoded _ cmd (le_n _) Hcmd).
Qed.

Lemma ExecPiped_command_words_witness :
  sh_words
    (dump.ExecPiped_command (dump.runes "10.0.0.11")
       (dump.runes "sudo cat '/var/log/it'\''s.log'")) false None
  = Some [dump.runes "ssh"; dump.runes "-o"; dump.runes "StrictHostKeyChecking no";
          dump.runes "10.0.0.11"; dump.runes "sudo cat '/var/log/it'\''s.log'"].
Proof.
  apply (ExecPiped_command_words (dump.runes "10.0.0.11")
           (dump.runes "sudo cat '/var/log/it'\''s.log'")); [discriminate| |];
    reflexivity.
Defined.

Lemma runes_app s1 s2 : dump.runes (s1 +:+ s2) = dump.runes s1 ++ dump.runes s2.
Proof.
  unfold dump.runes. induction s1 as [|c s1 IH]; [done|].
  change (String c s1 +:+ s2) with (String c (s1 +:+ s2)).
  cbn. f_equal. exact IH.
Qed.

Lemma runes_quote c :
  Z.of_N (Ascii.N_of_ascii c) = 39%Z → Ascii.eqb c (Ascii.ascii_of_nat 39) = true.
Proof.
  intros Hc. apply Ascii.eqb_eq. rewrite <- (Ascii.ascii_N_embedding c).
  replace (Ascii.N_of_ascii c) with 39%N by lia. reflexivity.
Qed.

Lemma sh_words_replaced f rest w :
  sh_words
    (dump.runes (dump.strings_ReplaceAll f (Ascii.ascii_of_nat 39) "'\''") ++ 39%Z :: rest)
    true (Some w)
  = sh_words rest false (Some (w ++ dump.runes f)).
Proof.
  revert w. induction f as [|c f IH]; intros w.
  - cbn. by rewrite app_nil_r.
  - cbn [dump.strings_ReplaceAll].
    replace (w ++ dump.runes (String c f))
      with ((w ++ [Z.of_N (Ascii.N_of_ascii c)]) ++ dump.runes f)
      by (by rewrite <- app_assoc).
    rewrite <- IH.
    destruct (Ascii.eqb c (Ascii.ascii_of_nat 39)) eqn:Hc.
    + apply Ascii.eqb_eq in Hc as ->. rewrite runes_app. reflexivity.
    + change (dump.runes (String c ?s)) with (Z.of_N (Ascii.N_of_ascii c) :: dump.runes s).
      cbn [app sh_words default].
      destruct (Z.eqb_spec (Z.of_N (Ascii.N_of_ascii c)) 39) as [Hquote|_]; [|done].
      apply runes_quote in Hquote. congruence.
Qed.

(** The command by which [dump] copies a file of the node is read by the
    shell as sudo, cat and the name of the file, whatever characters the
    name has: a file name found on the node cannot make the command run
    anything else. *)
Theorem catCommand_words f :
  sh_words (dump.runes (dump.catCommand f)) false None
  = Some [dump.runes "sudo"; dump.runes "cat"; dump.runes f].
Proof.
  unfold dump.catCommand. rewrite !runes_app.
  let prefix := eval vm_compute in (dump.runes "sudo cat '") in
  change (dump.runes "sudo cat '") with prefix.
  change (dump.runes "'") with [39%Z].
  cbn [app sh_words Z.eqb Pos.eqb default sh_blank sh_plain Z.leb Z.compare
       Pos.compare Pos.compare_cont orb andb].
  rewrite sh_words_replaced. reflexivity.
Qed.

(** ** Listing the files of a node *)

Lemma bytes_Split_cons s sep : ∃ b l, dump.bytes_Split s sep = b :: l.
Proof.
  induction s as [|c s (b & l & IH)]; cbn; [eauto|].
  destruct (Ascii.eqb c sep); [eauto|]. rewrite IH. eauto.
Qed.

Lemma bytes_Split_path path out :
  Ascii.zero ∉ String.list_ascii_of_string path →
  dump.bytes_Split (path +:+ String Ascii.zero out) Ascii.zero
  = path :: dump.bytes_Split out Ascii.zero.
Proof.
  induction path as [|c path IH]; intros Hzero.
  - reflexivity.
  - change (String c path +:+ String Ascii.zero out)
      with (String c (path +:+ String Ascii.zero out)).
    cbn in Hzero. apply not_elem_of_cons in Hzero as [Hc Hzero].
    cbn [dump.bytes_Split].
    destruct (Ascii.eqb_spec c Ascii.zero) as [->|_]; [done|].
    by rewrite IH.
Qed.

Lemma bytes_Split_no_sep s sep :
  Forall (λ b, sep ∉ String.list_ascii_of_string b) (dump.bytes_Split s sep).
Proof.
  induction s as [|c s IH]; cbn.
  - repeat constructor. cbn. apply not_elem_of_nil.
  - destruct (Ascii.eqb_spec c sep) as [->|Hc].
    + constructor; [cbn; apply not_elem_of_nil | exact IH].
    + destruct (dump.bytes_Split s sep) as [|b l]; cbn.
      * repeat constructor. cbn. rewrite not_elem_of_cons. split; [done|].
        apply not_elem_of_nil.
      * inversion IH as [|?? Hb Hl]; subst. constructor; [|done].
        cbn. rewrite not_elem_of_cons. split; done.
Qed.

Lemma findFiles_loop (l : list string) (paths : list string) :
  fold_left (λ paths b, if String.length b =? 0 then paths else append paths b)
    l (Some paths)
  = Some (paths ++ filter (λ b, b ≠ EmptyString) l).
Proof.
  revert paths. induction l as [|b l IH]; intros paths; cbn [fold_left].
  - by rewrite app_nil_r.
  - destruct b as [|c b]; cbn [String.length Nat.eqb].
    + rewrite IH, filter_cons_False by (intros H; by apply H). done.
    + change (append (Some paths) (String c b)) with (Some (paths ++ [String c b])).
      rewrite IH, filter_cons_True by done.
      by rewrite <- app_assoc.
Qed.

(** [findFiles] reads back what find prints: when the command succeeds and
    prints paths, each ended by a zero byte, the result is the list of
    these paths, in their order.  Whatever the command prints, the result
    of a successful run is a slice that is not nil, of strings that are not
    empty and have no zero byte; the standard error of the command and the
    output of a failed run are dropped. *)
Theorem findFiles_paths client dir h :
  let command := "sudo find " +:+ dir +:+ " -print0" in
  (∀ paths,
     Forall isPath paths →
     dump.ExecPiped_resp client h command = (print0 paths, None) →
     dump.findFiles client dir h
     = (Returns (Ok (Some paths)), h ++ [dump.ExecPiped command]))
  ∧ (∀ stdout,
       dump.ExecPiped_resp client h command = (stdout, None) →
       ∃ paths,
         dump.findFiles client dir h
         = (Returns (Ok (Some paths)), h ++ [dump.ExecPiped command])
         ∧ Forall isPath paths)
  ∧ (∀ stdout err,
       dump.ExecPiped_resp client h command = (stdout, Some err) →
       dump.findFiles client dir h
       = (Returns (Err (Wrapf "error listing %q: %v" [FmtString dir] err)),
          h ++ [dump.ExecPiped command])).
Proof.
  intros command. unfold dump.findFiles. fold command. run_m. split_and!.
  - intros paths Hpaths ->. cbn. rewrite findFiles_loop. cbn [app].
    assert (Hsplit : filter (λ b, b ≠ EmptyString)
                       (dump.bytes_Split (print0 paths) Ascii.zero) = paths).
    { induction Hpaths as [|path paths [Hne Hzero] _ IH]; [reflexivity|].
      cbn [print0 foldr]. rewrite bytes_Split_path by done.
      rewrite filter_cons_True by done. f_equal. exact IH. }
    by rewrite Hsplit.
  - intros stdout ->. cbn. rewrite findFiles_loop. eexists. split; [reflexivity|].
    cbn [app]. pose proof (bytes_Split_no_sep stdout Ascii.zero) as Hsplit.
    induction Hsplit as [|b l Hb _ IH]; [constructor|].
    rewrite filter_cons. destruct (decide (b ≠ EmptyString)); [|exact IH].
    constructor; [by split | exact IH].
  - intros stdout err ->. reflexivity.
Qed.

Lemma findFiles_paths_witness :
  dump.findFiles samples_client "/var/log" []
  = (Returns (Ok (Some ["/var/log/kubelet.log"; "/var/log/it's.log"])),
     [dump.ExecPiped "sudo find /var/log -print0"]).
Proof.
  apply (proj1 (findFiles_paths samples_client "/var/log" [])
           ["/var/log/kubelet.log"; "/var/log/it's.log"]).
  - repeat constructor; try discriminate; cbn; rewrite !not_elem_of_cons;
      split_and!; try discriminate; apply not_elem_of_nil.
  - reflexivity.
Defined.

(** ** The Azure disk, written and found again *)

(** When the cloud lists the disk as [RenderAzure] wrote it, [Find] gives
    back the task that was applied: the same name, size, tags, type and
    zones, with a resource group of the same name.  A second run over an
    unchanged task has nothing to change. *)
Theorem Disk_RenderAzure_then_Find cloud a e changes h h1 name rg rgName l :
  azuretasks.Disk.Name e = Some name →
  azuretasks.Disk.ResourceGroup e = Some rg →
  azuretasks.ResourceGroup_Name rg = Some rgName →
  azuretasks.Disk.RenderAzure cloud a e changes h = (Returns None, h1) →
  azuretasks.Disk_List_resp cloud h1 rgName = Ok l →
  Forall (λ v, is_Some (azuretasks.compute.Name v)) l →
  List.find (Disk_named name) l = Some (Disk_stored cloud e) →
  h1 = h ++ [azuretasks.Disk_CreateOrUpdate rgName name (azuretasks.Disk.diskOf cloud e)]
  ∧ azuretasks.Disk.Find cloud e h1
    = (Returns (Ok (Some
         {| azuretasks.Disk.Name := azuretasks.Disk.Name e;
            azuretasks.Disk.Lifecycle := azuretasks.Disk.Lifecycle e;
            azuretasks.Disk.ResourceGroup :=
              Some {| azuretasks.ResourceGroup_Name := Some rgName |};
            azuretasks.Disk.SizeGB := azuretasks.Disk.SizeGB e;
            azuretasks.Disk.Tags := azuretasks.Disk.Tags e;
            azuretasks.Disk.VolumeType := azuretasks.Disk.VolumeType e;
            azuretasks.Disk.Zones := azuretasks.Disk.Zones e |})),
       h1 ++ [azuretasks.Disk_List rgName]).
Proof.
  intros Hname Hrg HrgName Hrender Hlist Hall Hfound.
  assert (Hh1 : h1 = h ++ [azuretasks.Disk_CreateOrUpdate rgName name
                               (azuretasks.Disk.diskOf cloud e)]).
  { unfold azuretasks.Disk.RenderAzure in Hrender. rewrite Hname, Hrg in Hrender.
    run_m_in Hrender. rewrite HrgName in Hrender. cbn in Hrender. congruence. }
  split; [exact Hh1|].
  rewrite (Disk_Find_listing cloud e name rg rgName l h1 Hname Hrg HrgName Hlist Hall).
  fold (Disk_named name). rewrite Hfound. cbn. by rewrite Hname.
Qed.

Lemma Disk_RenderAzure_then_Find_witness :
  ∃ actual,
    azuretasks.Disk.Find (samples_azure (Ok [Disk_stored (samples_azure (Ok [])) samples.disk]))
      samples.disk
      [azuretasks.Disk_CreateOrUpdate "rg" "etcd-a"
         (azuretasks.Disk.diskOf (samples_azure (Ok [])) samples.disk)]
    = (Returns (Ok (Some actual)),
       [azuretasks.Disk_CreateOrUpdate "rg" "etcd-a"
          (azuretasks.Disk.diskOf (samples_azure (Ok [])) samples.disk);
        azuretasks.Disk_List "rg"])
    ∧ azuretasks.Disk.SizeGB actual = azuretasks.Disk.SizeGB samples.disk
    ∧ azuretasks.Disk.VolumeType actual = azuretasks.Disk.VolumeType samples.disk.
Proof.
  eexists. split.
  - apply (Disk_RenderAzure_then_Find
             (samples_azure (Ok [Disk_stored (samples_azure (Ok [])) samples.disk]))
             None samples.disk samples.disk_nochange [] _ "etcd-a" samples.rg "rg"
             [Disk_stored (samples_azure (Ok [])) samples.disk]
             eq_refl eq_refl eq_refl eq_refl eq_refl).
    + repeat constructor. eexists. reflexivity.
    + reflexivity.
  - split; reflexivity.
Defined.

(** ** Defaults of the cluster autoscaler *)

Lemma orDefault_is_Some {A} (field : option A) value :
  is_Some (components.orDefault field value).
Proof. destruct field; cbn; eauto. Qed.

Lemma orDefault_fills {A} (field : option A) value :
  fills field (components.orDefault field value).
Proof. split; [apply orDefault_is_Some|]. by intros [x ->]. Qed.

Lemma orDefault_set {A} (field : option A) value value' :
  components.orDefault (components.orDefault field value) value'
  = components.orDefault field value.
Proof. by destruct field. Qed.

(** A configuration that [BuildOptions] has completed is left as it is by
    any later call, whatever the version of Kubernetes then is and whatever
    it parses to: the defaults are chosen once, and the image chosen for one
    version stays when the version changes. *)
Theorem BuildOptions_stable parse parse' clusterSpec clusterSpec' :
  components.ClusterAutoscaler clusterSpec'
  = components.ClusterAutoscaler (snd (components.BuildOptions parse clusterSpec)) →
  components.BuildOptions parse' clusterSpec' = (None, clusterSpec').
Proof.
  intros Hbuilt. destruct clusterSpec' as [cas' version'].
  cbn in Hbuilt. subst cas'.
  assert (Himage : ∀ (image : option string) value value',
            (if (if image is None then fi.PtrTo value else image) is None
             then fi.PtrTo value' else if image is None then fi.PtrTo value else image)
            = if image is None then fi.PtrTo value else image)
    by (by intros [image|]).
  assert (Hstring : ∀ (s value : string),
            (if String.eqb (if String.eqb s "" then value else s) ""
             then value else if String.eqb s "" then value else s)
            = if String.eqb s "" then value else s).
  { intros s value. destruct (String.eqb_spec s "") as [->|Hs].
    - by destruct (String.eqb value "").
    - by rewrite (proj2 (String.eqb_neq _ _) Hs). }
  unfold components.BuildOptions.
  destruct clusterSpec as [[cas|] version]; cbn; [|reflexivity].
  destruct (components.Enabled cas) as [[|]|] eqn:Henabled; cbn;
    rewrite ?Henabled; cbn; try reflexivity.
  rewrite !orDefault_set, Himage, !Hstring.
  destruct (String.eqb _ "priority"); reflexivity.
Qed.

Lemma BuildOptions_stable_witness :
  components.BuildOptions samples_ParseKubernetesVersion
    {| components.ClusterAutoscaler :=
         components.ClusterAutoscaler
           (snd (components.BuildOptions samples_ParseKubernetesVersion
                   (samples_clusterSpec "1.29.3")));
       components.KubernetesVersion := "1.31.0" |}
  = (None,
     {| components.ClusterAutoscaler :=
          components.ClusterAutoscaler
            (snd (components.BuildOptions samples_ParseKubernetesVersion
                    (samples_clusterSpec "1.29.3")));
        components.KubernetesVersion := "1.31.0" |}).
Proof.
  apply (BuildOptions_stable samples_ParseKubernetesVersion samples_ParseKubernetesVersion
           (samples_clusterSpec "1.29.3")).
  reflexivity.
Defined.

(** [BuildOptions] only fills in.  For an autoscaler that is enabled it
    returns no error, leaves the version and the switch as they are, sets
    every field it knows a default for, and keeps every value that was set
    before, with one exception: when the expander is "priority", the
    configuration of the priority expander is requested, also when the
    cluster asked for it not to be. *)
Theorem BuildOptions_fills parse clusterSpec cas :
  components.ClusterAutoscaler clusterSpec = Some cas →
  fi.ValueOf (components.Enabled cas) = true →
  ∃ cas',
    components.BuildOptions parse clusterSpec
    = (None,
       {| components.ClusterAutoscaler := Some cas';
          components.KubernetesVersion := components.KubernetesVersion clusterSpec |})
    ∧ components.Enabled cas' = components.Enabled cas
    ∧ fills (components.Image cas) (components.Image cas')
    ∧ fillsString (components.Expander cas) (components.Expander cas')
    ∧ fills (components.IgnoreDaemonSetsUtilization cas)
        (components.IgnoreDaemonSetsUtilization cas')
    ∧ fills (components.ScaleDownUtilizationThreshold cas)
        (components.ScaleDownUtilizationThreshold cas')
    ∧ fills (components.SkipNodesWithCustomControllerPods cas)
        (components.SkipNodesWithCustomControllerPods cas')
    ∧ fills (components.SkipNodesWithLocalStorage cas)
        (components.SkipNodesWithLocalStorage cas')
    ∧ fills (components.SkipNodesWithSystemPods cas)
        (components.SkipNodesWithSystemPods cas')
    ∧ fills (components.BalanceSimilarNodeGroups cas)
        (components.BalanceSimilarNodeGroups cas')
    ∧ fills (components.EmitPerNodegroupMetrics cas)
        (components.EmitPerNodegroupMetrics cas')
    ∧ fills (components.AWSUseStaticInstanceList cas)
        (components.AWSUseStaticInstanceList cas')
    ∧ fills (components.NewPodScaleUpDelay cas) (components.NewPodScaleUpDelay cas')
    ∧ fills (components.ScaleDownDelayAfterAdd cas)
        (components.ScaleDownDelayAfterAdd cas')
    ∧ fills (components.ScaleDownUnneededTime cas)
        (components.ScaleDownUnneededTime cas')
    ∧ fills (components.ScaleDownUnreadyTime cas) (components.ScaleDownUnreadyTime cas')
    ∧ fillsString (components.MaxNodeProvisionTime cas)
        (components.MaxNodeProvisionTime cas')
    ∧ components.CreatePriorityExpenderConfig cas'
      = if String.eqb (components.Expander cas') "priority" then Some true
        else components.CreatePriorityExpenderConfig cas.
Proof.
  intros Hcas Henabled. unfold components.BuildOptions. rewrite Hcas, Henabled.
  cbn [negb]. eexists. split; [reflexivity|]. cbn.
  assert (Hstring : ∀ s value : string,
            value ≠ "" → fillsString s (if String.eqb s "" then value else s)).
  { intros s value Hvalue. destruct (String.eqb_spec s "") as [->|Hs]; by split. }
  split_and!; try apply orDefault_fills; try (by apply Hstring); reflexivity.
Qed.

Lemma BuildOptions_fills_witness :
  ∃ cas',
    components.ClusterAutoscaler
      (snd (components.BuildOptions samples_ParseKubernetesVersion
              (samples_clusterSpec "1.29.3"))) = Some cas'
    ∧ components.ScaleDownUtilizationThreshold cas' = Some "0.7"
    ∧ components.CreatePriorityExpenderConfig cas' = Some true.
Proof.
  destruct (BuildOptions_fills samples_ParseKubernetesVersion
              (samples_clusterSpec "1.29.3") samples_autoscaler eq_refl eq_refl)
    as (cas' & Hrun & _ & _ & _ & _ & Hthreshold & _ & _ & _ & _ & _ & _ & _ & _ & _
        & _ & _ & Hpriority).
  exists cas'. rewrite Hrun. split; [reflexivity|]. split.
  - apply Hthreshold. eauto.
  - injection Hrun as <-. reflexivity.
Defined.

(** The image of an autoscaler that names none.  [BuildOptions] never
    fails on the version: when the version of Kubernetes cannot be parsed
    the image is set to the empty string and no error is returned.  Every
    minor version but 27, 28 and 29 gets the image of release 1.30.0, the
    older ones as well as the newer ones. *)
Theorem BuildOptions_image parse clusterSpec cas :
  components.ClusterAutoscaler clusterSpec = Some cas →
  fi.ValueOf (components.Enabled cas) = true →
  components.Image cas = None →
  ∃ cas',
    components.BuildOptions parse clusterSpec
    = (None,
       {| components.ClusterAutoscaler := Some cas';
          components.KubernetesVersion := components.KubernetesVersion clusterSpec |})
    ∧ (∀ err, parse (components.KubernetesVersion clusterSpec) = Err err →
              components.Image cas' = Some "")
    ∧ (∀ v, parse (components.KubernetesVersion clusterSpec) = Ok v →
            (components.Minor v < 27 ∨ 29 < components.Minor v)%Z →
            components.Image cas'
            = Some "registry.k8s.io/autoscaling/cluster-autoscaler:v1.30.0").
Proof.
  intros Hcas Henabled Himage. unfold components.BuildOptions.
  rewrite Hcas, Henabled, Himage. cbn [negb]. eexists. split; [reflexivity|].
  cbn. unfold components.defaultImage. split.
  - intros err ->. reflexivity.
  - intros v -> Hminor.
    destruct (Z.eqb_spec (components.Minor v) 27); [lia|].
    destruct (Z.eqb_spec (components.Minor v) 28); [lia|].
    destruct (Z.eqb_spec (components.Minor v) 29); [lia|].
    by destruct (components.Minor v =? 30)%Z.
Qed.

Lemma BuildOptions_image_witness :
  ∃ cas',
    components.BuildOptions samples_ParseKubernetesVersion (samples_clusterSpec "v1.29")
    = (None,
       {| components.ClusterAutoscaler := Some cas';
          components.KubernetesVersion := "v1.29" |})
    ∧ components.Image cas' = Some "".
Proof.
  destruct (BuildOptions_image samples_ParseKubernetesVersion (samples_clusterSpec "v1.29")
              samples_autoscaler eq_refl eq_refl eq_refl) as (cas' & Hrun & Herr & _).
  exists cas'. split; [exact Hrun|]. by eapply Herr.
Defined.

(** ** The CNI asset *)

(** The location of the CNI asset is overridden only when both variables
    of the environment are set.  With the location set and the hash empty
    (or the other way round), [FindCNIAssets] does what it does without the
    variables: it takes the default location for the architecture and the
    version, and hands it to the asset builder without a hash. *)
Theorem FindCNIAssets_override_needs_both {URL Hash FileAsset}
    (url_Parse : string → result URL) (hashing_FromString : string → result Hash)
    (env : wellknownassets.Env URL Hash FileAsset) arch h :
  wellknownassets.Getenv env wellknownassets.ENV_VAR_CNI_ASSET_URL = ""
  ∨ wellknownassets.Getenv env wellknownassets.ENV_VAR_CNI_ASSET_HASH = "" →
  wellknownassets.FindCNIAssets url_Parse hashing_FromString env arch h
  = wellknownassets.FindCNIAssets url_Parse hashing_FromString
      (withoutVariables env) arch h
  ∧ Forall (λ c, ∃ u, c = wellknownassets.RemapFile u None)
      (trace (wellknownassets.FindCNIAssets url_Parse
                hashing_FromString env arch) h).
Proof.
  intros Hempty.
  assert (Hoverride :
            negb (String.eqb (wellknownassets.Getenv env
                                wellknownassets.ENV_VAR_CNI_ASSET_URL) "")
            && negb (String.eqb (wellknownassets.Getenv env
                                   wellknownassets.ENV_VAR_CNI_ASSET_HASH) "") = false).
  { destruct Hempty as [->| ->]; [done|]. by rewrite andb_false_r. }
  unfold wellknownassets.FindCNIAssets. cbn zeta. rewrite Hoverride.
  split; [reflexivity|].
  unfold trace. destruct (wellknownassets.defaultCNIAssetURL env arch) as [u|err];
    [|cbn; rewrite drop_ge by done; constructor].
  destruct (url_Parse u) as [parsed|err]; [|cbn; rewrite drop_ge by done; constructor].
  run_m.
  destruct (wellknownassets.RemapFile_resp env h parsed None); cbn;
    rewrite drop_app_length; repeat constructor; eauto.
Qed.

Lemma FindCNIAssets_override_needs_both_witness :
  wellknownassets.FindCNIAssets (URL := string) (Hash := string) Ok Ok
    (samples_cni_env "https://example.com/cni.tgz" "") wellknownassets.ArchitectureArm64 []
  = (Returns (Ok wellknownassets.defaultCNIAssetArm64K8s_29),
     [wellknownassets.RemapFile (Hash := string)
        wellknownassets.defaultCNIAssetArm64K8s_29 None]).
Proof.
  rewrite (proj1 (FindCNIAssets_override_needs_both Ok Ok
                    (samples_cni_env "https://example.com/cni.tgz" "")
                    wellknownassets.ArchitectureArm64 [] (or_intror eq_refl))).
  reflexivity.
Defined.

(** When both variables are set, the asset does not depend on the
    architecture nor on the version of Kubernetes: the same location and
    hash are handed to the asset builder for every instance group, also for
    an architecture that is not known.  Without the override an unknown
    architecture is an error, and the asset builder is not called. *)
Theorem FindCNIAssets_override_ignores_arch {URL Hash FileAsset}
    (url_Parse : string → result URL) (hashing_FromString : string → result Hash)
    (env : wellknownassets.Env URL Hash FileAsset) h :
  (wellknownassets.Getenv env wellknownassets.ENV_VAR_CNI_ASSET_URL ≠ "" →
   wellknownassets.Getenv env wellknownassets.ENV_VAR_CNI_ASSET_HASH ≠ "" →
   ∀ arch arch' isGTE,
     wellknownassets.FindCNIAssets url_Parse hashing_FromString env
       arch h
     = wellknownassets.FindCNIAssets url_Parse hashing_FromString
         (withVersion env isGTE) arch' h)
  ∧ (wellknownassets.Getenv env wellknownassets.ENV_VAR_CNI_ASSET_URL = ""
     ∨ wellknownassets.Getenv env wellknownassets.ENV_VAR_CNI_ASSET_HASH = "" →
     ∀ name,
       wellknownassets.FindCNIAssets url_Parse hashing_FromString env
         (wellknownassets.ArchitectureOther name) h
       = (Returns (Err (Errorf "unknown arch for CNI plugin binaries asset: %s"
                          [FmtString name])), h)).
Proof.
  split.
  - intros Hurl Hhash arch arch' isGTE. unfold wellknownassets.FindCNIAssets.
    cbn [withVersion wellknownassets.Getenv wellknownassets.RemapFile_resp]. cbn zeta.
    rewrite (proj2 (String.eqb_neq _ _) Hurl), (proj2 (String.eqb_neq _ _) Hhash).
    reflexivity.
  - intros Hempty name. unfold wellknownassets.FindCNIAssets. cbn zeta.
    destruct Hempty as [->| ->]; rewrite ?andb_false_r; reflexivity.
Qed.

Lemma FindCNIAssets_override_ignores_arch_witness :
  wellknownassets.FindCNIAssets (URL := string) (Hash := string) Ok Ok
    (samples_cni_env "https://example.com/cni.tgz" "sha256:0a1b")
    (wellknownassets.ArchitectureOther "riscv64") []
  = wellknownassets.FindCNIAssets (URL := string) (Hash := string) Ok Ok
      (withVersion (samples_cni_env "https://example.com/cni.tgz" "sha256:0a1b")
         (λ _, true))
      wellknownassets.ArchitectureAmd64 [].
Proof.
  apply (proj1 (FindCNIAssets_override_ignores_arch Ok Ok
                  (samples_cni_env "https://example.com/cni.tgz" "sha256:0a1b") []));
    discriminate.
Defined.

(** ** The options of the scheduler *)

Lemma defaultGate_keeps env gate version (gates : gmap string string) key value :
  gates !! key = Some value →
  kubescheduler.defaultGate env gate version gates !! key = Some value.
Proof.
  intros Hkey. unfold kubescheduler.defaultGate.
  destruct (gates !! gate) as [v|] eqn:Hgate; [done|].
  destruct (kubescheduler.ControlPlaneKubernetesVersion_IsLT env version); [|done].
  rewrite lookup_insert_ne; [done|]. intros ->. congruence.
Qed.

(** When [BuildOptions] of the scheduler succeeds, the scheduler has a
    configuration with a log level that is not 0 and a leader election.
    Every feature gate that was set keeps its value: the gates for AWS are
    added only where the cluster has none of that name.  On AWS the map of
    feature gates is allocated, also when no gate is added; on the other
    clouds the feature gates are left as they are. *)
Theorem kubescheduler_BuildOptions_keeps env clusterSpec h clusterSpec' h' :
  kubescheduler.BuildOptions env clusterSpec h = (Returns (None, clusterSpec'), h') →
  ∃ config',
    kubescheduler.KubeScheduler clusterSpec' = Some config'
    ∧ kubescheduler.LogLevel config' ≠ 0%Z
    ∧ is_Some (kubescheduler.LeaderElection config')
    ∧ (∀ config gates gate value,
         kubescheduler.KubeScheduler clusterSpec = Some config →
         kubescheduler.FeatureGates config = Some gates →
         gates !! gate = Some value →
         ∃ gates', kubescheduler.FeatureGates config' = Some gates'
                   ∧ gates' !! gate = Some value)
    ∧ (if kubescheduler.CloudProvider_AWS clusterSpec
       then is_Some (kubescheduler.FeatureGates config')
       else kubescheduler.FeatureGates config'
            = config ← kubescheduler.KubeScheduler clusterSpec;
              kubescheduler.FeatureGates config).
Proof.
  unfold kubescheduler.BuildOptions. cbn zeta. unfold mbind at 1, M_bind.
  match goal with
  | |- context [match ?run with (o, h0) => _ end = _] =>
      destruct run as [[[image|err]|] h1]
  end; [|discriminate..].
  run_m. intros [= <- _]. eexists. split; [reflexivity|].
  destruct clusterSpec as [[[level image0 election gates]|] aws]; cbn.
  - split_and!.
    + destruct (Z.eqb_spec level 0); cbn;
        destruct election, aws; cbn; destruct (Z.eqb_spec level 0); cbn; lia.
    + destruct (level =? 0)%Z; cbn; destruct election, aws; cbn; eauto.
    + intros config gates0 gate value [= <-] Hgates Hgate. cbn in Hgates. subst gates.
      destruct (level =? 0)%Z; cbn; destruct election, aws; cbn; eauto.
      all: eexists; split; [reflexivity|]; by do 2 apply defaultGate_keeps.
    + destruct (level =? 0)%Z; cbn; destruct election, aws; cbn; eauto.
  - split_and!.
    + destruct aws; cbn; lia.
    + destruct aws; cbn; eauto.
    + intros config gates0 gate value [=].
    + destruct aws; cbn; eauto.
Qed.

Lemma kubescheduler_BuildOptions_keeps_witness :
  ∃ clusterSpec' gates',
    kubescheduler.BuildOptions samples_scheduler_env samples_scheduler_spec []
    = (Returns (None, clusterSpec'), [])
    ∧ (config' ← kubescheduler.KubeScheduler clusterSpec';
       kubescheduler.FeatureGates config') = Some gates'
    ∧ gates' !! "InTreePluginAWSUnregister" = Some "false".
Proof.
  assert (Hrun : ∃ clusterSpec',
            kubescheduler.BuildOptions samples_scheduler_env samples_scheduler_spec []
            = (Returns (None, clusterSpec'), [])) by (eexists; reflexivity).
  destruct Hrun as [clusterSpec' Hrun].
  destruct (kubescheduler_BuildOptions_keeps _ _ _ _ _ Hrun)
    as (config' & Hconfig & _ & _ & Hgates & _).
  destruct (Hgates _ {[ "InTreePluginAWSUnregister" := "false" ]}
              "InTreePluginAWSUnregister" "false" eq_refl eq_refl eq_refl)
    as (gates' & Hgates' & Hgate).
  exists clusterSpec', gates'. split; [exact Hrun|]. rewrite Hconfig. cbn. done.
Defined.

(** When the scheduler has no image and [Image] fails, [BuildOptions]
    returns the error of [Image] as it is, and the cluster specification
    has been changed already: the scheduler has a configuration, and a log
    level of 0 has become 2. *)
Theorem kubescheduler_BuildOptions_error env clusterSpec h err :
  (∀ config, kubescheduler.KubeScheduler clusterSpec = Some config →
             kubescheduler.Image config = "") →
  let config :=
    default {| kubescheduler.LogLevel := 0; kubescheduler.Image := "";
               kubescheduler.LeaderElection := None;
               kubescheduler.FeatureGates := None |}
      (kubescheduler.KubeScheduler clusterSpec) in
  let changed :=
    kubescheduler.set_KubeScheduler
      (if (kubescheduler.LogLevel config =? 0)%Z
       then kubescheduler.set_LogLevel 2 config else config) clusterSpec in
  kubescheduler.Image_resp env h "kube-scheduler" changed = Err err →
  kubescheduler.BuildOptions env clusterSpec h
  = (Returns (Some err, changed), h ++ [kubescheduler.Image_ "kube-scheduler" changed])
  ∧ kubescheduler.KubeScheduler changed ≠ None.
Proof.
  intros Himage config changed Hresp. split; [|done].
  unfold kubescheduler.BuildOptions. cbn zeta.
  assert (Hempty : kubescheduler.Image config = "").
  { unfold config. destruct (kubescheduler.KubeScheduler clusterSpec) as [c|]; cbn;
      [by apply Himage | done]. }
  replace (match kubescheduler.KubeScheduler clusterSpec with
           | Some config => config
           | None => _
           end) with config by (unfold config; by destruct (kubescheduler.KubeScheduler _)).
  assert (Hempty' : kubescheduler.Image
                      (if (kubescheduler.LogLevel config =? 0)%Z
                       then kubescheduler.set_LogLevel 2 config else config) = "")
    by (by destruct (_ =? _)%Z).
  rewrite Hempty'. cbn [String.eqb]. run_m. fold changed. rewrite Hresp. reflexivity.
Qed.

Lemma kubescheduler_BuildOptions_error_witness :
  ∃ changed,
    kubescheduler.BuildOptions samples_scheduler_env
      {| kubescheduler.KubeScheduler := None; kubescheduler.CloudProvider_AWS := false |} []
    = (Returns (Some (External "no asset"), changed),
       [kubescheduler.Image_ "kube-scheduler" changed])
    ∧ kubescheduler.KubeScheduler changed ≠ None.
Proof.
  eexists.
  apply (kubescheduler_BuildOptions_error samples_scheduler_env
           {| kubescheduler.KubeScheduler := None;
              kubescheduler.CloudProvider_AWS := false |} [] (External "no asset")).
  - intros config [=].
  - reflexivity.
Defined.
